(** * DV360 reporting server: the report-execution pipeline of [server.py]

    A shallow embedding of the Python functions [parse_csv_to_json],
    [format_date_for_api], [prepare_filters],
    [prepare_dimensions_and_metrics], [download_csv_from_gcs],
    [get_bid_manager_service], [get_dv360_service], [dv_run_report] and of
    the nine entity tools [dv_list_*] and [dv_get_*], followed by the
    properties proved about them.

    Conventions of the embedding.
    - A Python [str] is a [string]; a character is a code point below 256
      (an [ascii]), and the character classes of Python ([str.isdigit],
      [str.isspace]) are given on that range as the Unicode database has them.
    - A Python object is a [pyval]; an exception is an [exn]; a computation
      that may raise is a [result].
    - Library functions the source calls ([str.split], [str.strip],
      [str.replace], [int], [float], [csv.DictReader], [io.StringIO]) are
      written out after CPython's behaviour; the remote services, the
      environment and [repr] are fields of a [world]. *)

From Stdlib Require Import String Ascii List ZArith NArith Lia Bool DecimalString.
Import ListNotations.
Open Scope string_scope.
Set Warnings "-register-all".

(** ** Python strings *)

Module Py.

(** Code point of a character. *)
Definition ord (c : ascii) : nat := nat_of_ascii c.

(** The characters ['0'..'9']: the only code points below 256 that [int] and
    [float] read as decimal digits. *)
Definition is_decimal (c : ascii) : bool :=
  (48 <=? ord c)%nat && (ord c <=? 57)%nat.

(** [c.isdigit()]: the decimal digits and, below 256, the superscripts
    U+00B2, U+00B3 and U+00B9 (Numeric_Type=Digit). *)
Definition isdigit_char (c : ascii) : bool :=
  is_decimal c || (ord c =? 178)%nat || (ord c =? 179)%nat || (ord c =? 185)%nat.

(** [c.isspace()] below 256: U+0009..U+000D, U+001C..U+001F, U+0020, U+0085,
    U+00A0. *)
Definition isspace_char (c : ascii) : bool :=
  ((9 <=? ord c)%nat && (ord c <=? 13)%nat)
  || ((28 <=? ord c)%nat && (ord c <=? 31)%nat)
  || (ord c =? 32)%nat || (ord c =? 133)%nat || (ord c =? 160)%nat.

(** Value of a decimal digit. *)
Definition digit_value (c : ascii) : N := N.of_nat (ord c - 48).

Fixpoint forallb_str (p : ascii -> bool) (s : string) : bool :=
  match s with
  | EmptyString => true
  | String c s' => p c && forallb_str p s'
  end.

(** [s.isdigit()]: at least one character and every character a digit. *)
Definition isdigit (s : string) : bool :=
  match s with
  | EmptyString => false
  | _ => forallb_str isdigit_char s
  end.

(** [c in s] for a one-character [c]. *)
Fixpoint contains (c : ascii) (s : string) : bool :=
  match s with
  | EmptyString => false
  | String a s' => Ascii.eqb a c || contains c s'
  end.

(** Number of occurrences of [c] in [s] ([s.count(c)]). *)
Fixpoint count (c : ascii) (s : string) : nat :=
  match s with
  | EmptyString => 0
  | String a s' => (if Ascii.eqb a c then 1 else 0) + count c s'
  end.

(** [s.replace(c, '', 1)]: the first occurrence of [c] removed. *)
Fixpoint replace1 (c : ascii) (s : string) : string :=
  match s with
  | EmptyString => EmptyString
  | String a s' => if Ascii.eqb a c then s' else String a (replace1 c s')
  end.

(** [s.split(sep)] for a one-character separator: never empty, one more piece
    than there are separators. *)
Fixpoint split (sep : ascii) (s : string) : list string :=
  match s with
  | EmptyString => [EmptyString]
  | String c s' =>
      if Ascii.eqb c sep then EmptyString :: split sep s'
      else match split sep s' with
           | [] => [String c EmptyString]
           | p :: ps => String c p :: ps
           end
  end.

(** [sep.join(l)] for a one-character separator. *)
Fixpoint join (sep : ascii) (l : list string) : string :=
  match l with
  | [] => EmptyString
  | [p] => p
  | p :: ps => p ++ String sep (join sep ps)
  end.

Fixpoint lstrip (s : string) : string :=
  match s with
  | EmptyString => EmptyString
  | String c s' => if isspace_char c then lstrip s' else s
  end.

Fixpoint rstrip (s : string) : string :=
  match s with
  | EmptyString => EmptyString
  | String c s' =>
      match rstrip s' with
      | EmptyString => if isspace_char c then EmptyString else String c EmptyString
      | r => String c r
      end
  end.

(** [s.strip()]. *)
Definition strip (s : string) : string := rstrip (lstrip s).

(** [str(n)] for a natural number and for an integer. *)
Definition str_of_nat (n : nat) : string := NilZero.string_of_uint (Nat.to_uint n).
Definition str_of_Z (z : Z) : string := NilZero.string_of_int (Z.to_int z).

(** *** [int(s)] *)

(** [sys.get_int_max_str_digits()] as CPython ships it: [int] refuses a
    decimal string of more digits with a [ValueError]. *)
Definition int_max_str_digits : nat := 4300.

(** A leading ['+'] or ['-']. *)
Definition split_sign (s : string) : bool * string :=
  match s with
  | String c s' =>
      if Ascii.eqb c "-" then (true, s')
      else if Ascii.eqb c "+" then (false, s')
      else (false, s)
  | EmptyString => (false, s)
  end.

(** Digits with single underscores between them; returns the value and the
    number of digits. [after_us] says that the previous character was an
    underscore. *)
Fixpoint int_digits (after_us : bool) (acc : N) (cnt : nat) (s : string)
  : option (N * nat) :=
  match s with
  | EmptyString => if after_us then None else Some (acc, cnt)
  | String c s' =>
      if Ascii.eqb c "_" then
        if after_us then None else int_digits true acc cnt s'
      else if is_decimal c then
        int_digits false (10 * acc + digit_value c)%N (S cnt) s'
      else None
  end.

Definition int_body (s : string) : option (N * nat) :=
  match s with
  | EmptyString => None
  | String c _ => if Ascii.eqb c "_" then None else int_digits false 0%N 0 s
  end.

(** [int(s)] in base 10; [None] stands for the [ValueError]. Surrounding
    white space is dropped, a sign may lead, and the digits are counted
    against [int_max_str_digits]. *)
Definition int (s : string) : option Z :=
  let '(neg, body) := split_sign (strip s) in
  match int_body body with
  | Some (n, cnt) =>
      if (int_max_str_digits <? cnt)%nat then None
      else Some (if neg then (- Z.of_N n)%Z else Z.of_N n)
  | None => None
  end.

(** *** [float(s)] *)

(** A Python [float]. [Finite neg m e] is the binary64 number nearest to
    [(-1)^neg * m * 10^e]; the rounding itself is not computed. *)
Inductive pyfloat :=
| Finite (neg : bool) (mantissa : N) (exp10 : Z)
| Infinity (neg : bool)
| NaN.

(** Underscores are allowed only between two digits. [prev] is the previous
    character. *)
Definition is_underscore (prev : option ascii) : bool :=
  match prev with
  | Some p => Ascii.eqb p "_"
  | None => false
  end.

Fixpoint underscores_ok (prev : option ascii) (s : string) : bool :=
  match s with
  | EmptyString => negb (is_underscore prev)
  | String c s' =>
      (if Ascii.eqb c "_" then
         match prev with Some p => is_decimal p | None => false end
       else
         if is_underscore prev then is_decimal c else true)
      && underscores_ok (Some c) s'
  end.

Fixpoint remove_underscores (s : string) : string :=
  match s with
  | EmptyString => EmptyString
  | String c s' =>
      if Ascii.eqb c "_" then remove_underscores s' else String c (remove_underscores s')
  end.

(** Lower case of an ASCII letter. *)
Definition ascii_lower (c : ascii) : ascii :=
  if (65 <=? ord c)%nat && (ord c <=? 90)%nat then ascii_of_nat (ord c + 32) else c.

Fixpoint map_str (f : ascii -> ascii) (s : string) : string :=
  match s with
  | EmptyString => EmptyString
  | String c s' => String (f c) (map_str f s')
  end.

(** The longest prefix of decimal digits, and the rest. *)
Fixpoint span_digits (s : string) : string * string :=
  match s with
  | String c s' =>
      if is_decimal c then
        let '(d, r) := span_digits s' in (String c d, r)
      else (EmptyString, s)
  | EmptyString => (EmptyString, EmptyString)
  end.

Fixpoint digits_value (acc : N) (s : string) : N :=
  match s with
  | EmptyString => acc
  | String c s' => digits_value (10 * acc + digit_value c)%N s'
  end.

(** The exponent part: nothing, or [e]/[E], an optional sign and at least one
    digit, up to the end of the string. *)
Definition exponent (s : string) : option Z :=
  match s with
  | EmptyString => Some 0%Z
  | String c s' =>
      if Ascii.eqb (ascii_lower c) "e" then
        let '(neg, b) := split_sign s' in
        match span_digits b with
        | (String d ds, EmptyString) =>
            let v := Z.of_N (digits_value 0%N (String d ds)) in
            Some (if neg then (- v)%Z else v)
        | _ => None
        end
      else None
  end.

(** [float(s)]; [None] stands for the [ValueError]. *)
Definition float (s : string) : option pyfloat :=
  if negb (underscores_ok None s) then None else
  let '(neg, body) := split_sign (strip (remove_underscores s)) in
  let low := map_str ascii_lower body in
  if String.eqb low "inf" || String.eqb low "infinity" then Some (Infinity neg)
  else if String.eqb low "nan" then Some NaN
  else
    let '(ip, r1) := span_digits body in
    let '(fp, r2) :=
      match r1 with
      | String c r => if Ascii.eqb c "." then span_digits r else (EmptyString, r1)
      | EmptyString => (EmptyString, r1)
      end in
    match ip, fp with
    | EmptyString, EmptyString => None
    | _, _ =>
        match exponent r2 with
        | Some e =>
            Some (Finite neg (digits_value 0%N (ip ++ fp))
                    (e - Z.of_nat (String.length fp))%Z)
        | None => None
        end
    end.

End Py.

(** ** Python objects, exceptions and results *)

(** The objects the program handles: [None], booleans, integers, floats,
    strings, lists and dictionaries (insertion-ordered lists of items). *)
Inductive pyval :=
| PNone
| PBool (b : bool)
| PInt (z : Z)
| PFloat (f : Py.pyfloat)
| PStr (s : string)
| PList (l : list pyval)
| PDict (items : list (pyval * pyval)).

(** The subclasses of [Exception] the program meets. [OtherError] is any
    exception raised by a library or by the remote service; it carries its
    [str()]. *)
Inductive exn :=
| ValueError (msg : string)
| KeyError (key : string)
| TypeError (msg : string)
| AttributeError (msg : string)
| CsvError (msg : string)
| OtherError (msg : string).

(** [str(e)]. The keys of this program's [KeyError]s are plain identifiers,
    whose [repr] is the key between single quotes. *)
Definition str_exn (e : exn) : string :=
  match e with
  | ValueError m | TypeError m | AttributeError m | CsvError m | OtherError m => m
  | KeyError k => "'" ++ k ++ "'"
  end.

Inductive result (A : Type) :=
| Normal (a : A)
| Raise (e : exn).
Arguments Normal {A} a.
Arguments Raise {A} e.

(** [type(v).__name__]. *)
Definition type_name (v : pyval) : string :=
  match v with
  | PNone => "NoneType"
  | PBool _ => "bool"
  | PInt _ => "int"
  | PFloat _ => "float"
  | PStr _ => "str"
  | PList _ => "list"
  | PDict _ => "dict"
  end.

(** Equality of dictionary keys; the keys of this program are strings and
    [None]. *)
Definition key_eqb (a b : pyval) : bool :=
  match a, b with
  | PNone, PNone => true
  | PStr s, PStr t => String.eqb s t
  | PInt x, PInt y => Z.eqb x y
  | _, _ => false
  end.

Fixpoint dict_lookup (items : list (pyval * pyval)) (k : pyval) : option pyval :=
  match items with
  | [] => None
  | (k', v) :: rest => if key_eqb k' k then Some v else dict_lookup rest k
  end.

(** [d[k] = v]: an existing key keeps its position, a new one goes last. *)
Fixpoint dict_set (items : list (pyval * pyval)) (k v : pyval) : list (pyval * pyval) :=
  match items with
  | [] => [(k, v)]
  | (k', v') :: rest =>
      if key_eqb k' k then (k', v) :: rest else (k', v') :: dict_set rest k v
  end.

(** [dict(pairs)]. *)
Definition dict_of (pairs : list (pyval * pyval)) : list (pyval * pyval) :=
  fold_left (fun d kv => dict_set d (fst kv) (snd kv)) pairs [].

(** [v[key]] for a string [key]. *)
Definition getitem (v : pyval) (key : string) : result pyval :=
  match v with
  | PDict items =>
      match dict_lookup items (PStr key) with
      | Some x => Normal x
      | None => Raise (KeyError key)
      end
  | PStr _ => Raise (TypeError "string indices must be integers, not 'str'")
  | PList _ => Raise (TypeError "list indices must be integers or slices, not str")
  | _ => Raise (TypeError ("'" ++ type_name v ++ "' object is not subscriptable"))
  end.

(** [v.get(key, default)]. *)
Definition dict_get (v : pyval) (key : string) (default : pyval) : result pyval :=
  match v with
  | PDict items =>
      match dict_lookup items (PStr key) with
      | Some x => Normal x
      | None => Normal default
      end
  | _ => Raise (AttributeError ("'" ++ type_name v ++ "' object has no attribute 'get'"))
  end.

(** ** The [csv] module: [csv.reader] and [csv.DictReader] with the default
    (excel) dialect: delimiter comma, quote character U+0022, a doubled quote
    character inside a quoted field stands for one, not strict. *)

Module Csv.

Inductive parser_state :=
| START_RECORD
| START_FIELD
| IN_FIELD
| IN_QUOTED_FIELD
| QUOTE_IN_QUOTED_FIELD
| EAT_CRNL.

Record reader := mkReader {
  fields : list string;
  field : string;
  field_len : N;
  state : parser_state
}.

(** [csv.field_size_limit()]. *)
Definition field_limit : N := 131072.

Definition LF : ascii := "010"%char.
Definition CR : ascii := "013"%char.
Definition delimiter : ascii := ","%char.
Definition quotechar : ascii := "034"%char.

Definition parse_reset : reader := mkReader [] EmptyString 0 START_RECORD.

Definition set_state (self : reader) (st : parser_state) : reader :=
  mkReader (fields self) (field self) (field_len self) st.

Definition parse_save_field (self : reader) : reader :=
  mkReader (fields self ++ [field self]) EmptyString 0 (state self).

Definition parse_add_char (self : reader) (c : ascii) : result reader :=
  if (field_limit <=? field_len self)%N then
    Raise (CsvError "field larger than field limit (131072)")
  else
    Normal (mkReader (fields self) (field self ++ String c EmptyString)
              (field_len self + 1) (state self)).

Definition is_newline (c : ascii) : bool := Ascii.eqb c LF || Ascii.eqb c CR.

(** The case [START_FIELD] of [parse_process_char], which [START_RECORD]
    falls through to. [None] is the end of a line. *)
Definition start_field (self : reader) (c : option ascii) : result reader :=
  match c with
  | None => Normal (set_state (parse_save_field self) START_RECORD)
  | Some ch =>
      if is_newline ch then Normal (set_state (parse_save_field self) EAT_CRNL)
      else if Ascii.eqb ch quotechar then Normal (set_state self IN_QUOTED_FIELD)
      else if Ascii.eqb ch delimiter then Normal (parse_save_field self)
      else
        match parse_add_char self ch with
        | Normal self' => Normal (set_state self' IN_FIELD)
        | Raise e => Raise e
        end
  end.

Definition parse_process_char (self : reader) (c : option ascii) : result reader :=
  match state self with
  | START_RECORD =>
      match c with
      | None => Normal self
      | Some ch =>
          if is_newline ch then Normal (set_state self EAT_CRNL)
          else start_field (set_state self START_FIELD) c
      end
  | START_FIELD => start_field self c
  | IN_FIELD =>
      match c with
      | None => Normal (set_state (parse_save_field self) START_RECORD)
      | Some ch =>
          if is_newline ch then Normal (set_state (parse_save_field self) EAT_CRNL)
          else if Ascii.eqb ch delimiter then
            Normal (set_state (parse_save_field self) START_FIELD)
          else parse_add_char self ch
      end
  | IN_QUOTED_FIELD =>
      match c with
      | None => Normal self
      | Some ch =>
          if Ascii.eqb ch quotechar then Normal (set_state self QUOTE_IN_QUOTED_FIELD)
          else parse_add_char self ch
      end
  | QUOTE_IN_QUOTED_FIELD =>
      match c with
      | None => Normal (set_state (parse_save_field self) START_RECORD)
      | Some ch =>
          if Ascii.eqb ch quotechar then
            match parse_add_char self ch with
            | Normal self' => Normal (set_state self' IN_QUOTED_FIELD)
            | Raise e => Raise e
            end
          else if Ascii.eqb ch delimiter then
            Normal (set_state (parse_save_field self) START_FIELD)
          else if is_newline ch then
            Normal (set_state (parse_save_field self) EAT_CRNL)
          else
            match parse_add_char self ch with
            | Normal self' => Normal (set_state self' IN_FIELD)
            | Raise e => Raise e
            end
      end
  | EAT_CRNL =>
      match c with
      | None => Normal (set_state self START_RECORD)
      | Some ch =>
          if is_newline ch then Normal self
          else Raise (CsvError
            "new-line character seen in unquoted field - do you need to open the file with newline=''?")
      end
  end.

(** The characters of one line, then the end-of-line mark. *)
Fixpoint process_line (self : reader) (line : string) : result reader :=
  match line with
  | EmptyString => parse_process_char self None
  | String c rest =>
      match parse_process_char self (Some c) with
      | Normal self' => process_line self' rest
      | Raise e => Raise e
      end
  end.

(** Iterating over [io.StringIO(s)]: the lines of [s], each with its ['\n']. *)
Fixpoint readlines (s : string) : list string :=
  match s with
  | EmptyString => []
  | String c s' =>
      if Ascii.eqb c LF then String c EmptyString :: readlines s'
      else match readlines s' with
           | [] => [String c EmptyString]
           | l :: ls => String c l :: ls
           end
  end.

(** What an iterator over in-memory data delivers: the items it yields, then
    [StopIteration] ([None]) or an exception. *)
Definition iteration (A : Type) : Type := (list A * option exn)%type.

Definition is_in_quoted_field (st : parser_state) : bool :=
  match st with IN_QUOTED_FIELD => true | _ => false end.

Definition is_start_record (st : parser_state) : bool :=
  match st with START_RECORD => true | _ => false end.

(** The successive results of [Reader_iternext]: lines are fed to the parser
    until it is back in [START_RECORD]; [self] is the parser in the middle of
    a record. When the lines run out in the middle of a record, the record is
    closed and returned. *)
Fixpoint reader_iter (self : reader) (lines : list string) : iteration (list string) :=
  match lines with
  | [] =>
      if (0 <? field_len self)%N || is_in_quoted_field (state self)
      then ([fields (parse_save_field self)], None)
      else ([], None)
  | line :: rest =>
      match process_line self line with
      | Raise e => ([], Some e)
      | Normal self' =>
          if is_start_record (state self') then
            let '(rows, stop) := reader_iter parse_reset rest in
            (fields self' :: rows, stop)
          else reader_iter self' rest
      end
  end.

(** [csv.reader(io.StringIO(csv_content))]. *)
Definition reader_rows (csv_content : string) : iteration (list string) :=
  reader_iter parse_reset (readlines csv_content).

(** [dict(zip(fieldnames, row))], then the surplus cells under the key [None]
    (restkey) or [None] (restval) for the missing ones. *)
Definition make_row (fieldnames row : list string) : pyval :=
  let d := dict_of (combine (map PStr fieldnames) (map PStr row)) in
  let lf := length fieldnames in
  let lr := length row in
  if (lf <? lr)%nat then
    PDict (dict_set d PNone (PList (map PStr (skipn lf row))))
  else if (lr <? lf)%nat then
    PDict (fold_left (fun d key => dict_set d (PStr key) PNone) (skipn lr fieldnames) d)
  else PDict d.

Definition is_nil {A} (l : list A) : bool :=
  match l with [] => true | _ => false end.

(** [csv.DictReader(f)]: the first record is the header; empty records are
    skipped afterwards. *)
Definition DictReader (csv_content : string) : iteration pyval :=
  match reader_rows csv_content with
  | ([], stop) => ([], stop)
  | (fieldnames :: rows, stop) =>
      (map (make_row fieldnames) (filter (fun r => negb (is_nil r)) rows), stop)
  end.

End Csv.

(** ** [server.py] *)

Module Server.

(** *** Report File Decoder *)

(** The body of the inner loop of [parse_csv_to_json]: the value stored
    for one cell. A value that is neither [None] nor a string has no
    [replace] method. *)
Definition convert_value (value : pyval) : result pyval :=
  match value with
  | PNone => Normal PNone
  | PStr EmptyString => Normal PNone
  | PStr s =>
      if Py.isdigit (Py.replace1 "-" (Py.replace1 "." s)) then
        if negb (Py.contains "." s) then
          match Py.int s with
          | Some z => Normal (PInt z)
          | None => Normal (PStr s)
          end
        else
          match Py.float s with
          | Some f => Normal (PFloat f)
          | None => Normal (PStr s)
          end
      else Normal (PStr s)
  | v => Raise (AttributeError ("'" ++ type_name v ++ "' object has no attribute 'replace'"))
  end.

(** [for key, value in row.items(): parsed_row[key] = ...]. *)
Fixpoint parse_items (items : list (pyval * pyval)) (parsed_row : list (pyval * pyval))
  : result (list (pyval * pyval)) :=
  match items with
  | [] => Normal parsed_row
  | (key, value) :: rest =>
      match convert_value value with
      | Normal v => parse_items rest (dict_set parsed_row key v)
      | Raise e => Raise e
      end
  end.

Definition parse_row (row : pyval) : result pyval :=
  match row with
  | PDict items =>
      match parse_items items [] with
      | Normal parsed_row => Normal (PDict parsed_row)
      | Raise e => Raise e
      end
  | v => Raise (AttributeError ("'" ++ type_name v ++ "' object has no attribute 'items'"))
  end.

(** [for row in reader: ... data.append(parsed_row)] over the rows the reader
    yields. *)
Fixpoint parse_rows (rows : list pyval) (data : list pyval) : result (list pyval) :=
  match rows with
  | [] => Normal data
  | row :: rest =>
      match parse_row row with
      | Normal parsed_row => parse_rows rest (data ++ [parsed_row])
      | Raise e => Raise e
      end
  end.

(** [parse_csv_to_json] up to its log line: the whole loop, ended by the
    reader's [StopIteration] or by the exception it raises. *)
Definition parse_csv (csv_content : string) : result (list pyval) :=
  let '(rows, stop) := Csv.DictReader csv_content in
  match parse_rows rows [] with
  | Normal data =>
      match stop with
      | None => Normal data
      | Some e => Raise e
      end
  | Raise e => Raise e
  end.

(** *** Date Formatter *)

(** [year, month, day = date_str.split('-')]: unpacking raises [ValueError]
    unless there are exactly three pieces. *)
Definition format_date_for_api (date_str : string) : result pyval :=
  match Py.split "-" date_str with
  | [year; month; day] =>
      Normal (PDict [(PStr "year", PStr year);
                     (PStr "month", PStr month);
                     (PStr "day", PStr day)])
  | _ :: _ :: _ :: _ :: _ => Raise (ValueError "too many values to unpack (expected 3)")
  | parts =>
      Raise (ValueError ("not enough values to unpack (expected 3, got "
                         ++ Py.str_of_nat (length parts) ++ ")"))
  end.

(** *** Filter Builder and Field Normalizer *)

(** An argument of type [Union[List[str], str]]. *)
Inductive str_or_list :=
| Str (s : string)
| Lst (l : list string).

(** Truth value of an [Optional[Union[List[str], str]]]: [None], the empty
    string and the empty list are false. *)
Definition truthy (x : option str_or_list) : bool :=
  match x with
  | None => false
  | Some (Str EmptyString) => false
  | Some (Lst []) => false
  | Some _ => true
  end.

(** [if isinstance(x, str): x = [id.strip() for id in x.split(',')]]. *)
Definition split_if_str (x : str_or_list) : list string :=
  match x with
  | Str s => map Py.strip (Py.split "," s)
  | Lst l => l
  end.

Definition filter_clause (type value : string) : pyval :=
  PDict [(PStr "type", PStr type); (PStr "value", PStr value)].

(** One of the four blocks of [prepare_filters]. *)
Definition append_filters (filters : list pyval) (type : string) (ids : option str_or_list)
  : list pyval :=
  match ids with
  | Some x =>
      if truthy ids then filters ++ map (filter_clause type) (split_if_str x)
      else filters
  | None => filters
  end.

Definition prepare_filters
  (advertiser_ids campaign_ids insertion_order_ids line_item_ids : option str_or_list)
  : list pyval :=
  let filters := [] in
  let filters := append_filters filters "FILTER_ADVERTISER" advertiser_ids in
  let filters := append_filters filters "FILTER_MEDIA_PLAN" campaign_ids in
  let filters := append_filters filters "FILTER_INSERTION_ORDER" insertion_order_ids in
  let filters := append_filters filters "FILTER_LINE_ITEM" line_item_ids in
  filters.

Definition prepare_dimensions_and_metrics (dimensions metrics : str_or_list)
  : list string * list string :=
  (split_if_str dimensions, split_if_str metrics).

(** *** The world outside the source *)

Variant credentials := Credentials (id : nat).
Variant service := Service (id : nat).

Inductive level := INFO | WARNING | ERROR.

(** What a call does that can be seen from outside: the log records and the
    calls to the libraries that reach the network, each with its reply. *)
Inductive event :=
| Log (lvl : level) (msg : string)
| Build (api : string) (reply : result service)
| QueriesCreate (body : pyval) (reply : result pyval)
| QueriesRun (query_id : pyval) (synchronous : bool) (reply : result pyval)
| Urlopen (gcs_path : pyval) (reply : result string)
| EntityCall (method : string) (kwargs : pyval) (reply : result pyval).

(** Everything the source takes from outside. The replies of the network
    may depend on all that happened before (the trace so far).
    - [SERVICE_ACCOUNT_JSON]: [os.getenv] of [DV360_SERVICE_ACCOUNT];
    - [DEFAULT_PARTNER_ID]: [os.getenv] of [DV360_PARTNER_ID];
    - [json_loads]: [json.loads], the parsed value or the text of the
      [JSONDecodeError];
    - [from_service_account_info]:
      [service_account.Credentials.from_service_account_info(info, scopes)];
    - [discovery_build]: [discovery.build(name, version, credentials)];
    - [queries_create]: [service.queries().create(body=body).execute()];
    - [queries_run]:
      [service.queries().run(queryId=q, synchronous=True).execute()];
    - [urlopen_read]: [urlopen(path)], [url.read().decode('utf-8')] and the
      close;
    - [entity_execute]: a [list] or [get] method of the Display & Video 360
      service, called with keyword arguments, and its [execute()];
    - [repr]: [repr] of a float, a list or a dictionary. *)
Record world := mkWorld {
  SERVICE_ACCOUNT_JSON : option string;
  DEFAULT_PARTNER_ID : option string;
  json_loads : string -> string + pyval;
  from_service_account_info : pyval -> list string -> result credentials;
  discovery_build : list event -> string -> credentials -> result service;
  queries_create : list event -> service -> pyval -> result pyval;
  queries_run : list event -> service -> pyval -> result pyval;
  urlopen_read : list event -> pyval -> result string;
  entity_execute : list event -> service -> string -> pyval -> result pyval;
  repr : pyval -> string
}.

(** [str(v)], as an f-string formats a value. *)
Definition py_str (w : world) (v : pyval) : string :=
  match v with
  | PStr s => s
  | PNone => "None"
  | PBool true => "True"
  | PBool false => "False"
  | PInt z => Py.str_of_Z z
  | _ => repr w v
  end.

(** The state a tool call runs in: the module's globals
    [_bid_manager_service] and [_dv360_service], and the trace of events,
    oldest first. *)
Record pystate := mkState {
  _bid_manager_service : option service;
  _dv360_service : option service;
  trace : list event
}.

(** A computation: from a state to a state and a value or an exception. *)
Definition M (A : Type) : Type := pystate -> pystate * result A.

Definition ret {A} (a : A) : M A := fun st => (st, Normal a).

Definition raise {A} (e : exn) : M A := fun st => (st, Raise e).

Definition bind {A B} (m : M A) (k : A -> M B) : M B :=
  fun st =>
    match m st with
    | (st', Normal a) => k a st'
    | (st', Raise e) => (st', Raise e)
    end.

Notation "x <- m ;; k" := (bind m (fun x => k))
  (at level 61, m at next level, right associativity).
Notation "m ;;; k" := (bind m (fun _ => k))
  (at level 61, right associativity).

(** A pure computation that may raise. *)
Definition lift {A} (r : result A) : M A := fun st => (st, r).

(** [try: body except Exception as e: handler(e)]. *)
Definition try_except {A} (body : M A) (handler : exn -> M A) : M A :=
  fun st =>
    match body st with
    | (st', Normal a) => (st', Normal a)
    | (st', Raise e) => handler e st'
    end.

Definition emit (e : event) : M unit :=
  fun st =>
    (mkState (_bid_manager_service st) (_dv360_service st) (trace st ++ [e]), Normal tt).

Definition logger (lvl : level) (msg : string) : M unit := emit (Log lvl msg).

(** A call that reaches the network: the reply is the world's, given the
    trace so far, and is recorded. *)
Definition remote {A} (reply : list event -> result A) (ev : result A -> event) : M A :=
  fun st =>
    let r := reply (trace st) in
    (mkState (_bid_manager_service st) (_dv360_service st) (trace st ++ [ev r]), r).

Definition get_global : M (option service) :=
  fun st => (st, Normal (_bid_manager_service st)).

Definition set_global (svc : service) : M unit :=
  fun st => (mkState (Some svc) (_dv360_service st) (trace st), Normal tt).

Definition get_global_dv360 : M (option service) :=
  fun st => (st, Normal (_dv360_service st)).

Definition set_global_dv360 (svc : service) : M unit :=
  fun st => (mkState (_bid_manager_service st) (Some svc) (trace st), Normal tt).

Definition BID_MANAGER_API_NAME : string := "doubleclickbidmanager".
Definition BID_MANAGER_API_SCOPES : list string :=
  ["https://www.googleapis.com/auth/doubleclickbidmanager"].
Definition DV360_API_NAME : string := "displayvideo".
Definition DV360_API_SCOPES : list string :=
  ["https://www.googleapis.com/auth/display-video"].

Definition not_set_message : string :=
  "DV360_SERVICE_ACCOUNT environment variable not set. Please set it to your service account JSON credentials.".

Definition get_bid_manager_service (w : world) : M service :=
  cached <- get_global ;;
  match cached with
  | Some svc => ret svc
  | None =>
      match SERVICE_ACCOUNT_JSON w with
      | None | Some EmptyString => raise (ValueError not_set_message)
      | Some json =>
          match json_loads w json with
          | inl e =>
              raise (ValueError
                ("Invalid JSON in DV360_SERVICE_ACCOUNT environment variable: " ++ e))
          | inr service_account_info =>
              logger INFO "Authenticating Bid Manager API with service account credentials" ;;;
              creds <- lift (from_service_account_info w service_account_info
                               BID_MANAGER_API_SCOPES) ;;
              svc <- remote (fun tr => discovery_build w tr BID_MANAGER_API_NAME creds)
                            (Build BID_MANAGER_API_NAME) ;;
              set_global svc ;;;
              logger INFO "Bid Manager API service initialized successfully" ;;;
              ret svc
          end
      end
  end.

Definition get_dv360_service (w : world) : M service :=
  cached <- get_global_dv360 ;;
  match cached with
  | Some svc => ret svc
  | None =>
      match SERVICE_ACCOUNT_JSON w with
      | None | Some EmptyString => raise (ValueError not_set_message)
      | Some json =>
          match json_loads w json with
          | inl e =>
              raise (ValueError
                ("Invalid JSON in DV360_SERVICE_ACCOUNT environment variable: " ++ e))
          | inr service_account_info =>
              logger INFO "Authenticating DV360 API with service account credentials" ;;;
              creds <- lift (from_service_account_info w service_account_info
                               DV360_API_SCOPES) ;;
              svc <- remote (fun tr => discovery_build w tr DV360_API_NAME creds)
                            (Build DV360_API_NAME) ;;
              set_global_dv360 svc ;;;
              logger INFO "DV360 API service initialized successfully" ;;;
              ret svc
          end
      end
  end.

(** Backward compatibility: the alias of [get_bid_manager_service]. *)
Definition get_service (w : world) : M service := get_bid_manager_service w.

Definition download_csv_from_gcs (w : world) (gcs_path : pyval) : M string :=
  logger INFO ("Downloading report from: " ++ py_str w gcs_path) ;;;
  content <- remote (fun tr => urlopen_read w tr gcs_path) (Urlopen gcs_path) ;;
  logger INFO ("Report downloaded successfully ("
               ++ Py.str_of_nat (String.length content) ++ " bytes)") ;;;
  ret content.

Definition parse_csv_to_json (csv_content : string) : M (list pyval) :=
  data <- lift (parse_csv csv_content) ;;
  logger INFO ("Parsed " ++ Py.str_of_nat (length data) ++ " rows from CSV") ;;;
  ret data.

(** *** Report Orchestrator *)

Record report_args := mkArgs {
  start_date : string;
  end_date : string;
  dimensions : str_or_list;
  metrics : str_or_list;
  advertiser_ids : option str_or_list;
  campaign_ids : option str_or_list;
  insertion_order_ids : option str_or_list;
  line_item_ids : option str_or_list;
  report_name : string
}.

Definition str_list (l : list string) : pyval := PList (map PStr l).

(** [v == s] for an object [v] and a string [s]. *)
Definition eq_str (v : pyval) (s : string) : bool :=
  match v with
  | PStr t => String.eqb t s
  | _ => false
  end.

Definition query_obj (a : report_args) (start_date_dict end_date_dict : pyval)
  (dimensions_list metrics_list : list string) (filters : list pyval) : pyval :=
  PDict [
    (PStr "metadata", PDict [
       (PStr "title", PStr (report_name a));
       (PStr "dataRange", PDict [
          (PStr "range", PStr "CUSTOM_DATES");
          (PStr "customStartDate", start_date_dict);
          (PStr "customEndDate", end_date_dict)]);
       (PStr "format", PStr "CSV")]);
    (PStr "params", PDict [
       (PStr "type", PStr "STANDARD");
       (PStr "groupBys", str_list dimensions_list);
       (PStr "filters", PList filters);
       (PStr "metrics", str_list metrics_list)]);
    (PStr "schedule", PDict [(PStr "frequency", PStr "ONE_TIME")])
  ].

(** The record returned when the remote run reports the state [FAILED]. *)
Definition failed_result (error_msg : string) (query_id : pyval) : pyval :=
  PDict [(PStr "success", PBool false);
         (PStr "error", PStr ("Report generation failed: " ++ error_msg));
         (PStr "query_id", query_id)].

(** The record returned on success. *)
Definition success_result (a : report_args) (parsed_data : list pyval)
  (query_id report_id : pyval) (dimensions_list metrics_list : list string)
  (filters : list pyval) : pyval :=
  PDict [(PStr "success", PBool true);
         (PStr "data", PList parsed_data);
         (PStr "metadata", PDict [
            (PStr "query_id", query_id);
            (PStr "report_id", report_id);
            (PStr "date_range", PDict [
               (PStr "start_date", PStr (start_date a));
               (PStr "end_date", PStr (end_date a))]);
            (PStr "dimensions", str_list dimensions_list);
            (PStr "metrics", str_list metrics_list);
            (PStr "filters", PList filters);
            (PStr "row_count", PInt (Z.of_nat (length parsed_data)))])].

(** The record returned by the [except Exception] clause. *)
Definition error_result (e : exn) : pyval :=
  PDict [(PStr "success", PBool false); (PStr "error", PStr (str_exn e))].

Definition no_filter_warning : string :=
  "No filters specified. Report will include all data (may be very large).".

(** The [try] block of [dv_run_report]. *)
Definition dv_run_report_try (w : world) (a : report_args) : M pyval :=
  service <- get_service w ;;
  start_date_dict <- lift (format_date_for_api (start_date a)) ;;
  end_date_dict <- lift (format_date_for_api (end_date a)) ;;
  let '(dimensions_list, metrics_list) :=
    prepare_dimensions_and_metrics (dimensions a) (metrics a) in
  let filters :=
    prepare_filters (advertiser_ids a) (campaign_ids a)
      (insertion_order_ids a) (line_item_ids a) in
  (if Csv.is_nil filters then logger WARNING no_filter_warning else ret tt) ;;;
  let body := query_obj a start_date_dict end_date_dict dimensions_list metrics_list filters in
  logger INFO ("Creating query: " ++ report_name a) ;;;
  query_response <- remote (fun tr => queries_create w tr service body) (QueriesCreate body) ;;
  query_id <- lift (getitem query_response "queryId") ;;
  logger INFO ("Query " ++ py_str w query_id ++ " created. Running synchronously...") ;;;
  report_response <- remote (fun tr => queries_run w tr service query_id)
                            (QueriesRun query_id true) ;;
  md <- lift (getitem report_response "metadata") ;;
  status <- lift (getitem md "status") ;;
  state <- lift (getitem status "state") ;;
  if eq_str state "FAILED" then
    md <- lift (getitem report_response "metadata") ;;
    status <- lift (getitem md "status") ;;
    error_msg <- lift (dict_get status "message" (PStr "Unknown error")) ;;
    logger ERROR ("Report failed: " ++ py_str w error_msg) ;;;
    ret (failed_result (py_str w error_msg) query_id)
  else
    key <- lift (getitem report_response "key") ;;
    report_id <- lift (getitem key "reportId") ;;
    logger INFO ("Report " ++ py_str w report_id ++ " generated successfully") ;;;
    md <- lift (getitem report_response "metadata") ;;
    gcs_path <- lift (getitem md "googleCloudStoragePath") ;;
    csv_content <- download_csv_from_gcs w gcs_path ;;
    parsed_data <- parse_csv_to_json csv_content ;;
    key <- lift (getitem report_response "key") ;;
    report_id <- lift (getitem key "reportId") ;;
    ret (success_result a parsed_data query_id report_id dimensions_list metrics_list filters).

Definition dv_run_report (w : world) (a : report_args) : M pyval :=
  try_except (dv_run_report_try w a)
    (fun e =>
       logger ERROR ("Error running report: " ++ str_exn e) ;;;
       ret (error_result e)).

(** *** Request parameters of the entity-list tools *)

(** [if x: params[key] = x] for an [Optional[str]]. *)
Definition set_if (params : list (pyval * pyval)) (key : string) (x : option string)
  : list (pyval * pyval) :=
  match x with
  | None | Some EmptyString => params
  | Some v => dict_set params (PStr key) (PStr v)
  end.

(** The [params] that [dv_list_advertisers] passes to
    [service.advertisers().list]; [partner_id] is the argument, or
    [DV360_PARTNER_ID] in its place. *)
Definition dv_list_advertisers_params (partner_id : string) (page_size : Z)
  (order_by : option string) : pyval :=
  let params := [(PStr "partnerId", PStr partner_id);
                 (PStr "pageSize", PInt (Z.min page_size 100))] in
  let params := set_if params "orderBy" order_by in
  PDict params.

(** The [params] that [dv_list_campaigns] passes to
    [service.advertisers().campaigns().list]. *)
Definition dv_list_campaigns_params (advertiser_id : string) (page_size : Z)
  (filter order_by : option string) : pyval :=
  let params := [(PStr "advertiserId", PStr advertiser_id);
                 (PStr "pageSize", PInt (Z.min page_size 100))] in
  let params := set_if params "filter" filter in
  let params := set_if params "orderBy" order_by in
  PDict params.

(** The [params] that [dv_list_insertion_orders] passes to
    [service.advertisers().insertionOrders().list]. *)
Definition dv_list_insertion_orders_params (advertiser_id : string) (page_size : Z)
  (filter order_by : option string) : pyval :=
  let params := [(PStr "advertiserId", PStr advertiser_id);
                 (PStr "pageSize", PInt (Z.min page_size 100))] in
  let params := set_if params "filter" filter in
  let params := set_if params "orderBy" order_by in
  PDict params.

(** The [params] that [dv_list_line_items] passes to
    [service.advertisers().lineItems().list]. *)
Definition dv_list_line_items_params (advertiser_id : string) (page_size : Z)
  (filter order_by : option string) : pyval :=
  let params := [(PStr "advertiserId", PStr advertiser_id);
                 (PStr "pageSize", PInt (Z.min page_size 100))] in
  let params := set_if params "filter" filter in
  let params := set_if params "orderBy" order_by in
  PDict params.

(** The [params] that [dv_list_creatives] passes to
    [service.advertisers().creatives().list]. *)
Definition dv_list_creatives_params (advertiser_id : string) (page_size : Z)
  (filter order_by : option string) : pyval :=
  let params := [(PStr "advertiserId", PStr advertiser_id);
                 (PStr "pageSize", PInt (Z.min page_size 100))] in
  let params := set_if params "filter" filter in
  let params := set_if params "orderBy" order_by in
  PDict params.

(** *** Entity tools *)

(** [len(v)]. *)
Definition py_len (v : pyval) : result nat :=
  match v with
  | PList l => Normal (length l)
  | PStr s => Normal (String.length s)
  | PDict items => Normal (length items)
  | _ => Raise (TypeError ("object of type '" ++ type_name v ++ "' has no len()"))
  end.

Fixpoint chars (s : string) : list pyval :=
  match s with
  | EmptyString => []
  | String c s' => PStr (String c EmptyString) :: chars s'
  end.

(** The items [for x in v] goes through. *)
Definition py_iter (v : pyval) : result (list pyval) :=
  match v with
  | PList l => Normal l
  | PStr s => Normal (chars s)
  | PDict items => Normal (map fst items)
  | _ => Raise (TypeError ("'" ++ type_name v ++ "' object is not iterable"))
  end.

(** A dictionary display whose values are [entity.get(key, default)], in
    the order of the display: [(name, key, default)] stands for
    [name: entity.get(key, default)]. *)
Fixpoint format_entity (fields : list (string * string * pyval)) (entity : pyval)
  : result (list (pyval * pyval)) :=
  match fields with
  | [] => Normal []
  | (name, key, default) :: rest =>
      match dict_get entity key default with
      | Normal v =>
          match format_entity rest entity with
          | Normal items => Normal ((PStr name, v) :: items)
          | Raise e => Raise e
          end
      | Raise e => Raise e
      end
  end.

(** [for x in items: formatted.append({...})]. *)
Fixpoint format_all (fields : list (string * string * pyval)) (items : list pyval)
  (formatted : list pyval) : result (list pyval) :=
  match items with
  | [] => Normal formatted
  | x :: rest =>
      match format_entity fields x with
      | Normal d => format_all fields rest (formatted ++ [PDict d])
      | Raise e => Raise e
      end
  end.

(** [sub in s]. *)
Fixpoint contains_str (sub s : string) : bool :=
  String.prefix sub s ||
  match s with
  | EmptyString => false
  | String _ s' => contains_str sub s'
  end.

(** [c.lower()] below 256: the letters [A..Z] and U+00C0..U+00DE but
    U+00D7. *)
Definition lower_char (c : ascii) : ascii :=
  let n := Py.ord c in
  if ((65 <=? n)%nat && (n <=? 90)%nat)
     || ((192 <=? n)%nat && (n <=? 222)%nat && negb (n =? 215)%nat)
  then ascii_of_nat (n + 32) else c.

Definition lower (s : string) : string := Py.map_str lower_char s.

(** The three returns of the [except] clause of an entity tool. *)
Definition classify_error (error_msg permission_message not_found_message : string)
  : pyval :=
  if contains_str "permission" (lower error_msg) || contains_str "403" error_msg then
    PDict [(PStr "success", PBool false);
           (PStr "error", PStr error_msg);
           (PStr "message", PStr permission_message)]
  else if contains_str "not found" (lower error_msg) || contains_str "404" error_msg then
    PDict [(PStr "success", PBool false);
           (PStr "error", PStr error_msg);
           (PStr "message", PStr not_found_message)]
  else
    PDict [(PStr "success", PBool false); (PStr "error", PStr error_msg)].

(** [except Exception as e:] of an entity tool; [what] is the words of its
    log line. *)
Definition entity_except (what permission_message not_found_message : string) (e : exn)
  : M pyval :=
  let error_msg := str_exn e in
  logger ERROR ("Error " ++ what ++ ": " ++ error_msg) ;;;
  ret (classify_error error_msg permission_message not_found_message).

(** A method of the Display & Video 360 service and its [execute()]. *)
Definition execute (w : world) (service : service) (method : string) (kwargs : pyval)
  : M pyval :=
  remote (fun tr => entity_execute w tr service method kwargs) (EntityCall method kwargs).

Definition none : pyval := PNone.
Definition empty_dict : pyval := PDict [].

(** The body of a list tool after its request: [key] is the key of the
    entities in the reply, [noun] the word of the log line. *)
Definition list_reply (result : pyval) (key noun : string)
  (fields : list (string * string * pyval)) : M (list pyval * pyval) :=
  entities <- lift (dict_get result key (PList [])) ;;
  n <- lift (py_len entities) ;;
  logger INFO ("Found " ++ Py.str_of_nat n ++ " " ++ noun) ;;;
  items <- lift (py_iter entities) ;;
  formatted <- lift (format_all fields items []) ;;
  token <- lift (dict_get result "nextPageToken" none) ;;
  ret (formatted, token).

Definition list_result (plural : string) (formatted : list pyval) (id_name id : string)
  (token : pyval) : pyval :=
  PDict [(PStr "success", PBool true);
         (PStr plural, PList formatted);
         (PStr "count", PInt (Z.of_nat (length formatted)));
         (PStr id_name, PStr id);
         (PStr "next_page_token", token)].

Definition advertiser_fields : list (string * string * pyval) :=
  [("advertiser_id", "advertiserId", none);
   ("advertiser_name", "displayName", none);
   ("partner_id", "partnerId", none);
   ("entity_status", "entityStatus", none);
   ("update_time", "updateTime", none)].

(** [dv_list_advertisers]. The early return for a missing partner is the
    first statement of the [try] block, which nothing precedes that could
    raise; [partner_id] is a string from there on. *)
Definition dv_list_advertisers (w : world) (partner_id : option string) (page_size : Z)
  (order_by : option string) : M pyval :=
  let partner_id :=
    match partner_id with
    | Some p => Some p
    | None => DEFAULT_PARTNER_ID w
    end in
  match partner_id with
  | None =>
      ret (PDict [
        (PStr "success", PBool false);
        (PStr "error",
         PStr "No partner_id provided and DV360_PARTNER_ID not set in .env file");
        (PStr "message",
         PStr "Either provide partner_id parameter or set DV360_PARTNER_ID in your .env file")])
  | Some partner_id =>
      try_except
        (service <- get_dv360_service w ;;
         logger INFO ("Listing advertisers for partner " ++ partner_id ++ "...") ;;;
         let params := dv_list_advertisers_params partner_id page_size order_by in
         result <- execute w service "advertisers.list" params ;;
         reply <- list_reply result "advertisers" "advertisers" advertiser_fields ;;
         ret (list_result "advertisers" (fst reply) "partner_id" partner_id (snd reply)))
        (entity_except "listing advertisers"
           "Permission denied. Ensure your service account has Display & Video 360 API access and is linked to the partner account."
           ("Partner ID " ++ partner_id ++ " not found. Double-check the partner ID."))
  end.

Definition advertiser_permission_message : string :=
  "Permission denied. Ensure your service account has access to this advertiser.".

Definition campaign_fields : list (string * string * pyval) :=
  [("campaign_id", "campaignId", none);
   ("campaign_name", "displayName", none);
   ("advertiser_id", "advertiserId", none);
   ("entity_status", "entityStatus", none);
   ("update_time", "updateTime", none);
   ("campaign_goal", "campaignGoal", empty_dict);
   ("campaign_flight", "campaignFlight", empty_dict);
   ("frequency_cap", "frequencyCap", empty_dict)].

Definition dv_list_campaigns (w : world) (advertiser_id : string) (page_size : Z)
  (filter order_by : option string) : M pyval :=
  try_except
    (service <- get_dv360_service w ;;
     logger INFO ("Listing campaigns for advertiser " ++ advertiser_id ++ "...") ;;;
     let params := dv_list_campaigns_params advertiser_id page_size filter order_by in
     result <- execute w service "advertisers.campaigns.list" params ;;
     reply <- list_reply result "campaigns" "campaigns" campaign_fields ;;
     ret (list_result "campaigns" (fst reply) "advertiser_id" advertiser_id (snd reply)))
    (entity_except "listing campaigns" advertiser_permission_message
       ("Advertiser ID " ++ advertiser_id ++ " not found.")).

Definition insertion_order_fields : list (string * string * pyval) :=
  [("insertion_order_id", "insertionOrderId", none);
   ("insertion_order_name", "displayName", none);
   ("advertiser_id", "advertiserId", none);
   ("campaign_id", "campaignId", none);
   ("entity_status", "entityStatus", none);
   ("update_time", "updateTime", none);
   ("pacing", "pacing", empty_dict);
   ("frequency_cap", "frequencyCap", empty_dict);
   ("budget", "budget", empty_dict);
   ("insertion_order_type", "insertionOrderType", none)].

Definition dv_list_insertion_orders (w : world) (advertiser_id : string) (page_size : Z)
  (filter order_by : option string) : M pyval :=
  try_except
    (service <- get_dv360_service w ;;
     logger INFO ("Listing insertion orders for advertiser " ++ advertiser_id ++ "...") ;;;
     let params :=
       dv_list_insertion_orders_params advertiser_id page_size filter order_by in
     result <- execute w service "advertisers.insertionOrders.list" params ;;
     reply <- list_reply result "insertionOrders" "insertion orders"
                insertion_order_fields ;;
     ret (list_result "insertion_orders" (fst reply) "advertiser_id" advertiser_id
            (snd reply)))
    (entity_except "listing insertion orders" advertiser_permission_message
       ("Advertiser ID " ++ advertiser_id ++ " not found.")).

Definition line_item_fields : list (string * string * pyval) :=
  [("line_item_id", "lineItemId", none);
   ("line_item_name", "displayName", none);
   ("advertiser_id", "advertiserId", none);
   ("campaign_id", "campaignId", none);
   ("insertion_order_id", "insertionOrderId", none);
   ("entity_status", "entityStatus", none);
   ("line_item_type", "lineItemType", none);
   ("update_time", "updateTime", none);
   ("flight", "flight", empty_dict);
   ("budget", "budget", empty_dict);
   ("pacing", "pacing", empty_dict);
   ("frequency_cap", "frequencyCap", empty_dict);
   ("bid_strategy", "bidStrategy", empty_dict)].

Definition dv_list_line_items (w : world) (advertiser_id : string) (page_size : Z)
  (filter order_by : option string) : M pyval :=
  try_except
    (service <- get_dv360_service w ;;
     logger INFO ("Listing line items for advertiser " ++ advertiser_id ++ "...") ;;;
     let params := dv_list_line_items_params advertiser_id page_size filter order_by in
     result <- execute w service "advertisers.lineItems.list" params ;;
     reply <- list_reply result "lineItems" "line items" line_item_fields ;;
     ret (list_result "line_items" (fst reply) "advertiser_id" advertiser_id (snd reply)))
    (entity_except "listing line items" advertiser_permission_message
       ("Advertiser ID " ++ advertiser_id ++ " not found.")).

Definition creative_fields : list (string * string * pyval) :=
  [("creative_id", "creativeId", none);
   ("creative_name", "displayName", none);
   ("advertiser_id", "advertiserId", none);
   ("creative_type", "creativeType", none);
   ("entity_status", "entityStatus", none);
   ("update_time", "updateTime", none);
   ("dimensions", "dimensions", empty_dict);
   ("creative_attributes", "creativeAttributes", PList []);
   ("hosting_source", "hostingSource", none)].

Definition dv_list_creatives (w : world) (advertiser_id : string) (page_size : Z)
  (filter order_by : option string) : M pyval :=
  try_except
    (service <- get_dv360_service w ;;
     logger INFO ("Listing creatives for advertiser " ++ advertiser_id ++ "...") ;;;
     let params := dv_list_creatives_params advertiser_id page_size filter order_by in
     result <- execute w service "advertisers.creatives.list" params ;;
     reply <- list_reply result "creatives" "creatives" creative_fields ;;
     ret (list_result "creatives" (fst reply) "advertiser_id" advertiser_id (snd reply)))
    (entity_except "listing creatives" advertiser_permission_message
       ("Advertiser ID " ++ advertiser_id ++ " not found.")).

(** The four [dv_get_*] tools differ by their words only: [noun] is the
    entity in the log lines and messages, [key] the key of the result,
    [method] the method of the service and [id_name] its keyword for the
    identifier. *)
Definition get_entity (w : world) (noun Noun key method id_name : string)
  (advertiser_id id : string) : M pyval :=
  try_except
    (service <- get_dv360_service w ;;
     logger INFO ("Fetching " ++ noun ++ " " ++ id ++ " for advertiser "
                  ++ advertiser_id ++ "...") ;;;
     let kwargs := PDict [(PStr "advertiserId", PStr advertiser_id);
                          (PStr id_name, PStr id)] in
     entity <- execute w service method kwargs ;;
     display_name <- lift (dict_get entity "displayName" none) ;;
     logger INFO ("Successfully retrieved " ++ noun ++ ": " ++ py_str w display_name) ;;;
     ret (PDict [(PStr "success", PBool true); (PStr key, entity)]))
    (entity_except ("getting " ++ noun)
       ("Permission denied. Ensure your service account has access to this "
        ++ noun ++ ".")
       (Noun ++ " " ++ id ++ " not found for advertiser " ++ advertiser_id ++ ".")).

Definition dv_get_campaign (w : world) (advertiser_id campaign_id : string) : M pyval :=
  get_entity w "campaign" "Campaign" "campaign" "advertisers.campaigns.get"
    "campaignId" advertiser_id campaign_id.

Definition dv_get_insertion_order (w : world) (advertiser_id insertion_order_id : string)
  : M pyval :=
  get_entity w "insertion order" "Insertion order" "insertion_order"
    "advertisers.insertionOrders.get" "insertionOrderId" advertiser_id insertion_order_id.

Definition dv_get_line_item (w : world) (advertiser_id line_item_id : string) : M pyval :=
  get_entity w "line item" "Line item" "line_item" "advertisers.lineItems.get"
    "lineItemId" advertiser_id line_item_id.

Definition dv_get_creative (w : world) (advertiser_id creative_id : string) : M pyval :=
  get_entity w "creative" "Creative" "creative" "advertisers.creatives.get"
    "creativeId" advertiser_id creative_id.

(** *** Start of the process *)




End Server.

(** ** Notions the properties are stated with *)

Module Spec.

Import Server.

Definition is_empty (s : string) : bool :=
  match s with
  | EmptyString => true
  | _ => false
  end.

(** Every character is one of ['0'..'9']. *)
Definition all_decimal (s : string) : bool := Py.forallb_str Py.is_decimal s.

Definition has_minus (s : string) : bool :=
  match s with
  | String c _ => Ascii.eqb c "-"
  | EmptyString => false
  end.

(** The string without its leading minus, if it has one. *)
Definition unsigned_part (s : string) : string :=
  match s with
  | String c r => if Ascii.eqb c "-" then r else s
  | EmptyString => s
  end.

(** The integer pattern: an optional leading minus, then digits only, at
    least one. *)
Definition integer_pattern (s : string) : bool :=
  negb (is_empty (unsigned_part s)) && all_decimal (unsigned_part s).

(** The integer such a string writes. *)
Definition integer_value (s : string) : Z :=
  let n := Z.of_N (Py.digits_value 0%N (unsigned_part s)) in
  if has_minus s then (- n)%Z else n.

(** The characters of a cell on which [isdigit] holds once a dot and a minus
    are removed. *)
Definition cell_char (c : ascii) : bool :=
  Py.isdigit_char c || Ascii.eqb c "." || Ascii.eqb c "-".

Definition decimal_char (c : ascii) : bool :=
  Py.is_decimal c || Ascii.eqb c "-" || Ascii.eqb c ".".

(** The decimal pattern: digits, at most one minus, at most one dot, and at
    least one digit. *)
Definition decimal_pattern (s : string) : bool :=
  Py.forallb_str decimal_char s
  && (Py.count "-" s <=? 1)%nat && (Py.count "." s <=? 1)%nat
  && negb (Py.forallb_str (fun c => negb (Py.is_decimal c)) s).

(** The strings of the decimal pattern that write a number: an optional
    leading minus, digits, one dot, digits, with a digit on one side of the
    dot at least. Returns the digits before and after the dot. *)
Definition decimal_parts (s : string) : option (string * string) :=
  match Py.span_digits (unsigned_part s) with
  | (ip, String c fp) =>
      if Ascii.eqb c "." && all_decimal fp && negb (is_empty ip && is_empty fp)
      then Some (ip, fp)
      else None
  | (_, EmptyString) => None
  end.

(** The float such a string writes. *)
Definition decimal_value (s ip fp : string) : Py.pyfloat :=
  Py.Finite (has_minus s) (Py.digits_value 0%N (ip ++ fp)) (- Z.of_nat (String.length fp)).

(** The value the decoder is to give a cell. *)
Definition inferred (v : string) : pyval :=
  if is_empty v then PNone
  else if integer_pattern v then
    if (String.length (unsigned_part v) <=? Py.int_max_str_digits)%nat
    then PInt (integer_value v)
    else PStr v
  else if decimal_pattern v then
    match decimal_parts v with
    | Some (ip, fp) => PFloat (decimal_value v ip fp)
    | None => PStr v
    end
  else PStr v.

(** A cell of a row that [csv.DictReader] built from a record no longer than
    the header: a string, or [None] for a missing cell. *)
Definition is_cell (v : pyval) : Prop :=
  match v with
  | PNone | PStr _ => True
  | _ => False
  end.

(** A dictionary whose keys are strings. *)
Definition str_keyed (items : list (string * pyval)) : list (pyval * pyval) :=
  map (fun kv => (PStr (fst kv), snd kv)) items.

(** The identifiers an input of the Filter Builder stands for: none when the
    input is absent or empty, the trimmed pieces of a comma-separated string,
    the elements of a list as they are. *)
Definition identifiers (x : option str_or_list) : list string :=
  match x with
  | None => []
  | Some (Lst l) => l
  | Some (Str s) => if is_empty s then [] else map Py.strip (Py.split "," s)
  end.

Definition clauses (type : string) (x : option str_or_list) : list pyval :=
  map (filter_clause type) (identifiers x).

(** The message of a status: the string under [message], formatted by
    [str] if it is not a string, and [Unknown error] without one. *)
Definition status_message (w : world) (status : list (pyval * pyval)) : string :=
  match dict_lookup status (PStr "message") with
  | Some (PStr m) => m
  | Some other => py_str w other
  | None => "Unknown error"
  end.

(** A record tagged with a boolean [success]. *)
Definition is_tagged (r : pyval) : bool :=
  match r with
  | PDict items =>
      match dict_lookup items (PStr "success") with
      | Some (PBool _) => true
      | _ => false
      end
  | _ => false
  end.

(** A tool that returns a tagged record from every state. *)
Definition returns_record (tool : M pyval) : Prop :=
  forall st, exists st' r, tool st = (st', Normal r) /\ is_tagged r = true.

(** The calls that reach the network, in the order of the trace. *)
Inductive remote_op := OpBuild | OpCreate | OpRun | OpDownload | OpEntity.

Definition op_of (e : event) : option remote_op :=
  match e with
  | Log _ _ => None
  | Build _ _ => Some OpBuild
  | QueriesCreate _ _ => Some OpCreate
  | QueriesRun _ _ _ => Some OpRun
  | Urlopen _ _ => Some OpDownload
  | EntityCall _ _ _ => Some OpEntity
  end.

Fixpoint remote_ops (evs : list event) : list remote_op :=
  match evs with
  | [] => []
  | e :: rest =>
      match op_of e with
      | Some op => op :: remote_ops rest
      | None => remote_ops rest
      end
  end.

Definition remote_op_eqb (a b : remote_op) : bool :=
  match a, b with
  | OpBuild, OpBuild | OpCreate, OpCreate | OpRun, OpRun | OpDownload, OpDownload
  | OpEntity, OpEntity => true
  | _, _ => false
  end.

Definition count_op (op : remote_op) (evs : list event) : nat :=
  length (filter (remote_op_eqb op) (remote_ops evs)).

(** [l] is a beginning of [m]. *)
Fixpoint is_prefix (l m : list remote_op) : bool :=
  match l, m with
  | [], _ => true
  | a :: l', b :: m' => remote_op_eqb a b && is_prefix l' m'
  | _ :: _, [] => false
  end.

(** A string of [n] copies of a character. *)
Fixpoint replicate (n : nat) (c : ascii) : string :=
  match n with
  | O => EmptyString
  | S n' => String c (replicate n' c)
  end.

(** An integer of 4301 digits, one more than [int] converts. *)
Definition long_integer : string := replicate 4301 "9".

(** The number of pieces of a comma-separated argument: none for an absent
    or empty argument, else one more than it has commas. *)
Definition piece_count (x : option string) : nat :=
  match x with
  | None | Some EmptyString => 0
  | Some s => S (Py.count "," s)
  end.

(** A string argument of a tool, absent or given. *)
Definition as_str (x : option string) : option str_or_list := option_map Str x.

(** The first character of a string is no white space. *)
Definition starts_nonspace (s : string) : bool :=
  match s with
  | EmptyString => true
  | String c _ => negb (Py.isspace_char c)
  end.

(** A character of a line of a file without quoted cells: no quote
    character and no line break. *)
Definition plain_char (c : ascii) : bool :=
  negb (Csv.is_newline c) && negb (Ascii.eqb c Csv.quotechar).

Definition plain (line : string) : bool := Py.forallb_str plain_char line.

(** [field] followed by the cells [cells] has no cell longer than the reader
    accepts; [field] is the beginning of the first cell. *)
Definition fits (field : string) (cells : list string) : Prop :=
  match cells with
  | [] => True
  | p :: ps =>
      (N.of_nat (String.length field + String.length p) <= Csv.field_limit)%N
      /\ Forall (fun q => (N.of_nat (String.length q) <= Csv.field_limit)%N) ps
  end.

(** No cell of the line is longer than [csv.field_size_limit()]. *)
Definition cells_fit (line : string) : Prop := fits "" (Py.split "," line).

(** A line the reader takes as comma-separated cells. *)
Definition simple_line (line : string) : Prop := plain line = true /\ cells_fit line.

(** The record of a line without quoted cells: its comma-separated cells,
    and no cell at all for the empty line. *)
Definition line_cells (line : string) : list string :=
  if is_empty line then [] else Py.split "," line.

(** The text of [lines], each ended by [eol], and of a last line [tail]
    that has no end. *)
Definition text_of (eol : string) (lines : list string) (tail : string) : string :=
  fold_right (fun l rest => l ++ eol ++ rest) tail lines.

(** [field] put before the first of [cells]. *)
Definition glue (field : string) (cells : list string) : list string :=
  match cells with
  | [] => [field]
  | p :: ps => (field ++ p) :: ps
  end.

(** The states of the reader inside a line without quoted cells. *)
Definition open_state (st : Csv.parser_state) : bool :=
  match st with
  | Csv.START_RECORD | Csv.START_FIELD | Csv.IN_FIELD => true
  | _ => false
  end.

(** The two ends of a line: a line feed, or a carriage return and a line
    feed. *)
Definition is_eol (eol : string) : Prop :=
  eol = String Csv.LF EmptyString \/ eol = String Csv.CR (String Csv.LF EmptyString).

(** The state after one more event. *)
Definition add_event (e : event) (st : pystate) : pystate :=
  mkState (_bid_manager_service st) (_dv360_service st) (trace st ++ [e]).

(** A computation takes every state to one that [R] relates to it. *)
Definition respects {A : Type} (R : pystate -> pystate -> Prop) (m : M A) : Prop :=
  forall st, R st (fst (m st)).

(** The ten tools of the server, as a client calls them. *)
Inductive tool_call :=
| ListAdvertisers (partner_id : option string) (page_size : Z) (order_by : option string)
| ListCampaigns (advertiser_id : string) (page_size : Z) (filter order_by : option string)
| GetCampaign (advertiser_id campaign_id : string)
| ListInsertionOrders (advertiser_id : string) (page_size : Z)
    (filter order_by : option string)
| GetInsertionOrder (advertiser_id insertion_order_id : string)
| ListLineItems (advertiser_id : string) (page_size : Z) (filter order_by : option string)
| GetLineItem (advertiser_id line_item_id : string)
| ListCreatives (advertiser_id : string) (page_size : Z) (filter order_by : option string)
| GetCreative (advertiser_id creative_id : string)
| RunReport (a : report_args).

Definition call_tool (w : world) (c : tool_call) : M pyval :=
  match c with
  | ListAdvertisers p ps ob => dv_list_advertisers w p ps ob
  | ListCampaigns a ps f ob => dv_list_campaigns w a ps f ob
  | GetCampaign a id => dv_get_campaign w a id
  | ListInsertionOrders a ps f ob => dv_list_insertion_orders w a ps f ob
  | GetInsertionOrder a id => dv_get_insertion_order w a id
  | ListLineItems a ps f ob => dv_list_line_items w a ps f ob
  | GetLineItem a id => dv_get_line_item w a id
  | ListCreatives a ps f ob => dv_list_creatives w a ps f ob
  | GetCreative a id => dv_get_creative w a id
  | RunReport a => dv_run_report w a
  end.

Definition is_report (c : tool_call) : bool :=
  match c with
  | RunReport _ => true
  | _ => false
  end.

(** The state after the calls of a list, one after the other. *)
Fixpoint run_calls (w : world) (calls : list tool_call) (st : pystate) : pystate :=
  match calls with
  | [] => st
  | c :: rest => run_calls w rest (fst (call_tool w c st))
  end.

(** The events a report run may add to the trace. *)
Definition report_event (e : event) : bool :=
  match e with
  | Log _ _ | QueriesCreate _ _ | Urlopen _ _ => true
  | QueriesRun _ synchronous _ => synchronous
  | Build api _ => String.eqb api BID_MANAGER_API_NAME
  | EntityCall _ _ _ => false
  end.

(** The events an entity tool may add to the trace. *)
Definition entity_event (e : event) : bool :=
  match e with
  | Log _ _ | EntityCall _ _ _ => true
  | Build api _ => String.eqb api DV360_API_NAME
  | _ => false
  end.

(** [st'] is [st] with the same service under [other] and more events, all
    of them [allowed]. *)
Definition extends_by (allowed : event -> bool) (other : pystate -> option service)
  (st st' : pystate) : Prop :=
  other st' = other st
  /\ exists evs, trace st' = (trace st ++ evs)%list /\ forallb allowed evs = true.

(** A build of the service of [api] that succeeded. *)
Definition built (api : string) (e : event) : bool :=
  match e with
  | Build a (Normal _) => String.eqb a api
  | _ => false
  end.

Definition builds (api : string) (evs : list event) : nat :=
  length (filter (built api) evs).

(** The cached services agree with the trace: no successful build without a
    cached service, and one at most with it. *)
Definition cache_consistent (st : pystate) : Prop :=
  match _bid_manager_service st with
  | None => builds BID_MANAGER_API_NAME (trace st) = 0
  | Some _ => builds BID_MANAGER_API_NAME (trace st) <= 1
  end
  /\ match _dv360_service st with
     | None => builds DV360_API_NAME (trace st) = 0
     | Some _ => builds DV360_API_NAME (trace st) <= 1
     end.

(** The call has a partner to ask for: every call but a listing of the
    advertisers with neither a [partner_id] nor [DV360_PARTNER_ID]. *)
Definition has_partner (w : world) (c : tool_call) : bool :=
  match c with
  | ListAdvertisers None _ _ =>
      match DEFAULT_PARTNER_ID w with
      | Some _ => true
      | None => false
      end
  | _ => true
  end.


Definition is_error_log (e : event) : bool :=
  match e with
  | Log ERROR _ => true
  | _ => false
  end.

(** The number of records logged at the level [ERROR]. *)
Definition error_logs (evs : list event) : nat := length (filter is_error_log evs).

(** The record says that the call succeeded. *)
Definition succeeded (r : pyval) : bool :=
  match r with
  | PDict items =>
      match dict_lookup items (PStr "success") with
      | Some (PBool b) => b
      | _ => false
      end
  | _ => false
  end.

(** The entry a list tool makes of one entity: each name of [fields] with
    the value the entity has under the key, or with the default. *)
Definition format_items (fields : list (string * string * pyval))
  (entity : list (pyval * pyval)) : pyval :=
  PDict (map (fun f : string * string * pyval =>
                let '(name, key, default) := f in
                (PStr name,
                 match dict_lookup entity (PStr key) with
                 | Some v => v
                 | None => default
                 end))
           fields).

(** [d.get(key)] of a dictionary. *)
Definition get_or_none (d : list (pyval * pyval)) (key : string) : pyval :=
  match dict_lookup d (PStr key) with
  | Some v => v
  | None => PNone
  end.

(** The partner a listing of the advertisers asks for: the argument, or
    [DV360_PARTNER_ID] in its place. *)
Definition partner_of (w : world) (partner_id : option string) : option string :=
  match partner_id with
  | Some p => Some p
  | None => DEFAULT_PARTNER_ID w
  end.

(** An optional parameter of a request: left out when it is absent or
    empty. *)
Definition optional (key : string) (x : option string) : list (pyval * pyval) :=
  match x with
  | None | Some EmptyString => []
  | Some v => [(PStr key, PStr v)]
  end.

(** The parameters of a list request under an advertiser. *)
Definition list_kwargs (advertiser_id : string) (page_size : Z)
  (filter order_by : option string) : pyval :=
  PDict ([(PStr "advertiserId", PStr advertiser_id);
          (PStr "pageSize", PInt (Z.min page_size 100))]
         ++ optional "filter" filter ++ optional "orderBy" order_by).

(** The parameters of a get request. *)
Definition get_kwargs (advertiser_id id_name id : string) : pyval :=
  PDict [(PStr "advertiserId", PStr advertiser_id); (PStr id_name, PStr id)].

(** The request an entity tool sends: the method of the Display & Video
    360 service and its keyword arguments. *)
Definition request_of (w : world) (c : tool_call) : option (string * pyval) :=
  match c with
  | ListAdvertisers p ps ob =>
      match partner_of w p with
      | Some partner =>
          Some ("advertisers.list",
                PDict ([(PStr "partnerId", PStr partner);
                        (PStr "pageSize", PInt (Z.min ps 100))]
                       ++ optional "orderBy" ob))
      | None => None
      end
  | ListCampaigns a ps f ob => Some ("advertisers.campaigns.list", list_kwargs a ps f ob)
  | GetCampaign a id => Some ("advertisers.campaigns.get", get_kwargs a "campaignId" id)
  | ListInsertionOrders a ps f ob =>
      Some ("advertisers.insertionOrders.list", list_kwargs a ps f ob)
  | GetInsertionOrder a id =>
      Some ("advertisers.insertionOrders.get", get_kwargs a "insertionOrderId" id)
  | ListLineItems a ps f ob => Some ("advertisers.lineItems.list", list_kwargs a ps f ob)
  | GetLineItem a id => Some ("advertisers.lineItems.get", get_kwargs a "lineItemId" id)
  | ListCreatives a ps f ob => Some ("advertisers.creatives.list", list_kwargs a ps f ob)
  | GetCreative a id => Some ("advertisers.creatives.get", get_kwargs a "creativeId" id)
  | RunReport _ => None
  end.

Definition is_entity_call (e : event) : bool :=
  match e with
  | EntityCall _ _ _ => true
  | _ => false
  end.

(** The requests to the Display & Video 360 service among the events. *)
Definition entity_calls (evs : list event) : list event := filter is_entity_call evs.

(** The two hints of the failure record of an entity tool, as the source
    writes them: the one for a refusal and the one for a missing entity. *)
Definition denial_messages (w : world) (c : tool_call) : string * string :=
  match c with
  | ListAdvertisers p _ _ =>
      ("Permission denied. Ensure your service account has Display & Video 360 API access and is linked to the partner account.",
       "Partner ID " ++ match partner_of w p with Some partner => partner | None => "None" end
       ++ " not found. Double-check the partner ID.")
  | ListCampaigns a _ _ _ | ListInsertionOrders a _ _ _ | ListLineItems a _ _ _
  | ListCreatives a _ _ _ =>
      ("Permission denied. Ensure your service account has access to this advertiser.",
       "Advertiser ID " ++ a ++ " not found.")
  | GetCampaign a id =>
      ("Permission denied. Ensure your service account has access to this campaign.",
       "Campaign " ++ id ++ " not found for advertiser " ++ a ++ ".")
  | GetInsertionOrder a id =>
      ("Permission denied. Ensure your service account has access to this insertion order.",
       "Insertion order " ++ id ++ " not found for advertiser " ++ a ++ ".")
  | GetLineItem a id =>
      ("Permission denied. Ensure your service account has access to this line item.",
       "Line item " ++ id ++ " not found for advertiser " ++ a ++ ".")
  | GetCreative a id =>
      ("Permission denied. Ensure your service account has access to this creative.",
       "Creative " ++ id ++ " not found for advertiser " ++ a ++ ".")
  | RunReport _ => ("", "")
  end.

(** The hint that goes with the text of an exception: the first for a text
    that holds [permission] in any case of letters or [403], else the second
    for one that holds [not found] or [404], else none. *)
Definition hint (error_msg : string) (messages : string * string) : list (pyval * pyval) :=
  if contains_str "permission" (lower error_msg) || contains_str "403" error_msg
  then [(PStr "message", PStr (fst messages))]
  else if contains_str "not found" (lower error_msg) || contains_str "404" error_msg
  then [(PStr "message", PStr (snd messages))]
  else [].

(** The key of the entity in the record a get tool returns. *)
Definition entity_key (c : tool_call) : string :=
  match c with
  | GetCampaign _ _ => "campaign"
  | GetInsertionOrder _ _ => "insertion_order"
  | GetLineItem _ _ => "line_item"
  | GetCreative _ _ => "creative"
  | _ => ""
  end.

Definition is_get (c : tool_call) : bool :=
  match c with
  | GetCampaign _ _ | GetInsertionOrder _ _ | GetLineItem _ _ | GetCreative _ _ => true
  | _ => false
  end.

(** The world with another value of [DV360_PARTNER_ID]. *)
Definition with_partner (d : option string) (w : world) : world :=
  mkWorld (SERVICE_ACCOUNT_JSON w) d (json_loads w) (from_service_account_info w)
    (discovery_build w) (queries_create w) (queries_run w) (urlopen_read w)
    (entity_execute w) (repr w).


End Spec.

(** ** Concrete inputs *)

Module Examples.

Import Server.

Definition nl : string := String Csv.LF EmptyString.

(** The two-row report of scenario A. *)
Definition scenario_csv : string :=
  "date,impressions" ++ nl ++ "2025-01-01,100" ++ nl ++ "2025-01-02,200".

Definition scenario_rows : list pyval :=
  [PDict [(PStr "date", PStr "2025-01-01"); (PStr "impressions", PInt 100)];
   PDict [(PStr "date", PStr "2025-01-02"); (PStr "impressions", PInt 200)]].

(** The arguments of scenario A. *)
Definition scenario_args : report_args :=
  mkArgs "2025-01-01" "2025-01-31" (Lst ["FILTER_DATE"]) (Lst ["METRIC_IMPRESSIONS"])
    (Some (Str "123")) None None None "MCP Report".

(** The same request without any identifier (scenario C). *)
Definition unfiltered_args : report_args :=
  mkArgs "2025-01-01" "2025-01-31" (Lst ["FILTER_DATE"]) (Lst ["METRIC_IMPRESSIONS"])
    None None None None "MCP Report".

(** A request whose start date has no hyphen. *)
Definition bad_date_args : report_args :=
  mkArgs "20250101" "2025-01-31" (Lst ["FILTER_DATE"]) (Lst ["METRIC_IMPRESSIONS"])
    (Some (Str "123")) None None None "MCP Report".

Definition query_response : pyval := PDict [(PStr "queryId", PStr "q-1")].

Definition report_key : pyval :=
  PDict [(PStr "queryId", PStr "q-1"); (PStr "reportId", PStr "r-1")].

Definition done_status : list (pyval * pyval) := [(PStr "state", PStr "DONE")].

Definition done_metadata : pyval :=
  PDict [(PStr "status", PDict done_status);
         (PStr "googleCloudStoragePath", PStr "https://storage.googleapis.com/report.csv")].

Definition done_response : pyval :=
  PDict [(PStr "key", report_key); (PStr "metadata", done_metadata)].

Definition failed_status : list (pyval * pyval) :=
  [(PStr "state", PStr "FAILED"); (PStr "message", PStr "quota exceeded")].

Definition failed_metadata : pyval := PDict [(PStr "status", PDict failed_status)].

Definition failed_response : pyval :=
  PDict [(PStr "key", report_key); (PStr "metadata", failed_metadata)].

(** A world with credentials, in which every call succeeds and the run
    replies with [report_response] and the download with [scenario_csv]. *)
Definition world_with (report_response : pyval) : world :=
  mkWorld (Some "{}") None
    (fun _ => inr (PDict []))
    (fun _ _ => Normal (Credentials 0))
    (fun _ _ _ => Normal (Service 0))
    (fun _ _ _ => Normal query_response)
    (fun _ _ _ => Normal report_response)
    (fun _ _ => Normal scenario_csv)
    (fun _ _ _ _ => Normal (PDict []))
    (fun _ => "<object>").

(** The remote system of scenario A. *)
Definition scenario_world : world := world_with done_response.

(** The remote system of scenario B. *)
Definition failing_world : world := world_with failed_response.

(** The state of a process that has not built its service yet. *)
Definition fresh : pystate := mkState None None [].

(** A report whose only data row has one cell more than the header. *)
Definition surplus_cell_csv : string := "a" ++ nl ++ "1,2".

(** Scenario A from a fresh process: the state and the record it ends
    with. *)
Definition scenario_run : pystate * result pyval :=
  dv_run_report scenario_world scenario_args fresh.

(** A world with credentials in which every entity request replies
    [reply]. *)
Definition entity_world (reply : result pyval) : world :=
  mkWorld (Some "{}") None
    (fun _ => inr (PDict []))
    (fun _ _ => Normal (Credentials 0))
    (fun _ _ _ => Normal (Service 0))
    (fun _ _ _ => Normal query_response)
    (fun _ _ _ => Normal done_response)
    (fun _ _ => Normal scenario_csv)
    (fun _ _ _ _ => reply)
    (fun _ => "<object>").

(** A campaign as the remote service describes it, and a page of one. *)
Definition spring_campaign : list (pyval * pyval) :=
  [(PStr "campaignId", PStr "7"); (PStr "displayName", PStr "Spring")].

Definition campaign_page : list (pyval * pyval) :=
  [(PStr "campaigns", PList [PDict spring_campaign]); (PStr "nextPageToken", PStr "t2")].

(** The refusal of a request for a campaign that does not exist. *)
Definition missing_campaign : exn := OtherError "HttpError 404: Campaign 2 not found".

(** The remote system of scenario A with another outcome of the download. *)
Definition world_serving (content : result string) : world :=
  mkWorld (Some "{}") None
    (fun _ => inr (PDict []))
    (fun _ _ => Normal (Credentials 0))
    (fun _ _ _ => Normal (Service 0))
    (fun _ _ _ => Normal query_response)
    (fun _ _ _ => Normal done_response)
    (fun _ _ => content)
    (fun _ _ _ _ => Normal (PDict []))
    (fun _ => "<object>").

(** The refusal of a download. *)
Definition forbidden : exn := OtherError "HTTP Error 403: Forbidden".

(** A request without any identifier whose start date has no hyphen. *)
Definition unfiltered_bad_date_args : report_args :=
  mkArgs "20250101" "2025-01-31" (Lst ["FILTER_DATE"]) (Lst ["METRIC_IMPRESSIONS"])
    None None None None "MCP Report".

End Examples.

(** * Properties *)

Import Server Spec.

(** ** Strings *)

Section SplitFacts.

Variable sep : ascii.

Lemma split_nonempty (s : string) : Py.split sep s <> [].
Proof.
  induction s as [|c s IH]; simpl; [discriminate|].
  destruct (Ascii.eqb c sep); [discriminate|].
  destruct (Py.split sep s); [contradiction|discriminate].
Qed.

Lemma split_length (s : string) :
  length (Py.split sep s) = S (Py.count sep s).
Proof.
  induction s as [|c s IH]; simpl; [reflexivity|].
  destruct (Ascii.eqb c sep); simpl; [now rewrite IH|].
  destruct (Py.split sep s) eqn:E; [now destruct (split_nonempty s)|].
  exact IH.
Qed.

Lemma split_join (s : string) : Py.join sep (Py.split sep s) = s.
Proof.
  induction s as [|c s IH]; simpl; [reflexivity|].
  destruct (Ascii.eqb_spec c sep) as [->|Hne].
  - destruct (Py.split sep s) eqn:E; [now destruct (split_nonempty s)|].
    simpl in *. now rewrite IH.
  - destruct (Py.split sep s) as [|p ps] eqn:E; [now destruct (split_nonempty s)|].
    destruct ps; simpl in *; now rewrite <- IH.
Qed.

Lemma split_pieces (s : string) :
  Forall (fun p => Py.count sep p = 0) (Py.split sep s).
Proof.
  induction s as [|c s IH]; simpl; [now repeat constructor|].
  destruct (Ascii.eqb c sep) eqn:Ec; [now constructor|].
  destruct (Py.split sep s) as [|p ps]; [repeat constructor; simpl; now rewrite Ec|].
  inversion IH; subst. constructor; [simpl; now rewrite Ec|assumption].
Qed.

Lemma split_no_sep (p : string) : Py.count sep p = 0 -> Py.split sep p = [p].
Proof.
  induction p as [|c p IH]; simpl; [reflexivity|].
  destruct (Ascii.eqb c sep); [discriminate|]. simpl. intros H.
  now rewrite (IH H).
Qed.

Lemma split_app (p r : string) :
  Py.count sep p = 0 -> Py.split sep (p ++ String sep r) = p :: Py.split sep r.
Proof.
  induction p as [|c p IH]; simpl.
  - now rewrite Ascii.eqb_refl.
  - destruct (Ascii.eqb c sep); [discriminate|]. simpl. intros H.
    now rewrite (IH H).
Qed.

End SplitFacts.

(** ** Date Formatter *)

(** C5. [format_date_for_api] succeeds exactly on the strings with two
    hyphens, which are the strings that split on the hyphen into three
    pieces; the record it returns holds the three pieces as they are, as
    strings, whatever they contain; on every other string it raises a
    [ValueError]. *)
Theorem format_date_for_api_exact (date_str : string) :
  if (Py.count "-" date_str =? 2)%nat then
    exists year month day,
      date_str = year ++ "-" ++ month ++ "-" ++ day /\
      Py.count "-" year = 0 /\ Py.count "-" month = 0 /\ Py.count "-" day = 0 /\
      Py.split "-" date_str = [year; month; day] /\
      format_date_for_api date_str =
        Normal (PDict [(PStr "year", PStr year);
                       (PStr "month", PStr month);
                       (PStr "day", PStr day)])
  else
    length (Py.split "-" date_str) <> 3 /\
    exists msg, format_date_for_api date_str = Raise (ValueError msg).
Proof.
  pose proof (split_length "-" date_str) as Hlen.
  pose proof (split_join "-" date_str) as Hjoin.
  pose proof (split_pieces "-" date_str) as Hpieces.
  unfold format_date_for_api.
  destruct (Nat.eqb_spec (Py.count "-" date_str) 2) as [H2|H2].
  - rewrite H2 in Hlen.
    destruct (Py.split "-" date_str) as [|y [|m [|d [|x l]]]]; try discriminate.
    exists y, m, d.
    apply Forall_cons_iff in Hpieces as [Hy Hr].
    apply Forall_cons_iff in Hr as [Hm Hr].
    apply Forall_cons_iff in Hr as [Hd _].
    simpl in Hjoin. repeat split; auto.
  - split; [rewrite Hlen; intros E; apply H2; now inversion E|].
    destruct (Py.split "-" date_str) as [|y [|m [|d [|x l]]]]; simpl in *;
      try (eexists; reflexivity).
    exfalso. apply H2. now inversion Hlen.
Qed.

(** ** Filter Builder *)

Lemma append_filters_clauses (filters : list pyval) (type : string)
  (ids : option str_or_list) :
  append_filters filters type ids = (filters ++ clauses type ids)%list.
Proof.
  unfold append_filters, clauses, identifiers.
  destruct ids as [[s|l]|]; simpl.
  - destruct s; simpl; [now rewrite app_nil_r|reflexivity].
  - destruct l; simpl; [now rewrite app_nil_r|reflexivity].
  - now rewrite app_nil_r.
Qed.

Lemma prepare_filters_clauses (adv camp io li : option str_or_list) :
  prepare_filters adv camp io li =
    (clauses "FILTER_ADVERTISER" adv ++ clauses "FILTER_MEDIA_PLAN" camp ++
     clauses "FILTER_INSERTION_ORDER" io ++ clauses "FILTER_LINE_ITEM" li)%list.
Proof.
  unfold prepare_filters. rewrite !append_filters_clauses. simpl.
  now rewrite <- !app_assoc.
Qed.

Lemma clauses_str_lst (type : string) (s : string) :
  clauses type (Some (Str s)) = clauses type (Some (Lst (identifiers (Some (Str s))))).
Proof. reflexivity. Qed.


(** ** Entity-list tools *)

Lemma set_if_page_size (params : list (pyval * pyval)) (key : string) (x : option string) :
  String.eqb key "pageSize" = false ->
  dict_lookup (set_if params key x) (PStr "pageSize") = dict_lookup params (PStr "pageSize").
Proof.
  intros Hk. unfold set_if. destruct x as [[|c v]|]; try reflexivity.
  generalize (PStr (String c v)). intros val.
  induction params as [|[k' v'] rest IH]; cbn [dict_lookup dict_set key_eqb].
  - now rewrite Hk.
  - destruct (key_eqb k' (PStr key)) eqn:E1; cbn [dict_lookup].
    + destruct (key_eqb k' (PStr "pageSize")) eqn:E2; [|reflexivity].
      destruct k'; cbn [key_eqb] in *; try discriminate.
      apply String.eqb_eq in E1. apply String.eqb_eq in E2. subst.
      discriminate Hk.
    + destruct (key_eqb k' (PStr "pageSize")); [reflexivity|exact IH].
Qed.

(** The [params] of the five list tools hold [min(page_size, 100)] under
    [pageSize]. *)
Lemma list_params_page_size (page_size : Z) (id : string)
  (filter order_by : option string) :
  getitem (dv_list_advertisers_params id page_size order_by) "pageSize"
    = Normal (PInt (Z.min page_size 100))
  /\ getitem (dv_list_campaigns_params id page_size filter order_by) "pageSize"
    = Normal (PInt (Z.min page_size 100))
  /\ getitem (dv_list_insertion_orders_params id page_size filter order_by) "pageSize"
    = Normal (PInt (Z.min page_size 100))
  /\ getitem (dv_list_line_items_params id page_size filter order_by) "pageSize"
    = Normal (PInt (Z.min page_size 100))
  /\ getitem (dv_list_creatives_params id page_size filter order_by) "pageSize"
    = Normal (PInt (Z.min page_size 100))
  /\ (Z.min page_size 100 <= 100)%Z
  /\ getitem (dv_list_campaigns_params id 250 filter order_by) "pageSize"
    = Normal (PInt 100).
Proof.
  unfold dv_list_advertisers_params, dv_list_campaigns_params,
    dv_list_insertion_orders_params, dv_list_line_items_params,
    dv_list_creatives_params, getitem.
  rewrite !set_if_page_size by reflexivity. simpl.
  repeat split; try reflexivity. lia.
Qed.

(** ** Report File Decoder: the value of a cell *)

(** What the characters of a guarded cell are not. *)
Lemma cell_char_facts (c : ascii) :
  cell_char c = true ->
  Py.isspace_char c = false /\ Ascii.eqb c "_" = false /\ Ascii.eqb c "+" = false
  /\ Py.ascii_lower c = c /\ Ascii.eqb c "e" = false /\ Ascii.eqb c "i" = false
  /\ Ascii.eqb c "n" = false.
Proof.
  destruct c as [[] [] [] [] [] [] [] []]; vm_compute; intros H;
    try discriminate H; repeat split.
Qed.

Lemma decimal_is_digit (c : ascii) : Py.is_decimal c = true -> Py.isdigit_char c = true.
Proof. unfold Py.isdigit_char. now intros ->. Qed.

Lemma decimal_not_dot_minus (c : ascii) :
  Py.is_decimal c = true -> Ascii.eqb c "." = false /\ Ascii.eqb c "-" = false.
Proof.
  destruct c as [[] [] [] [] [] [] [] []]; vm_compute; intros H;
    try discriminate H; split; reflexivity.
Qed.

Section ForallFacts.

Variables p q : ascii -> bool.

Lemma forallb_str_impl (s : string) :
  (forall c, p c = true -> q c = true) ->
  Py.forallb_str p s = true -> Py.forallb_str q s = true.
Proof.
  intros Hpq. induction s as [|c s IH]; simpl; [reflexivity|].
  intros H. apply andb_true_iff in H as [Hc Hs].
  now rewrite (Hpq _ Hc), (IH Hs).
Qed.

Lemma forallb_str_app (s t : string) :
  Py.forallb_str p (s ++ t) = Py.forallb_str p s && Py.forallb_str p t.
Proof.
  induction s as [|c s IH]; simpl; [reflexivity|].
  now rewrite IH, andb_assoc.
Qed.

End ForallFacts.

Lemma replace1_forall (p : ascii -> bool) (c : ascii) (s : string) :
  Py.forallb_str p (Py.replace1 c s) = true ->
  Py.forallb_str (fun a => p a || Ascii.eqb a c) s = true.
Proof.
  induction s as [|a s IH]; simpl; [reflexivity|].
  destruct (Ascii.eqb a c) eqn:E.
  - intros H. rewrite orb_true_r. simpl.
    revert H. apply forallb_str_impl. intros x ->. reflexivity.
  - simpl. intros H. apply andb_true_iff in H as [Ha Hs].
    now rewrite Ha, (IH Hs).
Qed.

Lemma append_nil_r_str_aux (s : string) : s ++ "" = s.
Proof. induction s as [|c s IH]; simpl; [reflexivity|now rewrite IH]. Qed.

Lemma count_app (c : ascii) (s t : string) :
  Py.count c (s ++ t) = Py.count c s + Py.count c t.
Proof.
  induction s as [|a s IH]; simpl; [reflexivity|]. rewrite IH. lia.
Qed.

Lemma count_absent (p : ascii -> bool) (c : ascii) (s : string) :
  p c = false -> Py.forallb_str p s = true -> Py.count c s = 0.
Proof.
  intros Hc. induction s as [|a s IH]; simpl; [reflexivity|].
  intros H. apply andb_true_iff in H as [Ha Hs].
  destruct (Ascii.eqb_spec a c) as [->|_]; [congruence|]. now rewrite (IH Hs).
Qed.

Lemma contains_count (c : ascii) (s : string) :
  Py.contains c s = negb (Py.count c s =? 0)%nat.
Proof.
  induction s as [|a s IH]; simpl; [reflexivity|].
  destruct (Ascii.eqb a c); simpl; [reflexivity|exact IH].
Qed.

Lemma replace1_absent (c : ascii) (s : string) :
  Py.count c s = 0 -> Py.replace1 c s = s.
Proof.
  induction s as [|a s IH]; simpl; [reflexivity|].
  destruct (Ascii.eqb a c); [discriminate|]. simpl. intros H. now rewrite (IH H).
Qed.

Lemma replace1_app (c : ascii) (s t : string) :
  Py.count c s = 0 -> Py.replace1 c (s ++ String c t) = s ++ t.
Proof.
  induction s as [|a s IH]; simpl.
  - now rewrite Ascii.eqb_refl.
  - destruct (Ascii.eqb a c); [discriminate|]. simpl. intros H. now rewrite (IH H).
Qed.

(** *** [strip] leaves a string without white space alone *)

Lemma rstrip_id (s : string) :
  Py.forallb_str (fun c => negb (Py.isspace_char c)) s = true -> Py.rstrip s = s.
Proof.
  induction s as [|c s IH]; simpl; [reflexivity|].
  intros H. apply andb_true_iff in H as [Hc Hs]. rewrite (IH Hs).
  apply negb_true_iff in Hc. rewrite Hc. now destruct s.
Qed.

Lemma lstrip_id (s : string) :
  Py.forallb_str (fun c => negb (Py.isspace_char c)) s = true -> Py.lstrip s = s.
Proof.
  destruct s as [|c s]; simpl; [reflexivity|].
  intros H. apply andb_true_iff in H as [Hc _].
  apply negb_true_iff in Hc. now rewrite Hc.
Qed.

Lemma strip_cell (s : string) :
  Py.forallb_str cell_char s = true -> Py.strip s = s.
Proof.
  intros H.
  assert (Py.forallb_str (fun c => negb (Py.isspace_char c)) s = true) as Hs.
  { revert H. apply forallb_str_impl. intros c Hc.
    destruct (cell_char_facts c Hc) as [-> _]. reflexivity. }
  unfold Py.strip. now rewrite (lstrip_id s Hs), (rstrip_id s Hs).
Qed.

Lemma split_sign_cell (s : string) :
  Py.forallb_str cell_char s = true ->
  Py.split_sign s = (has_minus s, unsigned_part s).
Proof.
  destruct s as [|c s]; simpl; [reflexivity|].
  intros H. apply andb_true_iff in H as [Hc _].
  destruct (cell_char_facts c Hc) as (_ & _ & -> & _).
  now destruct (Ascii.eqb c "-").
Qed.

Lemma unsigned_part_cell (s : string) :
  Py.forallb_str cell_char s = true -> Py.forallb_str cell_char (unsigned_part s) = true.
Proof.
  destruct s as [|c s]; simpl; [reflexivity|].
  intros H. destruct (Ascii.eqb c "-"); [|exact H].
  now apply andb_true_iff in H as [_ Hs].
Qed.

(** *** [int] on a guarded cell *)

Lemma int_digits_plain (s : string) (acc : N) (cnt : nat) :
  Py.forallb_str cell_char s = true ->
  Py.int_digits false acc cnt s =
    if all_decimal s then Some (Py.digits_value acc s, cnt + String.length s) else None.
Proof.
  revert acc cnt. induction s as [|c s IH]; intros acc cnt; simpl.
  - intros _. now rewrite Nat.add_0_r.
  - intros H. apply andb_true_iff in H as [Hc Hs].
    destruct (cell_char_facts c Hc) as (_ & -> & _).
    unfold all_decimal. simpl. destruct (Py.is_decimal c); simpl; [|reflexivity].
    rewrite (IH _ _ Hs). unfold all_decimal.
    now rewrite Nat.add_succ_r.
Qed.

Lemma int_cell (v : string) :
  Py.forallb_str cell_char v = true ->
  Py.int v =
    if integer_pattern v then
      if (String.length (unsigned_part v) <=? Py.int_max_str_digits)%nat
      then Some (integer_value v) else None
    else None.
Proof.
  intros H. unfold Py.int. rewrite (strip_cell v H), (split_sign_cell v H).
  pose proof (unsigned_part_cell v H) as Hb.
  unfold integer_pattern, integer_value.
  destruct (unsigned_part v) as [|c b] eqn:Eb; [reflexivity|].
  unfold Py.int_body.
  assert (Ascii.eqb c "_" = false) as ->.
  { simpl in Hb. apply andb_true_iff in Hb as [Hc _].
    now destruct (cell_char_facts c Hc) as (_ & -> & _). }
  rewrite (int_digits_plain _ _ _ Hb).
  cbn [is_empty negb andb].
  destruct (all_decimal (String c b)); [|reflexivity].
  cbn [Nat.add].
  rewrite Nat.ltb_antisym.
  destruct (String.length (String c b) <=? Py.int_max_str_digits)%nat; reflexivity.
Qed.

(** *** [float] on a guarded cell *)

Lemma underscores_ok_plain (s : string) (prev : option ascii) :
  Py.forallb_str cell_char s = true -> Py.is_underscore prev = false ->
  Py.underscores_ok prev s = true.
Proof.
  revert prev. induction s as [|c s IH]; intros prev; simpl.
  - now intros _ ->.
  - intros H Hp. apply andb_true_iff in H as [Hc Hs].
    destruct (cell_char_facts c Hc) as (_ & Hus & _).
    rewrite Hus, Hp. simpl. apply IH; [exact Hs|exact Hus].
Qed.

Lemma remove_underscores_plain (s : string) :
  Py.forallb_str cell_char s = true -> Py.remove_underscores s = s.
Proof.
  induction s as [|c s IH]; simpl; [reflexivity|].
  intros H. apply andb_true_iff in H as [Hc Hs].
  destruct (cell_char_facts c Hc) as (_ & -> & _). now rewrite (IH Hs).
Qed.

Lemma map_lower_plain (s : string) :
  Py.forallb_str cell_char s = true -> Py.map_str Py.ascii_lower s = s.
Proof.
  induction s as [|c s IH]; simpl; [reflexivity|].
  intros H. apply andb_true_iff in H as [Hc Hs].
  destruct (cell_char_facts c Hc) as (_ & _ & _ & -> & _). now rewrite (IH Hs).
Qed.

Lemma not_keyword (s kw : string) :
  Py.forallb_str cell_char kw = false -> Py.forallb_str cell_char s = true ->
  String.eqb s kw = false.
Proof.
  intros Hk Hs. destruct (String.eqb_spec s kw) as [->|]; congruence.
Qed.

Lemma span_digits_spec (s : string) :
  forall d r, Py.span_digits s = (d, r) ->
  s = d ++ r /\ all_decimal d = true
  /\ match r with
     | EmptyString => True
     | String c _ => Py.is_decimal c = false
     end.
Proof.
  induction s as [|c s IH]; simpl; intros d r E.
  - inversion E; subst. now repeat split.
  - destruct (Py.is_decimal c) eqn:Ec.
    + destruct (Py.span_digits s) as [d' r'] eqn:Es. inversion E; subst.
      destruct (IH _ _ eq_refl) as (-> & Hd & Hr).
      unfold all_decimal in *. simpl. rewrite Ec, Hd. now repeat split.
    + inversion E; subst. now repeat split.
Qed.

Lemma span_digits_all (s : string) :
  all_decimal s = true -> Py.span_digits s = (s, EmptyString).
Proof.
  unfold all_decimal. induction s as [|c s IH]; simpl; [reflexivity|].
  intros H. apply andb_true_iff in H as [-> Hs]. now rewrite (IH Hs).
Qed.

Lemma all_decimal_no_dot (s : string) : all_decimal s = true -> Py.count "." s = 0.
Proof.
  apply (count_absent Py.is_decimal). reflexivity.
Qed.

Lemma all_decimal_no_minus (s : string) : all_decimal s = true -> Py.count "-" s = 0.
Proof.
  apply (count_absent Py.is_decimal). reflexivity.
Qed.

Lemma exponent_cell (s : string) :
  Py.forallb_str cell_char s = true ->
  Py.exponent s = if is_empty s then Some 0%Z else None.
Proof.
  destruct s as [|c s]; simpl; [reflexivity|].
  intros H. apply andb_true_iff in H as [Hc _].
  destruct (cell_char_facts c Hc) as (_ & _ & _ & -> & -> & _). reflexivity.
Qed.

Lemma count_unsigned_dot (v : string) :
  Py.count "." (unsigned_part v) = Py.count "." v.
Proof.
  destruct v as [|c v]; simpl; [reflexivity|].
  destruct (Ascii.eqb_spec c "-") as [->|]; reflexivity.
Qed.

(** The shape of the strings [decimal_parts] accepts. *)
Lemma decimal_parts_shape (v ip fp : string) :
  decimal_parts v = Some (ip, fp) ->
  unsigned_part v = ip ++ "." ++ fp
  /\ all_decimal ip = true /\ all_decimal fp = true
  /\ is_empty ip && is_empty fp = false.
Proof.
  unfold decimal_parts.
  destruct (Py.span_digits (unsigned_part v)) as [d r] eqn:E.
  destruct (span_digits_spec _ _ _ E) as (Hb & Hd & _).
  destruct r as [|c r]; [discriminate|].
  destruct (Ascii.eqb_spec c ".") as [->|]; [|discriminate]. simpl.
  destruct (all_decimal r) eqn:Hr; [|discriminate]. simpl.
  destruct (is_empty d && is_empty r) eqn:He; [discriminate|]. simpl.
  intros H. inversion H; subst. now repeat split.
Qed.

Lemma decimal_parts_no_dot (v : string) :
  Py.count "." v = 0 -> decimal_parts v = None.
Proof.
  intros H. destruct (decimal_parts v) as [[ip fp]|] eqn:E; [|reflexivity].
  destruct (decimal_parts_shape _ _ _ E) as (Hb & _).
  rewrite <- count_unsigned_dot, Hb, count_app in H. simpl in H. lia.
Qed.

Lemma float_cell (v : string) :
  Py.forallb_str cell_char v = true -> Py.contains "." v = true ->
  Py.float v =
    match decimal_parts v with
    | Some (ip, fp) => Some (decimal_value v ip fp)
    | None => None
    end.
Proof.
  intros H Hdot. unfold Py.float.
  rewrite (underscores_ok_plain v None H eq_refl). cbn [negb].
  rewrite (remove_underscores_plain v H), (strip_cell v H), (split_sign_cell v H).
  pose proof (unsigned_part_cell v H) as Hb.
  rewrite (map_lower_plain _ Hb).
  rewrite !(not_keyword (unsigned_part v)) by (try exact Hb; reflexivity).
  cbn [orb].
  unfold decimal_parts, decimal_value.
  rewrite contains_count, <- count_unsigned_dot in Hdot.
  destruct (Py.span_digits (unsigned_part v)) as [ip r1] eqn:E.
  destruct (span_digits_spec _ _ _ E) as (Hsplit & Hip & Hr1).
  rewrite Hsplit, forallb_str_app in Hb. apply andb_true_iff in Hb as [_ Hr1c].
  destruct r1 as [|c r].
  - rewrite Hsplit, count_app, (all_decimal_no_dot _ Hip) in Hdot. discriminate.
  - destruct (Ascii.eqb_spec c ".") as [->|Hc]; cbn [andb].
    + destruct (Py.span_digits r) as [fp r2] eqn:E2.
      destruct (span_digits_spec _ _ _ E2) as (Hr & Hfp & Hr2).
      simpl in Hr1c. subst r. rewrite forallb_str_app in Hr1c.
      apply andb_true_iff in Hr1c as [_ Hr2c].
      rewrite (exponent_cell _ Hr2c).
      destruct r2 as [|c2 r2].
      * rewrite append_nil_r_str_aux.
        rewrite Hfp. cbn [andb is_empty].
        destruct ip, fp; cbn [is_empty andb negb]; try reflexivity;
          now rewrite Z.sub_0_l.
      * assert (all_decimal (fp ++ String c2 r2) = false) as ->.
        { unfold all_decimal. rewrite forallb_str_app. simpl. rewrite Hr2.
          simpl. now rewrite andb_false_r. }
        cbn [andb is_empty]. now destruct ip, fp.
    + rewrite (exponent_cell _ Hr1c). cbn [is_empty]. now destruct ip.
Qed.

(** *** The guard of [parse_csv_to_json] and the two patterns *)

Lemma guard_cell (v : string) :
  Py.isdigit (Py.replace1 "-" (Py.replace1 "." v)) = true ->
  Py.forallb_str cell_char v = true.
Proof.
  intros H.
  assert (Py.forallb_str Py.isdigit_char (Py.replace1 "-" (Py.replace1 "." v)) = true) as H1.
  { unfold Py.isdigit in H. now destruct (Py.replace1 "-" (Py.replace1 "." v)). }
  apply replace1_forall in H1. apply replace1_forall in H1.
  revert H1. apply forallb_str_impl. intros c Hc. unfold cell_char.
  destruct (Py.isdigit_char c), (Ascii.eqb c "."), (Ascii.eqb c "-");
    simpl in *; congruence.
Qed.

Lemma isdigit_of_decimal (s : string) :
  all_decimal s = true -> is_empty s = false -> Py.isdigit s = true.
Proof.
  intros H He. unfold Py.isdigit. destruct s; [discriminate|].
  revert H. apply forallb_str_impl. apply decimal_is_digit.
Qed.

Lemma integer_pattern_dot (v : string) :
  integer_pattern v = true -> Py.count "." v = 0.
Proof.
  unfold integer_pattern. intros H. apply andb_true_iff in H as [_ H].
  rewrite <- count_unsigned_dot. now apply all_decimal_no_dot.
Qed.

Lemma integer_pattern_guard (v : string) :
  integer_pattern v = true ->
  Py.isdigit (Py.replace1 "-" (Py.replace1 "." v)) = true.
Proof.
  intros H. rewrite (replace1_absent "." v (integer_pattern_dot v H)).
  unfold integer_pattern in H. apply andb_true_iff in H as [He Hd].
  apply negb_true_iff in He.
  destruct v as [|c r]; [discriminate|].
  unfold unsigned_part in *. destruct (Ascii.eqb c "-") eqn:Ec.
  - cbn [Py.replace1]. rewrite Ec. now apply isdigit_of_decimal.
  - rewrite (replace1_absent "-" _ (all_decimal_no_minus _ Hd)).
    now apply isdigit_of_decimal.
Qed.

Lemma signed_unsigned (v : string) :
  v = (if has_minus v then "-" else "") ++ unsigned_part v.
Proof.
  destruct v as [|c r]; simpl; [reflexivity|].
  destruct (Ascii.eqb_spec c "-") as [->|]; reflexivity.
Qed.

Lemma decimal_parts_guard (v ip fp : string) :
  decimal_parts v = Some (ip, fp) ->
  Py.isdigit (Py.replace1 "-" (Py.replace1 "." v)) = true.
Proof.
  intros E. destruct (decimal_parts_shape _ _ _ E) as (Hb & Hip & Hfp & He).
  assert (Py.isdigit (ip ++ fp) = true) as Hd.
  { apply isdigit_of_decimal.
    - unfold all_decimal in *. now rewrite forallb_str_app, Hip, Hfp.
    - destruct ip; [|reflexivity]. destruct fp; [discriminate|reflexivity]. }
  assert (Py.count "-" (ip ++ fp) = 0) as Hm.
  { rewrite count_app, (all_decimal_no_minus _ Hip), (all_decimal_no_minus _ Hfp).
    reflexivity. }
  rewrite (signed_unsigned v), Hb.
  destruct (has_minus v); cbn [append].
  - change (Py.replace1 "." (String "-" (ip ++ String "." fp)))
      with (String "-" (Py.replace1 "." (ip ++ String "." fp))).
    rewrite (replace1_app "." ip fp (all_decimal_no_dot _ Hip)).
    exact Hd.
  - rewrite (replace1_app "." ip fp (all_decimal_no_dot _ Hip)).
    now rewrite (replace1_absent "-" _ Hm).
Qed.

Lemma all_decimal_decimal_char (s : string) :
  all_decimal s = true -> Py.forallb_str decimal_char s = true.
Proof.
  apply forallb_str_impl. intros c Hc. unfold decimal_char. now rewrite Hc.
Qed.

Lemma decimal_parts_pattern (v ip fp : string) :
  decimal_parts v = Some (ip, fp) -> decimal_pattern v = true.
Proof.
  intros E. destruct (decimal_parts_shape _ _ _ E) as (Hb & Hip & Hfp & He).
  pose proof (all_decimal_decimal_char _ Hip) as Hipc.
  pose proof (all_decimal_decimal_char _ Hfp) as Hfpc.
  pose proof (all_decimal_no_minus _ Hip) as Hipm.
  pose proof (all_decimal_no_minus _ Hfp) as Hfpm.
  pose proof (all_decimal_no_dot _ Hip) as Hipd.
  pose proof (all_decimal_no_dot _ Hfp) as Hfpd.
  assert (Py.forallb_str (fun c => negb (Py.is_decimal c)) (ip ++ "." ++ fp) = false) as Hsome.
  { rewrite forallb_str_app. unfold all_decimal in *.
    destruct ip as [|a ip].
    - destruct fp as [|b fp]; [discriminate|]. simpl in *.
      apply andb_true_iff in Hfp as [-> _]. reflexivity.
    - simpl in *. apply andb_true_iff in Hip as [-> _]. reflexivity. }
  assert (Py.forallb_str decimal_char (ip ++ "." ++ fp) = true) as Hall.
  { rewrite forallb_str_app. simpl. now rewrite Hipc, Hfpc. }
  assert (Py.count "-" (ip ++ "." ++ fp) = 0) as Hminus.
  { rewrite count_app. simpl. now rewrite Hipm, Hfpm. }
  assert (Py.count "." (ip ++ "." ++ fp) = 1) as Hdot.
  { rewrite count_app. simpl. now rewrite Hipd, Hfpd. }
  unfold decimal_pattern. rewrite (signed_unsigned v), Hb.
  destruct (has_minus v).
  - change ("-" ++ ip ++ "." ++ fp) with (String "-" (ip ++ "." ++ fp)).
    cbn [Py.forallb_str Py.count]. rewrite Hall, Hminus, Hdot, Hsome. reflexivity.
  - change ("" ++ ip ++ "." ++ fp) with (ip ++ "." ++ fp).
    rewrite Hall, Hminus, Hdot, Hsome. reflexivity.
Qed.

Lemma convert_value_inferred (v : string) :
  convert_value (PStr v) = Normal (inferred v).
Proof.
  unfold inferred. destruct v as [|c0 v0]; [reflexivity|].
  set (v := String c0 v0). cbn [is_empty].
  change (convert_value (PStr v)) with
    (if Py.isdigit (Py.replace1 "-" (Py.replace1 "." v)) then
       if negb (Py.contains "." v) then
         match Py.int v with
         | Some z => Normal (PInt z)
         | None => Normal (PStr v)
         end
       else
         match Py.float v with
         | Some f => Normal (PFloat f)
         | None => Normal (PStr v)
         end
     else Normal (PStr v)).
  destruct (Py.isdigit (Py.replace1 "-" (Py.replace1 "." v))) eqn:G.
  - pose proof (guard_cell v G) as Hc.
    destruct (Py.contains "." v) eqn:Hdot; cbn [negb].
    + rewrite (float_cell v Hc Hdot).
      assert (integer_pattern v = false) as ->.
      { destruct (integer_pattern v) eqn:Hi; [|reflexivity].
        rewrite contains_count, (integer_pattern_dot v Hi) in Hdot. discriminate. }
      destruct (decimal_parts v) as [[ip fp]|] eqn:E.
      * now rewrite (decimal_parts_pattern _ _ _ E).
      * now destruct (decimal_pattern v).
    + rewrite (int_cell v Hc).
      destruct (integer_pattern v).
      * now destruct (String.length (unsigned_part v) <=? Py.int_max_str_digits)%nat.
      * rewrite contains_count in Hdot. apply negb_false_iff in Hdot.
        apply Nat.eqb_eq in Hdot. rewrite (decimal_parts_no_dot v Hdot).
        now destruct (decimal_pattern v).
  - assert (integer_pattern v = false) as ->.
    { destruct (integer_pattern v) eqn:Hi; [|reflexivity].
      rewrite (integer_pattern_guard v Hi) in G. discriminate. }
    destruct (decimal_parts v) as [[ip fp]|] eqn:E.
    + rewrite (decimal_parts_guard _ _ _ E) in G. discriminate.
    + now destruct (decimal_pattern v).
Qed.

(** The strings of the integer pattern, written out. *)
Lemma integer_pattern_shape (v : string) :
  integer_pattern v = true <->
  exists ds, is_empty ds = false /\ all_decimal ds = true /\ (v = ds \/ v = "-" ++ ds).
Proof.
  unfold integer_pattern. split.
  - intros H. apply andb_true_iff in H as [He Hd]. apply negb_true_iff in He.
    exists (unsigned_part v). repeat split; auto.
    rewrite (signed_unsigned v) at 1 3. destruct (has_minus v); auto.
  - intros (ds & He & Hd & [->| ->]).
    + destruct ds as [|c ds]; [discriminate|]. unfold unsigned_part.
      unfold all_decimal in Hd. simpl in Hd.
      pose proof Hd as Hd'. apply andb_true_iff in Hd as [Hc _].
      destruct (decimal_not_dot_minus c Hc) as [_ ->].
      unfold all_decimal. simpl. exact Hd'.
    + simpl. now rewrite He, Hd.
Qed.

(** The strings [decimal_parts] accepts, written out. *)
Lemma decimal_parts_complete (ip fp : string) :
  all_decimal ip = true -> all_decimal fp = true -> is_empty ip && is_empty fp = false ->
  decimal_parts (ip ++ "." ++ fp) = Some (ip, fp)
  /\ decimal_parts ("-" ++ ip ++ "." ++ fp) = Some (ip, fp).
Proof.
  intros Hip Hfp He.
  assert (Py.span_digits (ip ++ String "." fp) = (ip, String "." fp)) as Hspan.
  { clear He. unfold all_decimal in Hip. induction ip as [|c ip IH]; simpl; [reflexivity|].
    simpl in Hip. apply andb_true_iff in Hip as [-> Hip]. now rewrite (IH Hip). }
  assert (unsigned_part (ip ++ "." ++ fp) = ip ++ "." ++ fp) as Hu.
  { destruct ip as [|c ip]; [reflexivity|]. unfold all_decimal in Hip. simpl in *.
    apply andb_true_iff in Hip as [Hc _].
    now destruct (decimal_not_dot_minus c Hc) as [_ ->]. }
  unfold decimal_parts. split.
  - rewrite Hu. change (ip ++ "." ++ fp) with (ip ++ String "." fp).
    rewrite Hspan. simpl. now rewrite Hfp, He.
  - change (unsigned_part ("-" ++ ip ++ "." ++ fp)) with (ip ++ String "." fp).
    rewrite Hspan. simpl. now rewrite Hfp, He.
Qed.

(** C1 (as amended). The value [parse_csv_to_json] stores for a cell: [None]
    for the empty string; the integer for a string of the integer pattern
    (an optional leading minus, then digits only), or the string itself when
    [int] refuses it, which it does beyond 4300 digits; for another string of
    the decimal pattern (digits, at most one minus, at most one dot), the
    float when the string writes one (the minus leading, one dot, a digit),
    and otherwise the string itself; every other string unchanged. The two
    recognizers are the patterns they are named after. *)
Theorem convert_value_exact (v : string) :
  convert_value (PStr v) = Normal
    (if is_empty v then PNone
     else if integer_pattern v then
       if (String.length (unsigned_part v) <=? Py.int_max_str_digits)%nat
       then PInt (integer_value v)
       else PStr v
     else if decimal_pattern v then
       match decimal_parts v with
       | Some (ip, fp) => PFloat (decimal_value v ip fp)
       | None => PStr v
       end
     else PStr v)
  /\ (integer_pattern v = true <->
      exists ds, is_empty ds = false /\ all_decimal ds = true
                 /\ (v = ds \/ v = "-" ++ ds))
  /\ (forall ip fp,
        decimal_parts v = Some (ip, fp) <->
        all_decimal ip = true /\ all_decimal fp = true
        /\ is_empty ip && is_empty fp = false
        /\ (v = ip ++ "." ++ fp \/ v = "-" ++ ip ++ "." ++ fp)).
Proof.
  split; [exact (convert_value_inferred v)|].
  split; [exact (integer_pattern_shape v)|].
  intros ip fp. split.
  - intros E. destruct (decimal_parts_shape _ _ _ E) as (Hb & Hip & Hfp & He).
    repeat split; try assumption.
    pose proof (signed_unsigned v) as Hv. rewrite Hb in Hv.
    destruct (has_minus v); [right|left]; exact Hv.
  - intros (Hip & Hfp & He & [->| ->]).
    + exact (proj1 (decimal_parts_complete ip fp Hip Hfp He)).
    + exact (proj2 (decimal_parts_complete ip fp Hip Hfp He)).
Qed.

(** C1 (as stated) fails: a string of 4301 digits has the integer pattern
    and stays a string. *)
Lemma convert_value_long_integer :
  integer_pattern long_integer = true
  /\ String.length long_integer = 4301
  /\ convert_value (PStr long_integer) = Normal (PStr long_integer).
Proof. vm_compute. repeat split. Qed.

(** ** Report File Decoder: the rows *)

Lemma convert_value_cell (v : pyval) :
  is_cell v -> exists c, convert_value v = Normal c.
Proof.
  destruct v; intros H; try contradiction H.
  - now exists PNone.
  - rewrite convert_value_inferred. now eexists.
Qed.

Lemma dict_set_cells (d : list (pyval * pyval)) (k v : pyval) :
  Forall (fun kv => is_cell (snd kv)) d -> is_cell v ->
  Forall (fun kv => is_cell (snd kv)) (dict_set d k v).
Proof.
  induction d as [|[k' v'] d IH]; simpl; intros Hd Hv.
  - now repeat constructor.
  - inversion Hd; subst. destruct (key_eqb k' k); constructor; auto.
Qed.

Lemma fold_dict_set_cells (pairs : list (pyval * pyval)) (d : list (pyval * pyval)) :
  Forall (fun kv => is_cell (snd kv)) pairs ->
  Forall (fun kv => is_cell (snd kv)) d ->
  Forall (fun kv => is_cell (snd kv))
    (fold_left (fun d kv => dict_set d (fst kv) (snd kv)) pairs d).
Proof.
  revert d. induction pairs as [|[k v] pairs IH]; simpl; intros d Hp Hd; [exact Hd|].
  inversion Hp; subst. apply IH; [assumption|]. now apply dict_set_cells.
Qed.

Lemma combine_cells (keys : list pyval) (row : list string) :
  Forall (fun kv => is_cell (snd kv)) (combine keys (map PStr row)).
Proof.
  revert row. induction keys as [|k keys IH]; intros [|c row]; simpl;
    constructor; simpl; auto.
Qed.

Lemma fold_restval_cells (keys : list string) (d : list (pyval * pyval)) :
  Forall (fun kv => is_cell (snd kv)) d ->
  Forall (fun kv => is_cell (snd kv))
    (fold_left (fun d key => dict_set d (PStr key) PNone) keys d).
Proof.
  revert d. induction keys as [|k keys IH]; simpl; intros d Hd; [exact Hd|].
  apply IH. now apply dict_set_cells.
Qed.

Lemma parse_items_cells (items parsed_row : list (pyval * pyval)) :
  Forall (fun kv => is_cell (snd kv)) items ->
  exists d, parse_items items parsed_row = Normal d.
Proof.
  revert parsed_row. induction items as [|[k v] items IH]; simpl; intros parsed_row H.
  - now eexists.
  - inversion H; subst. simpl in *.
    destruct (convert_value_cell v) as [c ->]; [assumption|]. now apply IH.
Qed.

(** A record no longer than the header gives a row that decodes. *)
Lemma parse_row_no_surplus (fieldnames row : list string) :
  length row <= length fieldnames ->
  exists d, parse_row (Csv.make_row fieldnames row) = Normal (PDict d).
Proof.
  intros Hlen. unfold Csv.make_row.
  assert (Forall (fun kv => is_cell (snd kv))
            (dict_of (combine (map PStr fieldnames) (map PStr row)))) as Hd.
  { unfold dict_of. apply fold_dict_set_cells; [apply combine_cells|constructor]. }
  destruct (Nat.ltb_spec (length fieldnames) (length row)); [lia|].
  destruct (length row <? length fieldnames)%nat; unfold parse_row.
  - destruct (parse_items_cells
                (fold_left (fun d key => dict_set d (PStr key) PNone)
                   (skipn (length row) fieldnames)
                   (dict_of (combine (map PStr fieldnames) (map PStr row)))) [])
      as [d ->]; [now apply fold_restval_cells|now eexists].
  - destruct (parse_items_cells _ [] Hd) as [d ->]. now eexists.
Qed.

Lemma parse_rows_no_surplus (fieldnames : list string) (rows : list (list string))
  (data : list pyval) :
  Forall (fun r => length r <= length fieldnames) rows ->
  exists decoded,
    parse_rows (map (Csv.make_row fieldnames) rows) data = Normal (data ++ decoded)%list
    /\ Forall2 (fun r d => parse_row (Csv.make_row fieldnames r) = Normal d) rows decoded.
Proof.
  revert data. induction rows as [|r rows IH]; simpl; intros data H.
  - exists []. rewrite app_nil_r. split; constructor.
  - inversion H as [|? ? Hr Hrows]; subst.
    destruct (parse_row_no_surplus fieldnames r Hr) as [d Hd]. rewrite Hd.
    destruct (IH (data ++ [PDict d])%list Hrows) as (decoded & -> & Hall).
    exists (PDict d :: decoded). rewrite <- app_assoc. split; [reflexivity|].
    now constructor.
Qed.

(** When no record is longer than the header, [parse_csv] returns one record
    for each record of the file that is not empty, in the same order. *)
Lemma parse_csv_no_surplus (csv_content : string) (fieldnames : list string)
  (rows : list (list string)) :
  Csv.reader_rows csv_content = (fieldnames :: rows, None) ->
  Forall (fun r => length r <= length fieldnames) rows ->
  exists data,
    parse_csv csv_content = Normal data
    /\ length data = length (filter (fun r => negb (Csv.is_nil r)) rows)
    /\ Forall2 (fun r d => parse_row (Csv.make_row fieldnames r) = Normal d)
         (filter (fun r => negb (Csv.is_nil r)) rows) data.
Proof.
  intros Hrows Hlen. unfold parse_csv, Csv.DictReader. rewrite Hrows.
  destruct (parse_rows_no_surplus fieldnames
              (filter (fun r => negb (Csv.is_nil r)) rows) [])
    as (data & -> & Hall).
  - apply Forall_forall. intros r Hr. apply filter_In in Hr as [Hr _].
    now apply (proj1 (Forall_forall _ _) Hlen).
  - exists data. simpl. repeat split; [|exact Hall].
    symmetry. exact (Forall2_length Hall).
Qed.

(** *** Rows as long as a header without repeated names *)

Lemma dict_set_fresh (d : list (string * pyval)) (k : string) (v : pyval) :
  ~ In k (map fst d) ->
  dict_set (str_keyed d) (PStr k) v = str_keyed (d ++ [(k, v)]).
Proof.
  induction d as [|[k' v'] d IH]; simpl; intros H; [reflexivity|].
  destruct (String.eqb_spec k' k) as [->|Hne]; [tauto|].
  rewrite IH by tauto. reflexivity.
Qed.

Lemma fold_dict_set_nodup (pairs d : list (string * pyval)) :
  NoDup (map fst (d ++ pairs)) ->
  fold_left (fun d kv => dict_set d (fst kv) (snd kv)) (str_keyed pairs) (str_keyed d)
    = str_keyed (d ++ pairs).
Proof.
  revert d. induction pairs as [|[k v] pairs IH]; simpl; intros d H.
  - now rewrite app_nil_r.
  - rewrite dict_set_fresh.
    + rewrite IH; rewrite <- app_assoc; [reflexivity|exact H].
    + rewrite map_app in H. simpl in H. apply NoDup_remove_2 in H.
      intros Hin. apply H. apply in_or_app. now left.
Qed.

Lemma parse_items_nodup (keys : list string) (cells : list string)
  (acc : list (string * pyval)) :
  NoDup (map fst acc ++ keys) -> length cells = length keys ->
  parse_items (str_keyed (combine keys (map PStr cells))) (str_keyed acc)
    = Normal (str_keyed (acc ++ combine keys (map inferred cells))).
Proof.
  revert cells acc. induction keys as [|k keys IH]; intros [|c cells] acc Hnd Hlen;
    try discriminate.
  - simpl. now rewrite app_nil_r.
  - cbn [combine map str_keyed parse_items fst snd].
    rewrite convert_value_inferred.
    change (map (fun kv : string * pyval => (PStr (fst kv), snd kv)) acc)
      with (str_keyed acc).
    change (map (fun kv : string * pyval => (PStr (fst kv), snd kv))
              (combine keys (map PStr cells)))
      with (str_keyed (combine keys (map PStr cells))).
    rewrite dict_set_fresh.
    + rewrite IH.
      * now rewrite <- app_assoc.
      * rewrite map_app, <- app_assoc. exact Hnd.
      * simpl in Hlen. lia.
    + apply NoDup_remove_2 in Hnd. intros Hin. apply Hnd. apply in_or_app. now left.
Qed.

Lemma str_keyed_combine (keys : list string) (vals : list pyval) :
  combine (map PStr keys) vals = str_keyed (combine keys vals).
Proof.
  revert vals. induction keys as [|k keys IH]; intros [|v vals]; simpl;
    try reflexivity. now rewrite IH.
Qed.

Lemma in_combine_keys {A : Type} (keys : list string) (vals : list A) (k : string) :
  In k (map fst (combine keys vals)) -> In k keys.
Proof.
  revert vals. induction keys as [|k' keys IH]; intros [|v vals]; simpl; try tauto.
  intros [->|Hin]; [now left|right; now apply (IH vals)].
Qed.

Lemma nodup_combine_keys {A : Type} (keys : list string) (vals : list A) :
  NoDup keys -> NoDup (map fst (combine keys vals)).
Proof.
  intros Hnd. revert vals. induction Hnd as [|k keys Hk Hnd IH]; intros [|v vals];
    simpl; constructor.
  - intros Hin. apply Hk. now apply in_combine_keys in Hin.
  - apply IH.
Qed.

(** A record as long as a header without repeated names gives the row that
    maps each name to the inferred value of its cell. *)
Lemma parse_row_rectangular (fieldnames row : list string) :
  NoDup fieldnames -> length row = length fieldnames ->
  parse_row (Csv.make_row fieldnames row)
    = Normal (PDict (str_keyed (combine fieldnames (map inferred row)))).
Proof.
  intros Hnd Hlen. unfold Csv.make_row. rewrite Hlen, Nat.ltb_irrefl.
  unfold dict_of. rewrite str_keyed_combine.
  pose proof (fold_dict_set_nodup (combine fieldnames (map PStr row)) []) as Hfold.
  change (str_keyed []) with (@nil (pyval * pyval)) in Hfold.
  rewrite Hfold.
  - simpl app. unfold parse_row.
    pose proof (parse_items_nodup fieldnames row []) as Hitems.
    change (str_keyed []) with (@nil (pyval * pyval)) in Hitems.
    rewrite Hitems; [reflexivity|exact Hnd|exact Hlen].
  - simpl. now apply nodup_combine_keys.
Qed.

(** C7 fails on a record with one cell more than the header: the reader
    stores the surplus cells as a list under the key [None], and the decoder
    calls [replace] on that list. *)
Theorem parse_csv_surplus_cell :
  Csv.reader_rows Examples.surplus_cell_csv = ([["a"]; ["1"; "2"]], None)
  /\ Csv.DictReader Examples.surplus_cell_csv
     = ([PDict [(PStr "a", PStr "1"); (PNone, PList [PStr "2"])]], None)
  /\ parse_csv Examples.surplus_cell_csv
     = Raise (AttributeError "'list' object has no attribute 'replace'").
Proof. vm_compute. repeat split. Qed.

(** ** Report Orchestrator *)

Lemma in_remote_ops (e : event) (op : remote_op) (evs : list event) :
  In e evs -> op_of e = Some op -> In op (remote_ops evs).
Proof.
  induction evs as [|x evs IH]; simpl; [tauto|].
  intros [->|H] Hop.
  - rewrite Hop. now left.
  - destruct (op_of x); [right|]; now apply IH.
Qed.

Lemma remote_ops_app (l m : list event) :
  remote_ops (l ++ m) = (remote_ops l ++ remote_ops m)%list.
Proof.
  induction l as [|x l IH]; simpl; [reflexivity|].
  destruct (op_of x); simpl; now rewrite IH.
Qed.

(** Unfolds the combinators of [M]. *)
Ltac unfold_M :=
  unfold bind, lift, ret, raise, remote, logger, emit, get_global, set_global,
    try_except in *.

(** Splits on the scrutinee of a [match] of the goal. *)
Ltac split_match :=
  match goal with
  | |- context [match ?x with _ => _ end] =>
      lazymatch x with
      | context [match _ with _ => _ end] => fail
      | _ => destruct x eqn:?
      end
  end.

(** [get_service] adds to the trace log records and at most one [Build]; on
    success the service is the global afterwards. *)
Lemma get_service_events (w : world) (st : pystate) :
  exists pre,
    trace (fst (get_service w st)) = (trace st ++ pre)%list
    /\ (remote_ops pre = [] \/ remote_ops pre = [OpBuild]).
Proof.
  unfold get_service, get_bid_manager_service. unfold_M. cbn.
  destruct (_bid_manager_service st).
  - exists []. rewrite app_nil_r. auto.
  - destruct (SERVICE_ACCOUNT_JSON w) as [[|c s]|];
      try (exists []; cbn; rewrite app_nil_r; now auto).
    destruct (json_loads w (String c s));
      try (exists []; cbn; rewrite app_nil_r; now auto).
    cbn. destruct (from_service_account_info w p); cbn.
    + destruct (discovery_build w _ BID_MANAGER_API_NAME a) eqn:E; cbn;
        rewrite <- ?app_assoc; cbn; eexists; split; try reflexivity; cbn; auto.
    + eexists; split; [reflexivity|]. cbn. auto.
Qed.

Lemma try_normal_tagged (w : world) (a : report_args) (st st1 : pystate) (r0 : pyval) :
  dv_run_report_try w a st = (st1, Normal r0) -> is_tagged r0 = true.
Proof.
  unfold dv_run_report_try, download_csv_from_gcs, parse_csv_to_json,
    prepare_dimensions_and_metrics.
  unfold_M.
  destruct (get_service w st) as [st0 [svc|e]]; [|discriminate].
  repeat (split_match; try discriminate; cbn [fst snd trace _bid_manager_service]).
  all: intros H; inversion H; reflexivity.
Qed.

(** The events of a list that come after a given beginning are determined. *)
Lemma trace_suffix (t evs evs' : list event) :
  (t ++ evs)%list = (t ++ evs')%list -> evs = evs'.
Proof. apply app_inv_head. Qed.

(** No call of [kind] among the events [get_service] adds. *)
Lemma not_in_pre (e : event) (op : remote_op) (pre : list event) :
  remote_ops pre = [] \/ remote_ops pre = [OpBuild] ->
  op_of e = Some op -> op <> OpBuild -> ~ In e pre.
Proof.
  intros Hops Hop Hne Hin. apply (in_remote_ops e op) in Hin; [|exact Hop].
  destruct Hops as [E|E]; rewrite E in Hin; simpl in Hin; intuition congruence.
Qed.

(** Runs [dv_run_report] symbolically: one goal per path, the state and the
    result of the path in the premise of the goal. *)
Ltac run_paths w st :=
  unfold dv_run_report, dv_run_report_try, download_csv_from_gcs, parse_csv_to_json,
    prepare_dimensions_and_metrics;
  unfold_M;
  let pre := fresh "pre" in
  let Hpre := fresh "Hpre" in
  let Hops := fresh "Hops" in
  destruct (get_service_events w st) as (pre & Hpre & Hops);
  destruct (get_service w st) as [?st0 [?svc|?e0]]; cbn [fst] in Hpre;
  repeat (split_match; cbn [fst snd trace _bid_manager_service]);
  rewrite Hpre; rewrite <- ?app_assoc; cbn [app].

(** Reads the state, the result and the new events off a path. *)
Ltac read_path H Htr :=
  inversion H; subst; clear H;
  cbn [trace] in Htr; apply trace_suffix in Htr; subst.

(** Finds which event of a path a given event is. *)
Ltac find_event Hin Hops :=
  apply in_app_or in Hin as [Hin|Hin];
  [ exfalso; revert Hin; eapply not_in_pre; [exact Hops|reflexivity|discriminate]
  | cbn [In] in Hin;
    repeat (destruct Hin as [Hin|Hin]; [try discriminate Hin|]);
    try contradiction ].

Lemma getitem_dict (items : list (pyval * pyval)) (key : string) (v : pyval) :
  dict_lookup items (PStr key) = Some v -> getitem (PDict items) key = Normal v.
Proof. unfold getitem. now intros ->. Qed.

(** C2. When the run replies with a status whose state is [FAILED], the tool
    returns, without raising, the record with [success] false, the error
    [Report generation failed: ] followed by the message of the status
    ([Unknown error] when the status has no message) and [query_id] the
    identifier that the submission returned and that was passed to the run. *)
Theorem dv_run_report_failed_state (w : world) (a : report_args) (st st' : pystate)
  (r : result pyval) (evs : list event) (q rr md : pyval) (status : list (pyval * pyval)) :
  dv_run_report w a st = (st', r) ->
  trace st' = (trace st ++ evs)%list ->
  In (QueriesRun q true (Normal rr)) evs ->
  getitem rr "metadata" = Normal md ->
  getitem md "status" = Normal (PDict status) ->
  dict_lookup status (PStr "state") = Some (PStr "FAILED") ->
  r = Normal (PDict [
        (PStr "success", PBool false);
        (PStr "error",
         PStr ("Report generation failed: " ++ status_message w status));
        (PStr "query_id", q)])
  /\ exists body query_response,
       In (QueriesCreate body (Normal query_response)) evs
       /\ getitem query_response "queryId" = Normal q.
Proof.
  intros H Htr Hin Hmd Hst Hstate.
  apply getitem_dict in Hstate.
  revert H Htr. run_paths w st; intros H Htr; read_path H Htr;
    find_event Hin Hops; inversion Hin; subst; clear Hin;
    try congruence.
  all: repeat match goal with
       | H1 : ?x = Normal _, H2 : ?x = Normal _ |- _ =>
           rewrite H1 in H2; inversion H2; subst; clear H2
       end; try discriminate.
  all: try match goal with
       | H : dict_get (PDict _) _ _ = Raise _ |- _ =>
           unfold dict_get in H; destruct (dict_lookup _ _) in H; discriminate H
       end.
  all: split;
    [ unfold failed_result, status_message;
      match goal with
      | H : dict_get (PDict _) "message" _ = Normal ?m |- _ =>
          unfold dict_get in H;
          destruct (dict_lookup status (PStr "message")) as [[]|];
          inversion H; subst; reflexivity
      end
    | do 2 eexists; split; [apply in_or_app; right; cbn [In]; eauto 10|assumption] ].
Qed.

Lemma dv_run_report_returns (w : world) (a : report_args) (st : pystate) :
  exists st' r,
    dv_run_report w a st = (st', Normal r)
    /\ is_tagged r = true
    /\ match snd (dv_run_report_try w a st) with
       | Normal r0 => r = r0
       | Raise e => r = error_result e
       end.
Proof.
  unfold dv_run_report, try_except.
  destruct (dv_run_report_try w a st) as [st1 [r0|e]] eqn:E.
  - exists st1, r0. repeat split. exact (try_normal_tagged _ _ _ _ _ E).
  - unfold_M. cbn. do 2 eexists. repeat split.
Qed.

Lemma dv_run_report_extends_trace (w : world) (a : report_args) (st : pystate) :
  exists evs, trace (fst (dv_run_report w a st)) = (trace st ++ evs)%list.
Proof.
  run_paths w st; eexists; reflexivity.
Qed.

(** Where the exception came from does not matter: the record is the same. *)
Lemma dv_run_report_stage_errors (w : world) (a : report_args) (st st' : pystate)
  (r : result pyval) (evs : list event) :
  dv_run_report w a st = (st', r) ->
  trace st' = (trace st ++ evs)%list ->
  (forall st0 e, get_service w st = (st0, Raise e) -> r = Normal (error_result e))
  /\ (forall st0 svc e, get_service w st = (st0, Normal svc) ->
        format_date_for_api (start_date a) = Raise e -> r = Normal (error_result e))
  /\ (forall st0 svc d e, get_service w st = (st0, Normal svc) ->
        format_date_for_api (start_date a) = Normal d ->
        format_date_for_api (end_date a) = Raise e -> r = Normal (error_result e))
  /\ (forall body e, In (QueriesCreate body (Raise e)) evs -> r = Normal (error_result e))
  /\ (forall q e, In (QueriesRun q true (Raise e)) evs -> r = Normal (error_result e))
  /\ (forall p e, In (Urlopen p (Raise e)) evs -> r = Normal (error_result e))
  /\ (forall p csv e, In (Urlopen p (Normal csv)) evs -> parse_csv csv = Raise e ->
        r = Normal (error_result e)).
Proof.
  run_paths w st; intros H Htr; read_path H Htr.
  all: repeat split; intros;
    try match goal with
        | H : (_, _) = (_, _) |- _ => inversion H; subst; clear H
        end;
    try congruence;
    try match goal with
        | Hin : In _ _ |- _ => find_event Hin Hops; inversion Hin; subst; congruence
        end.
Qed.

(** [dv_run_report] returns a tagged record and raises nothing; when the
    [try] block raises [e], the record is [success] false with [error] the
    text of [e], wherever [e] comes from. *)
Lemma dv_run_report_converts_exceptions (w : world) (a : report_args) (st : pystate) :
  exists st' r evs,
    dv_run_report w a st = (st', Normal r)
    /\ trace st' = (trace st ++ evs)%list
    /\ is_tagged r = true
    /\ match snd (dv_run_report_try w a st) with
       | Normal r0 => r = r0
       | Raise e => r = PDict [(PStr "success", PBool false); (PStr "error", PStr (str_exn e))]
       end
    /\ (forall st0 e, get_service w st = (st0, Raise e) -> r = error_result e)
    /\ (forall st0 svc e, get_service w st = (st0, Normal svc) ->
          format_date_for_api (start_date a) = Raise e -> r = error_result e)
    /\ (forall st0 svc d e, get_service w st = (st0, Normal svc) ->
          format_date_for_api (start_date a) = Normal d ->
          format_date_for_api (end_date a) = Raise e -> r = error_result e)
    /\ (forall body e, In (QueriesCreate body (Raise e)) evs -> r = error_result e)
    /\ (forall q e, In (QueriesRun q true (Raise e)) evs -> r = error_result e)
    /\ (forall p e, In (Urlopen p (Raise e)) evs -> r = error_result e)
    /\ (forall p csv e, In (Urlopen p (Normal csv)) evs -> parse_csv csv = Raise e ->
          r = error_result e).
Proof.
  destruct (dv_run_report_returns w a st) as (st' & r & Hrun & Htag & Htry).
  destruct (dv_run_report_extends_trace w a st) as (evs & Hevs).
  rewrite Hrun in Hevs. cbn [fst] in Hevs.
  destruct (dv_run_report_stage_errors w a st st' (Normal r) evs Hrun Hevs)
    as (H1 & H2 & H3 & H4 & H5 & H6 & H7).
  exists st', r, evs. repeat split; try assumption.
  - intros st0 e E. specialize (H1 st0 e E). now inversion H1.
  - intros st0 svc e E1 E2. specialize (H2 st0 svc e E1 E2). now inversion H2.
  - intros st0 svc d e E1 E2 E3. specialize (H3 st0 svc d e E1 E2 E3). now inversion H3.
  - intros body e E. specialize (H4 body e E). now inversion H4.
  - intros q e E. specialize (H5 q e E). now inversion H5.
  - intros p e E. specialize (H6 p e E). now inversion H6.
  - intros p csv e E1 E2. specialize (H7 p csv e E1 E2). now inversion H7.
Qed.

Lemma dv_run_report_downloaded (w : world) (a : report_args) (st st' : pystate)
  (r : result pyval) (evs : list event) (q rr p : pyval) (csv : string)
  (rows : list pyval) :
  dv_run_report w a st = (st', r) ->
  trace st' = (trace st ++ evs)%list ->
  In (QueriesRun q true (Normal rr)) evs ->
  In (Urlopen p (Normal csv)) evs ->
  parse_csv csv = Normal rows ->
  exists key report_id,
    getitem rr "key" = Normal key
    /\ getitem key "reportId" = Normal report_id
    /\ r = Normal (success_result a rows q report_id
                     (split_if_str (dimensions a)) (split_if_str (metrics a))
                     (prepare_filters (advertiser_ids a) (campaign_ids a)
                        (insertion_order_ids a) (line_item_ids a))).
Proof.
  intros H Htr Hrun Hdl Hrows.
  revert H Htr. run_paths w st; intros H Htr; read_path H Htr;
    find_event Hdl Hops; inversion Hdl; subst; clear Hdl;
    find_event Hrun Hops; inversion Hrun; subst; clear Hrun;
    try congruence.
  all: repeat match goal with
       | H1 : ?x = Normal _, H2 : ?x = Normal _ |- _ =>
           rewrite H1 in H2; inversion H2; subst; clear H2
       end.
  all: do 2 eexists; repeat split; eassumption.
Qed.

(** C4 (as amended). When the run has replied, the report file has been
    downloaded and its content decodes to [rows], the tool returns the record
    with [success] true, [data] the decoded rows and [metadata] made of the
    query identifier, the report identifier of the run's reply, the two dates
    as they were given, the normalized dimensions and metrics, the clauses
    that [prepare_filters] built and [row_count] the number of decoded rows.
    For the request and the two-row report of scenario A, [data] is the two
    records of the scenario and [row_count] is 2. *)
Theorem dv_run_report_success :
  (forall (w : world) (a : report_args) (st st' : pystate) (r : result pyval)
          (evs : list event) (q rr p : pyval) (csv : string) (rows : list pyval),
      dv_run_report w a st = (st', r) ->
      trace st' = (trace st ++ evs)%list ->
      In (QueriesRun q true (Normal rr)) evs ->
      In (Urlopen p (Normal csv)) evs ->
      parse_csv csv = Normal rows ->
      exists key report_id,
        getitem rr "key" = Normal key
        /\ getitem key "reportId" = Normal report_id
        /\ r = Normal (PDict [
             (PStr "success", PBool true);
             (PStr "data", PList rows);
             (PStr "metadata", PDict [
                (PStr "query_id", q);
                (PStr "report_id", report_id);
                (PStr "date_range", PDict [
                   (PStr "start_date", PStr (start_date a));
                   (PStr "end_date", PStr (end_date a))]);
                (PStr "dimensions", PList (map PStr (split_if_str (dimensions a))));
                (PStr "metrics", PList (map PStr (split_if_str (metrics a))));
                (PStr "filters",
                 PList (prepare_filters (advertiser_ids a) (campaign_ids a)
                          (insertion_order_ids a) (line_item_ids a)));
                (PStr "row_count", PInt (Z.of_nat (length rows)))])]))
  /\ (forall (w : world) (st st' : pystate) (r : result pyval)
             (evs : list event) (q rr p : pyval),
        dv_run_report w Examples.scenario_args st = (st', r) ->
        trace st' = (trace st ++ evs)%list ->
        In (QueriesRun q true (Normal rr)) evs ->
        In (Urlopen p (Normal Examples.scenario_csv)) evs ->
        exists report_id,
          r = Normal (PDict [
             (PStr "success", PBool true);
             (PStr "data", PList [
                PDict [(PStr "date", PStr "2025-01-01"); (PStr "impressions", PInt 100)];
                PDict [(PStr "date", PStr "2025-01-02"); (PStr "impressions", PInt 200)]]);
             (PStr "metadata", PDict [
                (PStr "query_id", q);
                (PStr "report_id", report_id);
                (PStr "date_range", PDict [
                   (PStr "start_date", PStr "2025-01-01");
                   (PStr "end_date", PStr "2025-01-31")]);
                (PStr "dimensions", PList [PStr "FILTER_DATE"]);
                (PStr "metrics", PList [PStr "METRIC_IMPRESSIONS"]);
                (PStr "filters", PList [
                   PDict [(PStr "type", PStr "FILTER_ADVERTISER");
                          (PStr "value", PStr "123")]]);
                (PStr "row_count", PInt 2)])])).
Proof.
  split.
  - intros w a st st' r evs q rr p csv rows H Htr Hrun Hdl Hrows.
    exact (dv_run_report_downloaded w a st st' r evs q rr p csv rows H Htr Hrun Hdl Hrows).
  - intros w st st' r evs q rr p H Htr Hrun Hdl.
    assert (parse_csv Examples.scenario_csv = Normal Examples.scenario_rows) as Hrows
      by (vm_compute; reflexivity).
    destruct (dv_run_report_downloaded w _ st st' r evs q rr p _ _ H Htr Hrun Hdl Hrows)
      as (key & report_id & _ & _ & ->).
    exists report_id. reflexivity.
Qed.

(** C4 (as stated) fails: the run replies with the state [DONE] and the tool
    returns a record with [success] false, when the download of the report
    file is refused, and when the file is served and has a row with one cell
    more than the header. *)
Lemma dv_run_report_done_without_data :
  (In (QueriesRun (PStr "q-1") true (Normal Examples.done_response))
      (trace (fst (dv_run_report (Examples.world_serving (Raise Examples.forbidden))
                     Examples.scenario_args Examples.fresh)))
   /\ snd (dv_run_report (Examples.world_serving (Raise Examples.forbidden))
             Examples.scenario_args Examples.fresh)
      = Normal (PDict [(PStr "success", PBool false);
                       (PStr "error", PStr "HTTP Error 403: Forbidden")]))
  /\ (In (QueriesRun (PStr "q-1") true (Normal Examples.done_response))
         (trace (fst (dv_run_report
                        (Examples.world_serving (Normal Examples.surplus_cell_csv))
                        Examples.scenario_args Examples.fresh)))
      /\ In (Urlopen (PStr "https://storage.googleapis.com/report.csv")
                (Normal Examples.surplus_cell_csv))
            (trace (fst (dv_run_report
                           (Examples.world_serving (Normal Examples.surplus_cell_csv))
                           Examples.scenario_args Examples.fresh)))
      /\ snd (dv_run_report (Examples.world_serving (Normal Examples.surplus_cell_csv))
                Examples.scenario_args Examples.fresh)
         = Normal (PDict [(PStr "success", PBool false);
                          (PStr "error",
                           PStr "'list' object has no attribute 'replace'")])).
Proof.
  split; [split|split; [|split]]; vm_compute;
    first [reflexivity | repeat first [left; reflexivity | right]].
Qed.

(** The records [get_service] logs are at the level [INFO]. *)
Lemma get_service_logs_info (w : world) (st : pystate) (pre : list event)
  (lvl : level) (msg : string) :
  trace (fst (get_service w st)) = (trace st ++ pre)%list ->
  In (Log lvl msg) pre -> lvl = INFO.
Proof.
  unfold get_service, get_bid_manager_service. unfold_M.
  cbn [fst snd trace _bid_manager_service].
  assert (forall evs, (trace st ++ evs)%list = (trace st ++ pre)%list ->
                      (In (Log lvl msg) evs -> lvl = INFO) ->
                      In (Log lvl msg) pre -> lvl = INFO) as Hsame
    by (intros evs E; apply app_inv_head in E; now subst).
  assert (trace st = (trace st ++ pre)%list -> In (Log lvl msg) pre -> lvl = INFO)
    as Hnone
    by (intros E; apply (Hsame []); [now rewrite app_nil_r|intros []]).
  destruct (_bid_manager_service st); [exact Hnone|].
  destruct (SERVICE_ACCOUNT_JSON w) as [[|c s]|]; try exact Hnone.
  destruct (json_loads w (String c s)); [exact Hnone|].
  cbn [fst snd trace _bid_manager_service].
  destruct (from_service_account_info w p BID_MANAGER_API_SCOPES);
    cbn [fst snd trace _bid_manager_service].
  - destruct (discovery_build w _ BID_MANAGER_API_NAME a);
      cbn [fst snd trace _bid_manager_service];
      rewrite <- ?app_assoc; intros E; apply (Hsame _ E); cbn [In app];
      intros H; repeat (destruct H as [H|H]; [now inversion H|]); destruct H.
  - intros E. apply (Hsame _ E). cbn [In].
    intros H; repeat (destruct H as [H|H]; [now inversion H|]); destruct H.
Qed.

(** A call without identifiers whose service and dates are in order logs the
    warning and submits the query with an empty [filters] list. *)
Lemma dv_run_report_unfiltered (w : world) (a : report_args)
  (st st0 : pystate) (svc : service) (start_date_dict end_date_dict : pyval) :
  advertiser_ids a = None -> campaign_ids a = None ->
  insertion_order_ids a = None -> line_item_ids a = None ->
  get_service w st = (st0, Normal svc) ->
  format_date_for_api (start_date a) = Normal start_date_dict ->
  format_date_for_api (end_date a) = Normal end_date_dict ->
  exists st' r body params reply rest,
    dv_run_report w a st = (st', Normal r)
    /\ is_tagged r = true
    /\ trace st' =
         (trace st0 ++
          [Log WARNING no_filter_warning;
           Log INFO ("Creating query: " ++ report_name a);
           QueriesCreate body reply] ++ rest)%list
    /\ body = query_obj a start_date_dict end_date_dict
                (split_if_str (dimensions a)) (split_if_str (metrics a)) []
    /\ getitem body "params" = Normal params
    /\ getitem params "filters" = Normal (PList []).
Proof.
  intros Ha Hc Hi Hl Hsvc Hs He.
  destruct (dv_run_report_returns w a st) as (st' & r & Hrun & Htag & _).
  exists st', r.
  revert Hrun.
  unfold dv_run_report, dv_run_report_try, download_csv_from_gcs, parse_csv_to_json,
    prepare_dimensions_and_metrics.
  unfold_M. rewrite Hsvc, Hs, He, Ha, Hc, Hi, Hl.
  cbn [prepare_filters append_filters Csv.is_nil].
  repeat (split_match; cbn [fst snd trace _bid_manager_service]).
  all: intros H; inversion H; subst; clear H.
  all: rewrite <- ?app_assoc; cbn [app].
  all: do 4 eexists; split; [reflexivity|]; split; [exact Htag|];
       split; [reflexivity|]; split; [reflexivity|]; split; reflexivity.
Qed.

(** The warning and the submission come after the service and the dates. *)
Lemma dv_run_report_stops_early (w : world) (a : report_args) (st : pystate)
  (evs : list event) :
  trace (fst (dv_run_report w a st)) = (trace st ++ evs)%list ->
  In (Log WARNING no_filter_warning) evs
  \/ (exists body reply, In (QueriesCreate body reply) evs) ->
  exists st0 svc start_date_dict end_date_dict,
    get_service w st = (st0, Normal svc)
    /\ format_date_for_api (start_date a) = Normal start_date_dict
    /\ format_date_for_api (end_date a) = Normal end_date_dict.
Proof.
  pose proof (get_service_logs_info w st) as Hlog.
  intros Htr Hin. revert Htr.
  run_paths w st; intros Htr; apply trace_suffix in Htr; subst evs.
  all: try (do 4 eexists; repeat split; reflexivity).
  all: exfalso; destruct Hin as [Hin|(body & reply & Hin)].
  all: apply in_app_or in Hin as [Hin|Hin];
    [ first [ discriminate (Hlog _ _ _ Hpre Hin)
            | revert Hin; eapply not_in_pre; [exact Hops|reflexivity|discriminate] ]
    | cbn [In] in Hin;
      repeat (destruct Hin as [Hin|Hin]; [discriminate Hin|]); exact Hin ].
Qed.

(** C8 (as amended). Without any identifier [prepare_filters] returns the
    empty list and [dv_run_report] returns a record, raising nothing. When
    the service is obtained and both dates are formatted, the call logs the
    warning and then submits the query with an empty [filters] list. When the
    service is not obtained or a date is not formatted, the call ends before
    both: the warning is logged and a query submitted only after the service
    and the two dates. *)
Theorem dv_run_report_without_filters (w : world) (a : report_args) (st : pystate) :
  advertiser_ids a = None -> campaign_ids a = None ->
  insertion_order_ids a = None -> line_item_ids a = None ->
  prepare_filters None None None None = []
  /\ (exists st' r, dv_run_report w a st = (st', Normal r) /\ is_tagged r = true)
  /\ (forall (st0 : pystate) (svc : service) (start_date_dict end_date_dict : pyval),
        get_service w st = (st0, Normal svc) ->
        format_date_for_api (start_date a) = Normal start_date_dict ->
        format_date_for_api (end_date a) = Normal end_date_dict ->
        exists st' r body params reply rest,
          dv_run_report w a st = (st', Normal r)
          /\ is_tagged r = true
          /\ trace st' =
               (trace st0 ++
                [Log WARNING no_filter_warning;
                 Log INFO ("Creating query: " ++ report_name a);
                 QueriesCreate body reply] ++ rest)%list
          /\ body = query_obj a start_date_dict end_date_dict
                      (split_if_str (dimensions a)) (split_if_str (metrics a)) []
          /\ getitem body "params" = Normal params
          /\ getitem params "filters" = Normal (PList []))
  /\ (forall evs : list event,
        trace (fst (dv_run_report w a st)) = (trace st ++ evs)%list ->
        In (Log WARNING no_filter_warning) evs
        \/ (exists body reply, In (QueriesCreate body reply) evs) ->
        exists st0 svc start_date_dict end_date_dict,
          get_service w st = (st0, Normal svc)
          /\ format_date_for_api (start_date a) = Normal start_date_dict
          /\ format_date_for_api (end_date a) = Normal end_date_dict).
Proof.
  intros Ha Hc Hi Hl. split; [reflexivity|]. split; [|split].
  - destruct (dv_run_report_returns w a st) as (st' & r & Hrun & Htag & _).
    now exists st', r.
  - intros st0 svc start_date_dict end_date_dict Hsvc Hs He.
    exact (dv_run_report_unfiltered w a st st0 svc start_date_dict end_date_dict
             Ha Hc Hi Hl Hsvc Hs He).
  - intros evs Htr Hin. exact (dv_run_report_stops_early w a st evs Htr Hin).
Qed.

(** C8 (as stated) fails: a call without identifiers whose start date has no
    hyphen ends before the warning and the submission. *)
Lemma dv_run_report_no_caution :
  prepare_filters (advertiser_ids Examples.unfiltered_bad_date_args)
    (campaign_ids Examples.unfiltered_bad_date_args)
    (insertion_order_ids Examples.unfiltered_bad_date_args)
    (line_item_ids Examples.unfiltered_bad_date_args) = []
  /\ trace (fst (dv_run_report Examples.scenario_world Examples.unfiltered_bad_date_args
                   Examples.fresh))
     = [Log INFO "Authenticating Bid Manager API with service account credentials";
        Build "doubleclickbidmanager" (Normal (Service 0));
        Log INFO "Bid Manager API service initialized successfully";
        Log ERROR "Error running report: not enough values to unpack (expected 3, got 1)"]
  /\ ~ In (Log WARNING no_filter_warning)
          (trace (fst (dv_run_report Examples.scenario_world
                         Examples.unfiltered_bad_date_args Examples.fresh)))
  /\ count_op OpCreate
       (trace (fst (dv_run_report Examples.scenario_world
                      Examples.unfiltered_bad_date_args Examples.fresh))) = 0
  /\ snd (dv_run_report Examples.scenario_world Examples.unfiltered_bad_date_args
            Examples.fresh)
     = Normal (PDict [(PStr "success", PBool false);
                      (PStr "error",
                       PStr "not enough values to unpack (expected 3, got 1)")]).
Proof.
  split; [reflexivity|]. split; [vm_compute; reflexivity|].
  split; [|split; vm_compute; reflexivity].
  vm_compute. intros H.
  repeat (destruct H as [H|H]; [discriminate H|]). exact H.
Qed.

Lemma count_op_app (op : remote_op) (l m : list event) :
  count_op op (l ++ m) = count_op op l + count_op op m.
Proof.
  unfold count_op. now rewrite remote_ops_app, filter_app, length_app.
Qed.

Lemma count_op_pre (op : remote_op) (pre : list event) :
  remote_ops pre = [] \/ remote_ops pre = [OpBuild] -> op <> OpBuild ->
  count_op op pre = 0.
Proof.
  unfold count_op. intros [-> | ->] Hne; [reflexivity|].
  destruct op; try reflexivity. contradiction.
Qed.

(** C9 (as amended). The calls of one [dv_run_report] that reach the network
    are, after at most one [Build] of the service, a beginning of the sequence
    submission, run, download: no call is made twice and none out of order.
    The submission is made exactly once when the service is obtained and both
    dates are formatted, and no call at all follows the service otherwise. *)
Theorem dv_run_report_remote_calls (w : world) (a : report_args) (st : pystate) :
  exists evs build calls,
    trace (fst (dv_run_report w a st)) = (trace st ++ evs)%list
    /\ remote_ops evs = (build ++ calls)%list
    /\ (build = [] \/ build = [OpBuild])
    /\ is_prefix calls [OpCreate; OpRun; OpDownload] = true
    /\ count_op OpCreate evs <= 1 /\ count_op OpRun evs <= 1
    /\ count_op OpDownload evs <= 1
    /\ match snd (get_service w st),
             format_date_for_api (start_date a),
             format_date_for_api (end_date a) with
       | Normal _, Normal _, Normal _ => count_op OpCreate evs = 1
       | _, _, _ => calls = []
       end.
Proof.
  run_paths w st.
  all: eexists; exists (remote_ops pre); eexists.
  all: split; [reflexivity|].
  all: rewrite remote_ops_app, !count_op_app, !(count_op_pre _ pre Hops) by discriminate.
  all: cbn [remote_ops op_of].
  all: split; [reflexivity|]; split; [exact Hops|].
  all: cbn; repeat split; auto.
  match goal with
  | H : snd _ = _ |- _ => cbn in H; discriminate H
  end.
Qed.

(** C9 (as stated) fails: a call whose start date has no hyphen makes no
    submission at all. *)
Lemma dv_run_report_no_submission :
  count_op OpCreate
    (trace (fst (dv_run_report Examples.scenario_world Examples.bad_date_args
                   Examples.fresh))) = 0
  /\ snd (dv_run_report Examples.scenario_world Examples.bad_date_args Examples.fresh)
     = Normal (PDict [(PStr "success", PBool false);
                      (PStr "error",
                       PStr "not enough values to unpack (expected 3, got 1)")]).
Proof. vm_compute. split; reflexivity. Qed.

(** ** Entity tools *)

Lemma get_dv360_service_events (w : world) (st : pystate) :
  exists pre,
    trace (fst (get_dv360_service w st)) = (trace st ++ pre)%list
    /\ (remote_ops pre = [] \/ remote_ops pre = [OpBuild]).
Proof.
  unfold get_dv360_service. unfold get_global_dv360, set_global_dv360. unfold_M. cbn.
  destruct (_dv360_service st).
  - exists []. rewrite app_nil_r. auto.
  - destruct (SERVICE_ACCOUNT_JSON w) as [[|c s]|];
      try (exists []; cbn; rewrite app_nil_r; now auto).
    destruct (json_loads w (String c s));
      try (exists []; cbn; rewrite app_nil_r; now auto).
    cbn. destruct (from_service_account_info w p DV360_API_SCOPES); cbn.
    + destruct (discovery_build w _ DV360_API_NAME a) eqn:E; cbn;
        rewrite <- ?app_assoc; cbn; eexists; split; try reflexivity; cbn; auto.
    + eexists; split; [reflexivity|]. cbn. auto.
Qed.

Lemma classify_error_tagged (error_msg permission_message not_found_message : string) :
  is_tagged (classify_error error_msg permission_message not_found_message) = true.
Proof.
  unfold classify_error.
  destruct (contains_str "permission" (lower error_msg) || contains_str "403" error_msg);
    [reflexivity|].
  now destruct (contains_str "not found" (lower error_msg) || contains_str "404" error_msg).
Qed.

(** Runs an entity tool symbolically, one goal per path. *)
Ltac run_entity_paths w st :=
  unfold dv_list_advertisers, dv_list_campaigns, dv_list_insertion_orders,
    dv_list_line_items, dv_list_creatives, dv_get_campaign, dv_get_insertion_order,
    dv_get_line_item, dv_get_creative, get_entity, list_reply, execute, entity_except;
  unfold_M;
  let pre := fresh "pre" in
  let Hpre := fresh "Hpre" in
  let Hops := fresh "Hops" in
  destruct (get_dv360_service_events w st) as (pre & Hpre & Hops);
  destruct (get_dv360_service w st) as [?st0 [?svc|?e0]]; cbn [fst] in Hpre;
  repeat (split_match; cbn [fst snd trace _bid_manager_service _dv360_service]);
  rewrite ?Hpre; rewrite <- ?app_assoc; cbn [app].

Lemma list_tools_return (w : world) (id : string) (page_size : Z)
  (filter order_by : option string) :
  returns_record (dv_list_campaigns w id page_size filter order_by)
  /\ returns_record (dv_list_insertion_orders w id page_size filter order_by)
  /\ returns_record (dv_list_line_items w id page_size filter order_by)
  /\ returns_record (dv_list_creatives w id page_size filter order_by).
Proof.
  repeat split; intros st; run_entity_paths w st;
    do 2 eexists; (split; [reflexivity|]);
    first [reflexivity | apply classify_error_tagged].
Qed.

Lemma dv_list_advertisers_returns (w : world) (partner_id : option string)
  (page_size : Z) (order_by : option string) :
  returns_record (dv_list_advertisers w partner_id page_size order_by).
Proof.
  intros st. unfold dv_list_advertisers.
  destruct (match partner_id with Some p => Some p | None => DEFAULT_PARTNER_ID w end)
    as [pid|].
  - run_entity_paths w st;
      do 2 eexists; (split; [reflexivity|]);
      first [reflexivity | apply classify_error_tagged].
  - do 2 eexists. split; reflexivity.
Qed.

Lemma get_tools_return (w : world) (advertiser_id id : string) :
  returns_record (dv_get_campaign w advertiser_id id)
  /\ returns_record (dv_get_insertion_order w advertiser_id id)
  /\ returns_record (dv_get_line_item w advertiser_id id)
  /\ returns_record (dv_get_creative w advertiser_id id).
Proof.
  repeat split; intros st; run_entity_paths w st;
    do 2 eexists; (split; [reflexivity|]);
    first [reflexivity | apply classify_error_tagged].
Qed.


Ltac solve_page_size :=
  unfold dv_list_advertisers_params, dv_list_campaigns_params,
    dv_list_insertion_orders_params, dv_list_line_items_params,
    dv_list_creatives_params, getitem;
  rewrite !set_if_page_size by reflexivity; reflexivity.

(** The requests of the four list tools of an advertiser. *)
Lemma advertiser_list_requests (w : world) (id : string) (page_size : Z)
  (filter order_by : option string) (st : pystate) (evs : list event)
  (method : string) (kwargs : pyval) (reply : result pyval) :
  In (EntityCall method kwargs reply) evs ->
  (trace (fst (dv_list_campaigns w id page_size filter order_by st))
     = (trace st ++ evs)%list ->
   method = "advertisers.campaigns.list"
   /\ getitem kwargs "pageSize" = Normal (PInt (Z.min page_size 100)))
  /\ (trace (fst (dv_list_insertion_orders w id page_size filter order_by st))
        = (trace st ++ evs)%list ->
      method = "advertisers.insertionOrders.list"
      /\ getitem kwargs "pageSize" = Normal (PInt (Z.min page_size 100)))
  /\ (trace (fst (dv_list_line_items w id page_size filter order_by st))
        = (trace st ++ evs)%list ->
      method = "advertisers.lineItems.list"
      /\ getitem kwargs "pageSize" = Normal (PInt (Z.min page_size 100)))
  /\ (trace (fst (dv_list_creatives w id page_size filter order_by st))
        = (trace st ++ evs)%list ->
      method = "advertisers.creatives.list"
      /\ getitem kwargs "pageSize" = Normal (PInt (Z.min page_size 100))).
Proof.
  intros Hin. repeat split; revert H; run_entity_paths w st; intros Htr;
    cbn [trace] in Htr; apply trace_suffix in Htr; subst;
    find_event Hin Hops; inversion Hin; subst; first [reflexivity | solve_page_size].
Qed.

Lemma dv_list_advertisers_requests (w : world) (partner_id : option string)
  (page_size : Z) (order_by : option string) (st : pystate) (evs : list event)
  (method : string) (kwargs : pyval) (reply : result pyval) :
  trace (fst (dv_list_advertisers w partner_id page_size order_by st))
    = (trace st ++ evs)%list ->
  In (EntityCall method kwargs reply) evs ->
  method = "advertisers.list"
  /\ getitem kwargs "pageSize" = Normal (PInt (Z.min page_size 100)).
Proof.
  unfold dv_list_advertisers.
  destruct (match partner_id with Some p => Some p | None => DEFAULT_PARTNER_ID w end)
    as [pid|].
  - intros Htr Hin. revert Htr. run_entity_paths w st; intros Htr;
      cbn [trace] in Htr; apply trace_suffix in Htr; subst;
      find_event Hin Hops; inversion Hin; subst; split;
      first [reflexivity | solve_page_size].
  - cbn. intros Htr Hin. rewrite <- (app_nil_r (trace st)) in Htr at 1.
    apply trace_suffix in Htr. subst. contradiction.
Qed.

(** With a service at hand a list tool does send its request. *)
Lemma dv_list_campaigns_sends (w : world) (id : string) (page_size : Z)
  (filter order_by : option string) (st st0 : pystate) (svc : service) :
  get_dv360_service w st = (st0, Normal svc) ->
  exists kwargs reply rest,
    trace (fst (dv_list_campaigns w id page_size filter order_by st))
      = (trace st0 ++
         [Log INFO ("Listing campaigns for advertiser " ++ id ++ "...");
          EntityCall "advertisers.campaigns.list" kwargs reply] ++ rest)%list
    /\ getitem kwargs "pageSize" = Normal (PInt (Z.min page_size 100)).
Proof.
  intros Hsvc.
  unfold dv_list_campaigns, list_reply, execute, entity_except. unfold_M.
  rewrite Hsvc.
  repeat (split_match; cbn [fst snd trace _bid_manager_service _dv360_service]).
  all: rewrite <- ?app_assoc; cbn [app].
  all: do 3 eexists; split; [reflexivity|solve_page_size].
Qed.

Ltac sends_request Hsvc :=
  unfold dv_list_advertisers, dv_list_campaigns, dv_list_insertion_orders,
    dv_list_line_items, dv_list_creatives, list_reply, execute, entity_except;
  unfold_M; rewrite Hsvc;
  repeat (split_match; cbn [fst snd trace _bid_manager_service _dv360_service]);
  rewrite <- ?app_assoc; cbn [app];
  do 3 eexists; (split; [reflexivity|solve_page_size]).

Lemma list_tools_send (w : world) (id : string) (page_size : Z)
  (filter order_by : option string) (st st0 : pystate) (svc : service) :
  get_dv360_service w st = (st0, Normal svc) ->
  (exists kwargs reply rest,
     trace (fst (dv_list_advertisers w (Some id) page_size order_by st))
       = (trace st0 ++
          [Log INFO ("Listing advertisers for partner " ++ id ++ "...");
           EntityCall "advertisers.list" kwargs reply] ++ rest)%list
     /\ getitem kwargs "pageSize" = Normal (PInt (Z.min page_size 100)))
  /\ (exists kwargs reply rest,
        trace (fst (dv_list_insertion_orders w id page_size filter order_by st))
          = (trace st0 ++
             [Log INFO ("Listing insertion orders for advertiser " ++ id ++ "...");
              EntityCall "advertisers.insertionOrders.list" kwargs reply] ++ rest)%list
        /\ getitem kwargs "pageSize" = Normal (PInt (Z.min page_size 100)))
  /\ (exists kwargs reply rest,
        trace (fst (dv_list_line_items w id page_size filter order_by st))
          = (trace st0 ++
             [Log INFO ("Listing line items for advertiser " ++ id ++ "...");
              EntityCall "advertisers.lineItems.list" kwargs reply] ++ rest)%list
        /\ getitem kwargs "pageSize" = Normal (PInt (Z.min page_size 100)))
  /\ (exists kwargs reply rest,
        trace (fst (dv_list_creatives w id page_size filter order_by st))
          = (trace st0 ++
             [Log INFO ("Listing creatives for advertiser " ++ id ++ "...");
              EntityCall "advertisers.creatives.list" kwargs reply] ++ rest)%list
        /\ getitem kwargs "pageSize" = Normal (PInt (Z.min page_size 100))).
Proof.
  intros Hsvc. repeat split; sends_request Hsvc.
Qed.

(** C10. Whatever integer [page_size] is, every request that one of the five
    list tools makes carries [min(page_size, 100)] as [pageSize]; with a
    service at hand the request is made, so that a [page_size] above 100 is
    sent as 100 and not refused. *)
Theorem list_tools_clamp_page_size (w : world) (page_size : Z) (st : pystate) :
  (forall (evs : list event) (method : string) (kwargs : pyval) (reply : result pyval)
          (partner_id : option string) (id : string) (filter order_by : option string),
      In (EntityCall method kwargs reply) evs ->
      trace (fst (dv_list_advertisers w partner_id page_size order_by st))
        = (trace st ++ evs)%list
      \/ trace (fst (dv_list_campaigns w id page_size filter order_by st))
        = (trace st ++ evs)%list
      \/ trace (fst (dv_list_insertion_orders w id page_size filter order_by st))
        = (trace st ++ evs)%list
      \/ trace (fst (dv_list_line_items w id page_size filter order_by st))
        = (trace st ++ evs)%list
      \/ trace (fst (dv_list_creatives w id page_size filter order_by st))
        = (trace st ++ evs)%list ->
      getitem kwargs "pageSize" = Normal (PInt (Z.min page_size 100)))
  /\ (forall (id : string) (filter order_by : option string) (st0 : pystate)
             (svc : service),
        get_dv360_service w st = (st0, Normal svc) ->
        forall tool,
          tool = dv_list_advertisers w (Some id) page_size order_by
          \/ tool = dv_list_campaigns w id page_size filter order_by
          \/ tool = dv_list_insertion_orders w id page_size filter order_by
          \/ tool = dv_list_line_items w id page_size filter order_by
          \/ tool = dv_list_creatives w id page_size filter order_by ->
          exists msg method kwargs reply rest,
            trace (fst (tool st))
              = (trace st0 ++ [Log INFO msg; EntityCall method kwargs reply] ++ rest)%list
            /\ getitem kwargs "pageSize" = Normal (PInt (Z.min page_size 100)))
  /\ (Z.min page_size 100 <= 100)%Z
  /\ (forall id filter order_by,
        getitem (dv_list_campaigns_params id 250 filter order_by) "pageSize"
          = Normal (PInt 100)).
Proof.
  split; [|split; [|split; [lia|]]].
  - intros evs method kwargs reply partner_id id filter order_by Hin H.
    destruct (advertiser_list_requests w id page_size filter order_by st evs
                method kwargs reply Hin) as (Hc & Hi & Hl & Hr).
    destruct H as [H|[H|[H|[H|H]]]].
    + exact (proj2 (dv_list_advertisers_requests w partner_id page_size order_by st
                      evs method kwargs reply H Hin)).
    + exact (proj2 (Hc H)).
    + exact (proj2 (Hi H)).
    + exact (proj2 (Hl H)).
    + exact (proj2 (Hr H)).
  - intros id filter order_by st0 svc Hsvc tool Htool.
    destruct (list_tools_send w id page_size filter order_by st st0 svc Hsvc)
      as (Ha & Hi & Hl & Hr).
    destruct Htool as [->|[->|[->|[->| ->]]]].
    + destruct Ha as (k & r & rest & H1 & H2). do 2 eexists; exists k, r, rest; split; [exact H1|exact H2].
    + destruct (dv_list_campaigns_sends w id page_size filter order_by st st0 svc Hsvc)
        as (k & r & rest & H1 & H2). do 2 eexists; exists k, r, rest; split; [exact H1|exact H2].
    + destruct Hi as (k & r & rest & H1 & H2). do 2 eexists; exists k, r, rest; split; [exact H1|exact H2].
    + destruct Hl as (k & r & rest & H1 & H2). do 2 eexists; exists k, r, rest; split; [exact H1|exact H2].
    + destruct Hr as (k & r & rest & H1 & H2). do 2 eexists; exists k, r, rest; split; [exact H1|exact H2].
  - intros id filter order_by.
    exact (proj2 (proj2 (proj2 (proj2 (proj2 (proj2
             (list_params_page_size 250 id filter order_by))))))).
Qed.

(** C3. Whatever the arguments, the state and the world are,
    [dv_run_report] returns a record and raises nothing; the record is tagged
    with a boolean [success]; when the [try] block raises [e], the record is
    [success] false with [error] the text of [e], whether [e] comes from the
    service, the formatting of a date, the submission, the run, the download
    or the decoding. The nine entity tools return a tagged record from every
    state as well. *)
Theorem tools_never_raise (w : world) (a : report_args) (st : pystate) :
  (exists st' r evs,
     dv_run_report w a st = (st', Normal r)
     /\ trace st' = (trace st ++ evs)%list
     /\ is_tagged r = true
     /\ match snd (dv_run_report_try w a st) with
        | Normal r0 => r = r0
        | Raise e =>
            r = PDict [(PStr "success", PBool false); (PStr "error", PStr (str_exn e))]
        end
     /\ (forall st0 e, get_service w st = (st0, Raise e) -> r = error_result e)
     /\ (forall st0 svc e, get_service w st = (st0, Normal svc) ->
           format_date_for_api (start_date a) = Raise e -> r = error_result e)
     /\ (forall st0 svc d e, get_service w st = (st0, Normal svc) ->
           format_date_for_api (start_date a) = Normal d ->
           format_date_for_api (end_date a) = Raise e -> r = error_result e)
     /\ (forall body e, In (QueriesCreate body (Raise e)) evs -> r = error_result e)
     /\ (forall q e, In (QueriesRun q true (Raise e)) evs -> r = error_result e)
     /\ (forall p e, In (Urlopen p (Raise e)) evs -> r = error_result e)
     /\ (forall p csv e, In (Urlopen p (Normal csv)) evs -> parse_csv csv = Raise e ->
           r = error_result e))
  /\ (forall (partner_id : option string) (page_size : Z) (order_by : option string),
        returns_record (dv_list_advertisers w partner_id page_size order_by))
  /\ (forall (id : string) (page_size : Z) (filter order_by : option string),
        returns_record (dv_list_campaigns w id page_size filter order_by)
        /\ returns_record (dv_list_insertion_orders w id page_size filter order_by)
        /\ returns_record (dv_list_line_items w id page_size filter order_by)
        /\ returns_record (dv_list_creatives w id page_size filter order_by))
  /\ (forall advertiser_id id : string,
        returns_record (dv_get_campaign w advertiser_id id)
        /\ returns_record (dv_get_insertion_order w advertiser_id id)
        /\ returns_record (dv_get_line_item w advertiser_id id)
        /\ returns_record (dv_get_creative w advertiser_id id)).
Proof.
  split; [exact (dv_run_report_converts_exceptions w a st)|].
  split; [intros; apply dv_list_advertisers_returns|].
  split; [intros; apply list_tools_return|].
  intros; apply get_tools_return.
Qed.

(** ** The theorems at concrete inputs *)

(** Finds an event in a computed trace. *)
Ltac in_trace := vm_compute; repeat first [left; reflexivity | right].

(** Scenario B through [dv_run_report_failed_state]. *)
Lemma dv_run_report_failed_state_witness :
  In (QueriesRun (PStr "q-1") true (Normal Examples.failed_response))
     (trace (fst (dv_run_report Examples.failing_world Examples.scenario_args
                    Examples.fresh)))
  /\ snd (dv_run_report Examples.failing_world Examples.scenario_args Examples.fresh)
     = Normal (PDict [(PStr "success", PBool false);
                      (PStr "error", PStr "Report generation failed: quota exceeded");
                      (PStr "query_id", PStr "q-1")]).
Proof.
  pose (out := dv_run_report Examples.failing_world Examples.scenario_args Examples.fresh).
  assert (In (QueriesRun (PStr "q-1") true (Normal Examples.failed_response))
             (trace (fst out))) as Hin by in_trace.
  split; [exact Hin|].
  destruct (dv_run_report_failed_state Examples.failing_world Examples.scenario_args
              Examples.fresh (fst out) (snd out) (trace (fst out)) (PStr "q-1")
              Examples.failed_response Examples.failed_metadata Examples.failed_status)
    as [H _].
  - vm_compute. reflexivity.
  - reflexivity.
  - exact Hin.
  - reflexivity.
  - reflexivity.
  - reflexivity.
  - exact H.
Defined.

(** Scenario A through [dv_run_report_success]. *)
Lemma dv_run_report_success_witness :
  parse_csv Examples.scenario_csv = Normal Examples.scenario_rows
  /\ exists key report_id,
       getitem Examples.done_response "key" = Normal key
       /\ getitem key "reportId" = Normal report_id
       /\ snd (dv_run_report Examples.scenario_world Examples.scenario_args Examples.fresh)
          = Normal (PDict [
              (PStr "success", PBool true);
              (PStr "data", PList Examples.scenario_rows);
              (PStr "metadata", PDict [
                 (PStr "query_id", PStr "q-1");
                 (PStr "report_id", report_id);
                 (PStr "date_range", PDict [
                    (PStr "start_date", PStr "2025-01-01");
                    (PStr "end_date", PStr "2025-01-31")]);
                 (PStr "dimensions", PList [PStr "FILTER_DATE"]);
                 (PStr "metrics", PList [PStr "METRIC_IMPRESSIONS"]);
                 (PStr "filters", PList [filter_clause "FILTER_ADVERTISER" "123"]);
                 (PStr "row_count", PInt 2)])]).
Proof.
  pose (out := dv_run_report Examples.scenario_world Examples.scenario_args Examples.fresh).
  assert (parse_csv Examples.scenario_csv = Normal Examples.scenario_rows) as Hrows
    by (vm_compute; reflexivity).
  split; [exact Hrows|].
  apply (proj1 dv_run_report_success Examples.scenario_world Examples.scenario_args
           Examples.fresh (fst out) (snd out) (trace (fst out)) (PStr "q-1")
           Examples.done_response
           (PStr "https://storage.googleapis.com/report.csv")
           Examples.scenario_csv Examples.scenario_rows).
  - vm_compute. reflexivity.
  - reflexivity.
  - in_trace.
  - in_trace.
  - exact Hrows.
Defined.

(** Scenario C through [dv_run_report_without_filters]. *)
Lemma dv_run_report_without_filters_witness :
  exists st' r body params reply rest,
    dv_run_report Examples.scenario_world Examples.unfiltered_args Examples.fresh
      = (st', Normal r)
    /\ is_tagged r = true
    /\ trace st' =
         (trace (fst (get_service Examples.scenario_world Examples.fresh)) ++
          [Log WARNING no_filter_warning;
           Log INFO "Creating query: MCP Report";
           QueriesCreate body reply] ++ rest)%list
    /\ getitem body "params" = Normal params
    /\ getitem params "filters" = Normal (PList []).
Proof.
  destruct (dv_run_report_without_filters Examples.scenario_world
              Examples.unfiltered_args Examples.fresh)
    as (_ & _ & H & _); try reflexivity.
  destruct (H (fst (get_service Examples.scenario_world Examples.fresh)) (Service 0)
              (PDict [(PStr "year", PStr "2025"); (PStr "month", PStr "01");
                      (PStr "day", PStr "01")])
              (PDict [(PStr "year", PStr "2025"); (PStr "month", PStr "01");
                      (PStr "day", PStr "31")]))
    as (st' & r & body & params & reply & rest & H1 & H2 & H3 & _ & H5 & H6);
    try reflexivity.
  exists st', r, body, params, reply, rest. repeat split; assumption.
Defined.

(** A call with a malformed date through [tools_never_raise]. *)
Lemma tools_never_raise_witness :
  exists st' r,
    dv_run_report Examples.scenario_world Examples.bad_date_args Examples.fresh
      = (st', Normal r)
    /\ is_tagged r = true
    /\ r = error_result (ValueError "not enough values to unpack (expected 3, got 1)").
Proof.
  destruct (tools_never_raise Examples.scenario_world Examples.bad_date_args
              Examples.fresh)
    as ((st' & r & evs & H1 & _ & H3 & _ & _ & H6 & _) & _).
  exists st', r. repeat split; try assumption.
  apply (H6 (fst (get_service Examples.scenario_world Examples.fresh)) (Service 0)).
  - reflexivity.
  - reflexivity.
Defined.

(** A request for 250 campaigns through [list_tools_clamp_page_size]. *)
Lemma list_tools_clamp_page_size_witness :
  In (EntityCall "advertisers.campaigns.list"
        (dv_list_campaigns_params "123" 250 None None) (Normal (PDict [])))
     (trace (fst (dv_list_campaigns Examples.scenario_world "123" 250 None None
                    Examples.fresh)))
  /\ getitem (dv_list_campaigns_params "123" 250 None None) "pageSize"
     = Normal (PInt 100).
Proof.
  assert (In (EntityCall "advertisers.campaigns.list"
                (dv_list_campaigns_params "123" 250 None None) (Normal (PDict [])))
             (trace (fst (dv_list_campaigns Examples.scenario_world "123" 250 None None
                            Examples.fresh)))) as Hin by in_trace.
  split; [exact Hin|].
  apply (proj1 (list_tools_clamp_page_size Examples.scenario_world 250 Examples.fresh)
           (trace (fst (dv_list_campaigns Examples.scenario_world "123" 250 None None
                          Examples.fresh)))
           "advertisers.campaigns.list" (dv_list_campaigns_params "123" 250 None None)
           (Normal (PDict [])) None "123" None None).
  - exact Hin.
  - right. left. reflexivity.
Defined.

(** * Further properties *)

(** ** Splitting, joining and trimming *)

Lemma split_app_sep (sep : ascii) (a b : string) :
  Py.split sep (a ++ String sep b) = (Py.split sep a ++ Py.split sep b)%list.
Proof.
  induction a as [|c a IH]; simpl.
  - now rewrite Ascii.eqb_refl.
  - destruct (Ascii.eqb c sep); [now rewrite IH|].
    rewrite IH. destruct (Py.split sep a) eqn:E; [now destruct (split_nonempty sep a)|].
    reflexivity.
Qed.

Lemma split_of_join (sep : ascii) (l : list string) :
  l <> [] -> Forall (fun p => Py.count sep p = 0) l ->
  Py.split sep (Py.join sep l) = l.
Proof.
  induction l as [|p l IH]; [congruence|].
  intros _ H. inversion H as [|? ? Hp Hl]; subst.
  destruct l as [|q l].
  - simpl. now apply split_no_sep.
  - change (Py.join sep (p :: q :: l)) with (p ++ String sep (Py.join sep (q :: l))).
    rewrite split_app by exact Hp. f_equal. apply IH; [discriminate|exact Hl].
Qed.

Lemma count_lstrip_le (c : ascii) (s : string) : Py.count c (Py.lstrip s) <= Py.count c s.
Proof.
  induction s as [|a s IH]; simpl; [lia|].
  destruct (Py.isspace_char a); simpl; lia.
Qed.

Lemma count_rstrip_le (c : ascii) (s : string) : Py.count c (Py.rstrip s) <= Py.count c s.
Proof.
  induction s as [|a s IH]; simpl; [lia|].
  destruct (Py.rstrip s) eqn:E.
  - destruct (Py.isspace_char a); simpl in *; lia.
  - simpl in *. lia.
Qed.

Lemma count_strip_le (c : ascii) (s : string) : Py.count c (Py.strip s) <= Py.count c s.
Proof.
  unfold Py.strip. pose proof (count_rstrip_le c (Py.lstrip s)).
  pose proof (count_lstrip_le c s). lia.
Qed.

Lemma lstrip_starts (s : string) : starts_nonspace (Py.lstrip s) = true.
Proof.
  induction s as [|a s IH]; simpl; [reflexivity|].
  destruct (Py.isspace_char a) eqn:E; [exact IH|]. simpl. now rewrite E.
Qed.

Lemma lstrip_fixed (s : string) : starts_nonspace s = true -> Py.lstrip s = s.
Proof.
  destruct s as [|a s]; simpl; [reflexivity|].
  now destruct (Py.isspace_char a).
Qed.

Lemma rstrip_starts (s : string) :
  starts_nonspace s = true -> starts_nonspace (Py.rstrip s) = true.
Proof.
  destruct s as [|a s]; simpl; [reflexivity|]. intros H.
  destruct (Py.rstrip s).
  - destruct (Py.isspace_char a) eqn:Ea; [discriminate H|]. simpl. now rewrite Ea.
  - exact H.
Qed.

Lemma rstrip_rstrip (s : string) : Py.rstrip (Py.rstrip s) = Py.rstrip s.
Proof.
  induction s as [|a s IH]; simpl; [reflexivity|].
  destruct (Py.rstrip s) as [|b r] eqn:E.
  - destruct (Py.isspace_char a) eqn:Ea; simpl; [reflexivity|now rewrite Ea].
  - change (Py.rstrip (String a (String b r))) with
      (match Py.rstrip (String b r) with
       | EmptyString => if Py.isspace_char a then EmptyString else String a EmptyString
       | r' => String a r'
       end).
    now rewrite IH.
Qed.

Lemma strip_strip (s : string) : Py.strip (Py.strip s) = Py.strip s.
Proof.
  unfold Py.strip.
  rewrite (lstrip_fixed (Py.rstrip (Py.lstrip s))).
  - apply rstrip_rstrip.
  - apply rstrip_starts, lstrip_starts.
Qed.
(** ** Date Formatter, Filter Builder and Field Normalizer *)

(** X1. [format_date_for_api] checks nothing but the hyphens: it returns the
    record of [year], [month] and [day] exactly on the string made of these
    three pieces joined by hyphens, whatever hyphen-free pieces they are
    (empty, not numeric); joined again by hyphens, the pieces of the record
    are the input. *)
Theorem format_date_for_api_round_trip (date_str year month day : string) :
  format_date_for_api date_str
    = Normal (PDict [(PStr "year", PStr year);
                     (PStr "month", PStr month);
                     (PStr "day", PStr day)])
  <-> date_str = year ++ "-" ++ month ++ "-" ++ day
      /\ Py.count "-" year = 0 /\ Py.count "-" month = 0 /\ Py.count "-" day = 0.
Proof.
  split.
  - unfold format_date_for_api. intros H.
    pose proof (split_join "-" date_str) as Hjoin.
    pose proof (split_pieces "-" date_str) as Hpieces.
    destruct (Py.split "-" date_str) as [|y [|m [|d [|x l]]]]; try discriminate H.
    inversion H; subst y m d. clear H.
    apply Forall_cons_iff in Hpieces as [Hy Hpieces].
    apply Forall_cons_iff in Hpieces as [Hm Hpieces].
    apply Forall_cons_iff in Hpieces as [Hd _].
    repeat split; try assumption. now rewrite <- Hjoin.
  - intros (-> & Hy & Hm & Hd). unfold format_date_for_api.
    change (year ++ "-" ++ month ++ "-" ++ day)
      with (year ++ String "-" (month ++ String "-" day)).
    rewrite (split_app "-" year) by exact Hy.
    rewrite (split_app "-" month) by exact Hm.
    now rewrite (split_no_sep "-" day) by exact Hd.
Qed.

Lemma clauses_nil (type : string) (x : option str_or_list) :
  clauses type x = [] <-> truthy x = false.
Proof.
  unfold clauses, identifiers, truthy.
  destruct x as [[s|l]|]; [| |tauto].
  - destruct s as [|c s]; [simpl; tauto|].
    cbn [is_empty]. split; [|discriminate].
    intros H. apply map_eq_nil, map_eq_nil in H.
    now destruct (split_nonempty "," (String c s)).
  - destruct l; simpl; [tauto|]. split; discriminate.
Qed.

(** X2. [prepare_filters] returns no clause exactly when each of its four
    arguments is false as a condition: absent, the empty string or the empty
    list. *)
Theorem prepare_filters_empty_iff (adv camp io li : option str_or_list) :
  prepare_filters adv camp io li = []
  <-> truthy adv = false /\ truthy camp = false
      /\ truthy io = false /\ truthy li = false.
Proof.
  rewrite prepare_filters_clauses. split.
  - intros H.
    apply app_eq_nil in H as [H1 H].
    apply app_eq_nil in H as [H2 H].
    apply app_eq_nil in H as [H3 H4].
    apply clauses_nil in H1, H2, H3, H4. now repeat split.
  - intros (H1 & H2 & H3 & H4).
    apply (clauses_nil "FILTER_ADVERTISER") in H1.
    apply (clauses_nil "FILTER_MEDIA_PLAN") in H2.
    apply (clauses_nil "FILTER_INSERTION_ORDER") in H3.
    apply (clauses_nil "FILTER_LINE_ITEM") in H4.
    now rewrite H1, H2, H3, H4.
Qed.

Lemma clauses_length (type : string) (x : option string) :
  length (clauses type (as_str x)) = piece_count x.
Proof.
  unfold clauses, identifiers, as_str, piece_count.
  destruct x as [[|c s]|]; [reflexivity| |reflexivity].
  cbn [option_map is_empty]. now rewrite !length_map, split_length.
Qed.

(** X3. A comma-separated identifier string gives one clause per piece, the
    empty pieces included: one more clause than it has commas, and none at
    all when it is empty or absent. So a string that ends in a comma gives a
    last clause whose value is the empty string. *)
Theorem prepare_filters_piece_count (adv camp io li : option string) :
  length (prepare_filters (as_str adv) (as_str camp) (as_str io) (as_str li))
    = piece_count adv + piece_count camp + piece_count io + piece_count li
  /\ forall s : string,
       last (prepare_filters (Some (Str (s ++ ","))) None None None) PNone
         = PDict [(PStr "type", PStr "FILTER_ADVERTISER"); (PStr "value", PStr "")].
Proof.
  split.
  - rewrite prepare_filters_clauses, !length_app, !clauses_length. lia.
  - intros s. rewrite prepare_filters_clauses. unfold clauses at 2 3 4. cbn [identifiers map].
    rewrite !app_nil_r. unfold clauses, identifiers.
    assert (is_empty (s ++ ",") = false) as -> by now destruct s.
    change (s ++ ",") with (s ++ String "," EmptyString).
    rewrite split_app_sep, !map_app. cbn [Py.split map]. apply last_last.
Qed.

Lemma clauses_trimmed (type : string) (x : option string) :
  Forall (fun clause => exists value,
            clause = filter_clause type value
            /\ Py.count "," value = 0 /\ Py.strip value = value)
    (clauses type (as_str x)).
Proof.
  unfold clauses, identifiers, as_str.
  destruct x as [[|c s]|]; cbn [option_map is_empty map]; try constructor.
  pose proof (split_pieces "," (String c s)) as H.
  induction H as [|p ps Hp _ IH]; cbn [map]; constructor; [|exact IH].
  exists (Py.strip p). repeat split.
  - pose proof (count_strip_le "," p). lia.
  - apply strip_strip.
Qed.

(** X4. The values [prepare_filters] takes from comma-separated strings hold
    no comma and no white space at either end (trimming them again changes
    nothing), and every clause is tagged with one of the four filter
    types. *)
Theorem prepare_filters_string_values_trimmed (adv camp io li : option string) :
  Forall (fun clause => exists type value,
            clause = PDict [(PStr "type", PStr type); (PStr "value", PStr value)]
            /\ In type ["FILTER_ADVERTISER"; "FILTER_MEDIA_PLAN";
                        "FILTER_INSERTION_ORDER"; "FILTER_LINE_ITEM"]
            /\ Py.count "," value = 0 /\ Py.strip value = value)
    (prepare_filters (as_str adv) (as_str camp) (as_str io) (as_str li)).
Proof.
  rewrite prepare_filters_clauses.
  repeat (apply Forall_app; split).
  all: eapply Forall_impl; [|apply clauses_trimmed].
  all: intros clause (value & -> & Hc & Hs); do 2 eexists; split; [reflexivity|].
  all: split; [|now split]. all: simpl; tauto.
Qed.

Lemma split_if_str_trimmed (s : string) :
  Forall (fun x => Py.count "," x = 0 /\ Py.strip x = x) (split_if_str (Str s)).
Proof.
  unfold split_if_str.
  pose proof (split_pieces "," s) as H.
  induction H as [|p ps Hp _ IH]; cbn [map]; constructor; [|exact IH].
  split; [pose proof (count_strip_le "," p); lia|apply strip_strip].
Qed.

(** X5. A comma-separated string of dimensions or metrics gives one name
    more than it has commas, never the empty list: the empty string gives
    the one empty name, where the Filter Builder gives no clause. The names
    hold no comma and no white space at either end. *)
Theorem prepare_dimensions_and_metrics_of_strings (d m : string) :
  length (fst (prepare_dimensions_and_metrics (Str d) (Str m))) = S (Py.count "," d)
  /\ length (snd (prepare_dimensions_and_metrics (Str d) (Str m))) = S (Py.count "," m)
  /\ Forall (fun x => Py.count "," x = 0 /\ Py.strip x = x)
       (fst (prepare_dimensions_and_metrics (Str d) (Str m)))
  /\ Forall (fun x => Py.count "," x = 0 /\ Py.strip x = x)
       (snd (prepare_dimensions_and_metrics (Str d) (Str m)))
  /\ prepare_dimensions_and_metrics (Str "") (Str "") = ([""], [""])
  /\ prepare_filters (Some (Str "")) (Some (Str "")) (Some (Str "")) (Some (Str "")) = [].
Proof.
  unfold prepare_dimensions_and_metrics. cbn [fst snd].
  repeat split; try apply split_if_str_trimmed.
  all: unfold split_if_str; now rewrite length_map, split_length.
Qed.

Lemma split_if_str_join (l : list string) :
  l <> [] -> Forall (fun x => Py.count "," x = 0 /\ Py.strip x = x) l ->
  split_if_str (Str (Py.join "," l)) = l.
Proof.
  intros Hne H. unfold split_if_str. rewrite split_of_join.
  - clear Hne. induction H as [|x l [_ Hx] _ IH]; cbn [map]; [reflexivity|].
    now rewrite Hx, IH.
  - exact Hne.
  - eapply Forall_impl; [|exact H]. now intros x [Hx _].
Qed.

(** X6. Joining by commas a non-empty list of names that hold no comma and
    no white space at either end, and passing the string, gives
    [prepare_dimensions_and_metrics] the same two lists as passing the
    lists themselves. *)
Theorem prepare_dimensions_and_metrics_join (dl ml : list string) :
  dl <> [] -> ml <> [] ->
  Forall (fun x => Py.count "," x = 0 /\ Py.strip x = x) dl ->
  Forall (fun x => Py.count "," x = 0 /\ Py.strip x = x) ml ->
  prepare_dimensions_and_metrics (Str (Py.join "," dl)) (Str (Py.join "," ml))
    = prepare_dimensions_and_metrics (Lst dl) (Lst ml)
  /\ prepare_dimensions_and_metrics (Lst dl) (Lst ml) = (dl, ml).
Proof.
  intros Hd Hm Fd Fm. unfold prepare_dimensions_and_metrics.
  rewrite (split_if_str_join dl Hd Fd), (split_if_str_join ml Hm Fm).
  now split.
Qed.

Lemma prepare_dimensions_and_metrics_join_witness :
  prepare_dimensions_and_metrics (Str "FILTER_DATE,FILTER_ADVERTISER") (Str "METRIC_CLICKS")
    = prepare_dimensions_and_metrics (Lst ["FILTER_DATE"; "FILTER_ADVERTISER"])
        (Lst ["METRIC_CLICKS"])
  /\ prepare_dimensions_and_metrics (Lst ["FILTER_DATE"; "FILTER_ADVERTISER"])
       (Lst ["METRIC_CLICKS"])
     = (["FILTER_DATE"; "FILTER_ADVERTISER"], ["METRIC_CLICKS"]).
Proof.
  apply (prepare_dimensions_and_metrics_join ["FILTER_DATE"; "FILTER_ADVERTISER"]
           ["METRIC_CLICKS"]).
  - discriminate.
  - discriminate.
  - repeat constructor.
  - repeat constructor.
Defined.
(** ** Report File Decoder: short rows, repeated names, empty reports *)

Lemma parse_items_converted (keys : list string) (vals cs : list pyval)
  (acc : list (string * pyval)) :
  NoDup (map fst acc ++ keys) ->
  Forall2 (fun v c => convert_value v = Normal c) vals cs ->
  parse_items (str_keyed (combine keys vals)) (str_keyed acc)
    = Normal (str_keyed (acc ++ combine keys cs)).
Proof.
  intros Hnd H. revert keys acc Hnd.
  induction H as [|v c vals cs Hv _ IH]; intros [|k keys] acc Hnd;
    try (simpl; now rewrite app_nil_r).
  cbn [combine map str_keyed parse_items fst snd]. rewrite Hv.
  change (map (fun kv : string * pyval => (PStr (fst kv), snd kv)) acc)
    with (str_keyed acc).
  change (map (fun kv : string * pyval => (PStr (fst kv), snd kv)) (combine keys vals))
    with (str_keyed (combine keys vals)).
  rewrite dict_set_fresh.
  - rewrite IH.
    + now rewrite <- app_assoc.
    + rewrite map_app, <- app_assoc. exact Hnd.
  - apply NoDup_remove_2 in Hnd. intros Hin. apply Hnd. apply in_or_app. now left.
Qed.

Lemma fold_restval_fresh (keys : list string) (d : list (string * pyval)) :
  NoDup (map fst d ++ keys) ->
  fold_left (fun d key => dict_set d (PStr key) PNone) keys (str_keyed d)
    = str_keyed (d ++ map (fun k => (k, PNone)) keys).
Proof.
  revert d. induction keys as [|k keys IH]; simpl; intros d H.
  - now rewrite app_nil_r.
  - rewrite dict_set_fresh.
    + rewrite IH.
      * now rewrite <- app_assoc.
      * rewrite map_app, <- app_assoc. exact H.
    + apply NoDup_remove_2 in H. intros Hin. apply H. apply in_or_app. now left.
Qed.

Lemma combine_repeat {A : Type} (keys : list string) (x : A) :
  map (fun k => (k, x)) keys = combine keys (repeat x (length keys)).
Proof. induction keys as [|k keys IH]; simpl; [reflexivity|now rewrite IH]. Qed.

Lemma combine_pad {A : Type} (keys : list string) (vals : list A) (x : A) :
  length vals <= length keys ->
  (combine keys vals ++ map (fun k => (k, x)) (skipn (length vals) keys))%list
    = combine keys (vals ++ repeat x (length keys - length vals)).
Proof.
  revert vals. induction keys as [|k keys IH]; intros [|v vals]; simpl; intros H;
    try reflexivity; try lia.
  - f_equal. apply combine_repeat.
  - f_equal. apply IH. lia.
Qed.

Lemma combine_keys_firstn {A : Type} (keys : list string) (vals : list A) :
  length vals <= length keys ->
  map fst (combine keys vals) = firstn (length vals) keys.
Proof.
  revert vals. induction keys as [|k keys IH]; intros [|v vals]; simpl; intros H;
    try reflexivity; try lia.
  f_equal. apply IH. lia.
Qed.

Lemma make_row_padded (fieldnames row : list string) :
  NoDup fieldnames -> length row <= length fieldnames ->
  Csv.make_row fieldnames row
    = PDict (str_keyed (combine fieldnames
               (map PStr row ++ repeat PNone (length fieldnames - length row)))).
Proof.
  intros Hnd Hlen. unfold Csv.make_row.
  destruct (Nat.ltb_spec (length fieldnames) (length row)); [lia|].
  unfold dict_of. rewrite str_keyed_combine.
  pose proof (fold_dict_set_nodup (combine fieldnames (map PStr row)) []) as Hfold.
  change (str_keyed []) with (@nil (pyval * pyval)) in Hfold.
  rewrite Hfold by (simpl; now apply nodup_combine_keys). simpl app.
  rewrite <- (length_map PStr row) in *.
  destruct (Nat.ltb_spec (length (map PStr row)) (length fieldnames)).
  - rewrite fold_restval_fresh.
    + now rewrite combine_pad.
    + rewrite combine_keys_firstn by exact Hlen. now rewrite firstn_skipn.
  - replace (length fieldnames - length (map PStr row)) with 0 by lia.
    simpl. now rewrite app_nil_r.
Qed.

Lemma cells_converted (row : list string) :
  Forall2 (fun v c => convert_value v = Normal c) (map PStr row) (map inferred row).
Proof. induction row; constructor; [apply convert_value_inferred|assumption]. Qed.

Lemma nones_converted (n : nat) :
  Forall2 (fun v c => convert_value v = Normal c) (repeat PNone n) (repeat PNone n).
Proof. induction n; constructor; [reflexivity|assumption]. Qed.

Lemma row_converted (row : list string) :
  Forall2 (fun cell v => convert_value (PStr cell) = Normal v) row (map inferred row).
Proof. induction row; constructor; [apply convert_value_inferred|assumption]. Qed.

(** X7. A record no longer than a header without repeated names decodes to
    the row that maps every name of the header, in the order of the header,
    to the converted value of its cell, and the names without a cell to
    [None]. *)
Theorem parse_row_short (fieldnames row : list string) :
  NoDup fieldnames -> length row <= length fieldnames ->
  exists vals,
    Forall2 (fun cell v => convert_value (PStr cell) = Normal v) row vals
    /\ parse_row (Csv.make_row fieldnames row)
       = Normal (PDict (str_keyed (combine fieldnames
                   (vals ++ repeat PNone (length fieldnames - length row))))).
Proof.
  intros Hnd Hlen. exists (map inferred row).
  split; [apply row_converted|].
  rewrite make_row_padded by assumption. unfold parse_row.
  pose proof (parse_items_converted fieldnames
                (map PStr row ++ repeat PNone (length fieldnames - length row))
                (map inferred row ++ repeat PNone (length fieldnames - length row)) [])
    as Hitems.
  change (str_keyed []) with (@nil (pyval * pyval)) in Hitems.
  rewrite Hitems; [reflexivity|exact Hnd|].
  apply Forall2_app; [apply cells_converted|apply nones_converted].
Qed.

Lemma parse_row_short_witness :
  exists vals,
    Forall2 (fun cell v => convert_value (PStr cell) = Normal v) ["2025-01-01"; "7"] vals
    /\ parse_row (Csv.make_row ["date"; "clicks"; "cost"] ["2025-01-01"; "7"])
       = Normal (PDict (str_keyed (combine ["date"; "clicks"; "cost"]
                   (vals ++ repeat PNone 1)))).
Proof.
  apply (parse_row_short ["date"; "clicks"; "cost"] ["2025-01-01"; "7"]).
  - repeat constructor; simpl; intuition discriminate.
  - simpl. lia.
Defined.
(** ** The reader on files without quoted cells *)

Lemma str_app_assoc (a b c : string) : (a ++ b) ++ c = a ++ b ++ c.
Proof. induction a as [|x a IH]; simpl; [reflexivity|now rewrite IH]. Qed.

Lemma str_length_app (a b : string) :
  String.length (a ++ b) = String.length a + String.length b.
Proof. induction a as [|x a IH]; simpl; [reflexivity|now rewrite IH]. Qed.

Lemma plain_char_facts (c : ascii) :
  plain_char c = true ->
  Csv.is_newline c = false /\ Ascii.eqb c Csv.quotechar = false
  /\ Ascii.eqb c Csv.LF = false.
Proof.
  unfold plain_char, Csv.is_newline. intros H.
  apply andb_true_iff in H as [H1 H2].
  apply negb_true_iff in H1, H2. apply orb_false_iff in H1 as [H1 H3].
  repeat split; try assumption. unfold Csv.is_newline. now rewrite H1, H3.
Qed.

(** One character of a line without quoted cells. *)
Lemma step_plain (c : ascii) (rem : string) (self : Csv.reader) :
  plain_char c = true ->
  open_state (Csv.state self) = true ->
  Csv.field_len self = N.of_nat (String.length (Csv.field self)) ->
  fits (Csv.field self) (Py.split "," (String c rem)) ->
  exists self',
    Csv.parse_process_char self (Some c) = Normal self'
    /\ (Csv.state self' = Csv.START_FIELD \/ Csv.state self' = Csv.IN_FIELD)
    /\ Csv.field_len self' = N.of_nat (String.length (Csv.field self'))
    /\ fits (Csv.field self') (Py.split "," rem)
    /\ (Csv.fields self' ++ glue (Csv.field self') (Py.split "," rem))%list
       = (Csv.fields self ++ glue (Csv.field self) (Py.split "," (String c rem)))%list.
Proof.
  intros Hc Hst Hlen Hfit.
  destruct (plain_char_facts c Hc) as (Hnl & Hq & _).
  destruct self as [fields field field_len state]. cbn [Csv.fields Csv.field Csv.field_len
    Csv.state] in *.
  cbn [Py.split] in *.
  change (Ascii.eqb c ",") with (Ascii.eqb c Csv.delimiter) in *.
  destruct (Py.split "," rem) as [|p ps] eqn:Hsplit;
    [now destruct (split_nonempty "," rem)|].
  destruct (Ascii.eqb c Csv.delimiter) eqn:Hd.
  - (* a comma ends the cell *)
    exists (Csv.mkReader (fields ++ [field]) EmptyString 0 Csv.START_FIELD).
    cbn [fits glue] in *. destruct Hfit as [_ Hfit].
    apply Forall_cons_iff in Hfit as [Hp Hps].
    repeat split.
    + destruct state; try discriminate Hst;
        unfold Csv.parse_process_char, Csv.start_field, Csv.parse_save_field, Csv.set_state;
        cbn [Csv.fields Csv.field Csv.field_len Csv.state];
        rewrite ?Hnl, ?Hq, ?Hd; reflexivity.
    + now left.
    + exact Hp.
    + exact Hps.
    + cbn [Csv.fields Csv.field]. rewrite <- app_assoc. cbn [app].
      now rewrite append_nil_r_str_aux.
  - (* any other character goes to the cell *)
    exists (Csv.mkReader fields (field ++ String c EmptyString) (field_len + 1) Csv.IN_FIELD).
    cbn [fits glue] in *. destruct Hfit as [Hp Hps]. cbn [String.length] in Hp.
    assert ((Csv.field_limit <=? field_len)%N = false) as Hlim.
    { apply N.leb_gt. unfold Csv.field_limit in *. lia. }
    repeat split.
    + destruct state; try discriminate Hst;
        unfold Csv.parse_process_char, Csv.start_field, Csv.parse_add_char, Csv.set_state;
        cbn [Csv.fields Csv.field Csv.field_len Csv.state];
        rewrite ?Hnl, ?Hq, ?Hd, ?Hlim;
        cbn [Csv.fields Csv.field Csv.field_len Csv.state]; rewrite ?Hlim; reflexivity.
    + now right.
    + cbn [Csv.fields Csv.field Csv.field_len]. rewrite str_length_app. simpl. lia.
    + cbn [Csv.field]. rewrite str_length_app. simpl. unfold Csv.field_limit in *. lia.
    + exact Hps.
    + cbn [Csv.fields Csv.field]. now rewrite str_app_assoc.
Qed.

(** The characters of a line without quoted cells, up to what follows the
    line. *)
Lemma feed_plain (rem rest : string) (self : Csv.reader) :
  plain rem = true ->
  open_state (Csv.state self) = true ->
  Csv.field_len self = N.of_nat (String.length (Csv.field self)) ->
  fits (Csv.field self) (Py.split "," rem) ->
  exists self',
    Csv.process_line self (rem ++ rest) = Csv.process_line self' rest
    /\ open_state (Csv.state self') = true
    /\ (Csv.fields self' ++ [Csv.field self'])%list
       = (Csv.fields self ++ glue (Csv.field self) (Py.split "," rem))%list
    /\ (rem = EmptyString -> self' = self)
    /\ (rem <> EmptyString ->
        Csv.state self' = Csv.START_FIELD \/ Csv.state self' = Csv.IN_FIELD).
Proof.
  revert self. induction rem as [|c rem IH]; intros self Hplain Hst Hlen Hfit.
  - exists self. cbn [Py.split glue]. rewrite append_nil_r_str_aux.
    repeat split; [exact Hst|congruence].
  - cbn [plain Py.forallb_str] in Hplain. unfold plain in Hplain.
    cbn [Py.forallb_str] in Hplain. apply andb_true_iff in Hplain as [Hc Hrem].
    destruct (step_plain c rem self Hc Hst Hlen Hfit)
      as (s1 & Hstep & Hs1 & Hlen1 & Hfit1 & Hrow1).
    assert (open_state (Csv.state s1) = true) as Hopen1
      by (destruct Hs1 as [-> | ->]; reflexivity).
    destruct (IH s1 Hrem Hopen1 Hlen1 Hfit1) as (s2 & Hrun & Hopen2 & Hrow2 & Hnil & Hcons).
    exists s2. repeat split.
    + change (String c rem ++ rest) with (String c (rem ++ rest)).
      cbn [Csv.process_line]. rewrite Hstep. exact Hrun.
    + exact Hopen2.
    + now rewrite Hrow2, Hrow1.
    + discriminate.
    + intros _. destruct rem as [|c' rem'].
      * now rewrite (Hnil eq_refl).
      * apply Hcons. discriminate.
Qed.

(** The end of a line, or of the file, closes the record. *)
Lemma end_of_line (self : Csv.reader) (eol : string) :
  open_state (Csv.state self) = true ->
  eol = EmptyString \/ is_eol eol ->
  exists s,
    Csv.process_line self eol = Normal s
    /\ Csv.state s = Csv.START_RECORD
    /\ Csv.fields s =
         if Csv.is_start_record (Csv.state self) then Csv.fields self
         else (Csv.fields self ++ [Csv.field self])%list.
Proof.
  intros Hst Heol. destruct self as [fields field field_len state].
  cbn [Csv.state] in Hst.
  destruct Heol as [->|[->| ->]]; destruct state; try discriminate Hst;
    eexists; (split; [reflexivity|split; reflexivity]).
Qed.

Lemma process_simple_line (line eol : string) :
  simple_line line ->
  eol = EmptyString \/ is_eol eol ->
  exists s,
    Csv.process_line Csv.parse_reset (line ++ eol) = Normal s
    /\ Csv.state s = Csv.START_RECORD
    /\ Csv.fields s = line_cells line.
Proof.
  intros [Hplain Hfit] Heol.
  destruct (feed_plain line eol Csv.parse_reset Hplain eq_refl eq_refl Hfit)
    as (s1 & Hrun & Hopen & Hrow & Hnil & Hcons).
  destruct (end_of_line s1 eol Hopen Heol) as (s & Hend & Hst & Hfields).
  exists s. split; [now rewrite Hrun|]. split; [exact Hst|].
  rewrite Hfields. destruct line as [|c line].
  - now rewrite (Hnil eq_refl).
  - destruct (Hcons ltac:(discriminate)) as [-> | ->]; cbn [Csv.is_start_record];
      rewrite Hrow; cbn [Csv.parse_reset Csv.fields Csv.field app line_cells is_empty];
      destruct (Py.split "," (String c line)) eqn:E;
      [now destruct (split_nonempty "," (String c line))|reflexivity
      |now destruct (split_nonempty "," (String c line))|reflexivity].
Qed.

Lemma plain_no_lf (line : string) :
  plain line = true -> Py.forallb_str (fun c => negb (Ascii.eqb c Csv.LF)) line = true.
Proof.
  apply forallb_str_impl. intros c Hc.
  destruct (plain_char_facts c Hc) as (_ & _ & ->). reflexivity.
Qed.

Lemma readlines_line (l rest : string) :
  Py.forallb_str (fun c => negb (Ascii.eqb c Csv.LF)) l = true ->
  Csv.readlines (l ++ String Csv.LF rest)
    = (l ++ String Csv.LF EmptyString) :: Csv.readlines rest.
Proof.
  induction l as [|a l IH]; intros H.
  - reflexivity.
  - cbn [Py.forallb_str] in H. apply andb_true_iff in H as [Ha Hl].
    apply negb_true_iff in Ha.
    change (String a l ++ String Csv.LF rest) with (String a (l ++ String Csv.LF rest)).
    cbn [Csv.readlines]. rewrite Ha, (IH Hl). reflexivity.
Qed.

Lemma readlines_tail (l : string) :
  Py.forallb_str (fun c => negb (Ascii.eqb c Csv.LF)) l = true ->
  Csv.readlines l = if is_empty l then [] else [l].
Proof.
  induction l as [|a l IH]; intros H; [reflexivity|].
  cbn [Py.forallb_str] in H. apply andb_true_iff in H as [Ha Hl].
  apply negb_true_iff in Ha. cbn [Csv.readlines is_empty]. rewrite Ha, (IH Hl).
  now destruct l.
Qed.

Lemma readlines_eol (line eol rest : string) :
  plain line = true -> is_eol eol ->
  Csv.readlines (line ++ eol ++ rest) = (line ++ eol) :: Csv.readlines rest.
Proof.
  intros Hplain [-> | ->].
  - apply readlines_line. now apply plain_no_lf.
  - change (line ++ String Csv.CR (String Csv.LF EmptyString) ++ rest)
      with (line ++ String Csv.CR EmptyString ++ String Csv.LF rest).
    rewrite <- str_app_assoc, readlines_line.
    + now rewrite str_app_assoc.
    + rewrite forallb_str_app, (plain_no_lf line Hplain). reflexivity.
Qed.

Lemma readlines_text (eol : string) (lines : list string) (tail : string) :
  is_eol eol -> Forall simple_line lines -> simple_line tail ->
  Csv.readlines (text_of eol lines tail)
    = (map (fun l => (l ++ eol)%string) lines ++ (if is_empty tail then [] else [tail]))%list.
Proof.
  intros Heol Hlines [Htail _].
  induction Hlines as [|l lines [Hl _] _ IH]; cbn [text_of fold_right map app].
  - apply readlines_tail. now apply plain_no_lf.
  - rewrite (readlines_eol l eol _ Hl Heol). f_equal. exact IH.
Qed.

Lemma reader_iter_simple (eol : string) (lines more : list string) :
  is_eol eol -> Forall simple_line lines ->
  Csv.reader_iter Csv.parse_reset (map (fun l => (l ++ eol)%string) lines ++ more)
    = ((map line_cells lines ++ fst (Csv.reader_iter Csv.parse_reset more))%list,
       snd (Csv.reader_iter Csv.parse_reset more)).
Proof.
  intros Heol Hlines.
  induction Hlines as [|l lines Hl _ IH]; cbn [map app].
  - now destruct (Csv.reader_iter Csv.parse_reset more).
  - cbn [Csv.reader_iter].
    destruct (process_simple_line l eol Hl (or_intror Heol)) as (s & -> & Hst & Hfields).
    rewrite Hst. cbn [Csv.is_start_record]. rewrite IH, Hfields. reflexivity.
Qed.

(** What [csv.reader] yields on a file without quoted cells: for each line
    its comma-separated cells, and the empty record for an empty line. *)
Lemma reader_rows_simple (eol : string) (lines : list string) (tail : string) :
  is_eol eol -> Forall simple_line lines -> simple_line tail ->
  Csv.reader_rows (text_of eol lines tail)
    = ((map line_cells lines ++ (if is_empty tail then [] else [line_cells tail]))%list,
       None).
Proof.
  intros Heol Hlines Htail. unfold Csv.reader_rows.
  rewrite (readlines_text eol lines tail Heol Hlines Htail).
  rewrite (reader_iter_simple eol lines _ Heol Hlines).
  destruct tail as [|c tail]; [reflexivity|].
  cbn [is_empty Csv.reader_iter].
  destruct (process_simple_line (String c tail) EmptyString Htail (or_introl eq_refl))
    as (s & Hrun & Hst & Hfields).
  rewrite append_nil_r_str_aux in Hrun. rewrite Hrun, Hst.
  cbn [Csv.is_start_record]. rewrite Hfields. reflexivity.
Qed.
(** ** Report File Decoder: whole files without quoted cells *)

Lemma line_cells_nil (l : string) : Csv.is_nil (line_cells l) = is_empty l.
Proof.
  unfold line_cells. destruct l as [|c l]; [reflexivity|]. cbn [is_empty].
  destruct (Py.split "," (String c l)) eqn:E; [|reflexivity].
  now destruct (split_nonempty "," (String c l)).
Qed.

Lemma filter_line_cells (ls : list string) :
  filter (fun r => negb (Csv.is_nil r)) (map line_cells ls)
    = map line_cells (filter (fun l => negb (is_empty l)) ls).
Proof.
  induction ls as [|l ls IH]; [reflexivity|].
  cbn [map filter]. rewrite line_cells_nil, IH. now destruct (is_empty l).
Qed.

Lemma tail_rows (tail : string) :
  (if is_empty tail then [] else [line_cells tail]) = map line_cells
     (filter (fun l => negb (is_empty l)) [tail]).
Proof. cbn [filter]. now destruct (is_empty tail). Qed.

Lemma Forall2_of_map {A B C : Type} (f : A -> B) (P : B -> C -> Prop)
  (l : list A) (m : list C) :
  Forall2 P (map f l) m -> Forall2 (fun x y => P (f x) y) l m.
Proof.
  revert m. induction l as [|x l IH]; intros m H; inversion H; subst; constructor.
  - assumption.
  - now apply IH.
Qed.

(** X8. On a file without quoted cells (lines ended by a line feed, with or
    without a carriage return before it; no cell longer than the reader's
    limit) whose lines have no more cells than the first one, the decoder
    returns one record for each line after the first that is not empty, in
    the order of the file: the decoding of the comma-separated cells of the
    line against those of the first line. Empty lines are skipped wherever
    they stand. *)
Theorem parse_csv_simple_file (eol header : string) (lines : list string) (tail : string) :
  is_eol eol ->
  simple_line header -> Forall simple_line lines -> simple_line tail ->
  Forall (fun l => length (line_cells l) <= length (line_cells header)) (lines ++ [tail]) ->
  exists data,
    parse_csv (text_of eol (header :: lines) tail) = Normal data
    /\ Forall2 (fun l d => parse_row (Csv.make_row (line_cells header) (line_cells l))
                           = Normal d)
         (filter (fun l => negb (is_empty l)) (lines ++ [tail])) data.
Proof.
  intros Heol Hheader Hlines Htail Hlen.
  pose proof (reader_rows_simple eol (header :: lines) tail Heol
                (Forall_cons _ Hheader Hlines) Htail) as Hrows.
  cbn [map app] in Hrows.
  destruct (parse_csv_no_surplus _ _ _ Hrows) as (data & Hdata & _ & Hall).
  - apply Forall_app. apply Forall_app in Hlen as [Hl Ht]. split.
    + apply Forall_map. exact Hl.
    + destruct (is_empty tail); [constructor|].
      apply Forall_cons_iff in Ht as [Ht _]. now repeat constructor.
  - exists data. split; [exact Hdata|].
    rewrite filter_app, filter_line_cells in Hall.
    rewrite tail_rows, filter_line_cells, <- map_app, <- filter_app in Hall.
    apply Forall2_of_map in Hall.
    rewrite filter_app. rewrite filter_app in Hall.
    replace (filter (fun l => negb (is_empty l))
               (filter (fun l => negb (is_empty l)) [tail]))
      with (filter (fun l => negb (is_empty l)) [tail]) in Hall; [exact Hall|].
    cbn [filter]. destruct (is_empty tail) eqn:E; [reflexivity|].
    cbn [negb filter]. now rewrite E.
Qed.

(** X9. A file that holds nothing, or one line only (the header, with or
    without its end of line), gives the empty list of records, not an
    error. *)
Theorem parse_csv_header_only (eol header : string) :
  is_eol eol -> simple_line header ->
  parse_csv header = Normal [] /\ parse_csv (header ++ eol) = Normal [].
Proof.
  intros Heol Hheader.
  assert (simple_line EmptyString) as Hempty.
  { split; [reflexivity|]. unfold cells_fit, fits, Csv.field_limit. simpl. split.
    - lia.
    - constructor. }
  split.
  - pose proof (reader_rows_simple eol [] header Heol (Forall_nil _) Hheader) as Hrows.
    cbn [text_of fold_right map app] in Hrows.
    unfold parse_csv, Csv.DictReader. rewrite Hrows.
    now destruct (is_empty header).
  - pose proof (reader_rows_simple eol [header] EmptyString Heol
                  (Forall_cons _ Hheader (Forall_nil _)) Hempty) as Hrows.
    cbn [text_of fold_right map app is_empty] in Hrows.
    rewrite append_nil_r_str_aux in Hrows.
    unfold parse_csv, Csv.DictReader. now rewrite Hrows.
Qed.

(** Decides [simple_line] on a given line. *)
Ltac simple_line_holds :=
  split; [reflexivity|];
  unfold cells_fit; cbn [Py.split Ascii.eqb Bool.eqb fits];
  repeat first [ apply N.leb_le; reflexivity | split | constructor ].

Lemma parse_csv_simple_file_witness :
  exists data,
    parse_csv (text_of Examples.nl ["date,clicks"; "2025-01-01,7"; ""] "2025-01-02,9")
      = Normal data
    /\ Forall2 (fun l d => parse_row (Csv.make_row (line_cells "date,clicks") (line_cells l))
                           = Normal d)
         (filter (fun l => negb (is_empty l)) (["2025-01-01,7"; ""] ++ ["2025-01-02,9"]))
         data.
Proof.
  apply (parse_csv_simple_file Examples.nl "date,clicks" ["2025-01-01,7"; ""]
           "2025-01-02,9").
  - now left.
  - simple_line_holds.
  - apply Forall_cons; [simple_line_holds|].
    apply Forall_cons; [simple_line_holds|apply Forall_nil].
  - simple_line_holds.
  - repeat constructor; simpl; lia.
Defined.

Lemma parse_csv_header_only_witness :
  parse_csv "date,clicks" = Normal []
  /\ parse_csv ("date,clicks" ++ Examples.nl) = Normal [].
Proof.
  apply (parse_csv_header_only Examples.nl "date,clicks").
  - now left.
  - simple_line_holds.
Defined.
(** ** What the tools do to the state, whatever the remote replies *)

Section Respects.

Variable R : pystate -> pystate -> Prop.
Hypothesis R_refl : forall st, R st st.
Hypothesis R_trans : forall a b c, R a b -> R b c -> R a c.

Lemma respects_ret {A : Type} (a : A) : respects R (ret a).
Proof. intros st. apply R_refl. Qed.

Lemma respects_raise {A : Type} (e : exn) : respects R (@raise A e).
Proof. intros st. apply R_refl. Qed.

Lemma respects_lift {A : Type} (r : result A) : respects R (lift r).
Proof. intros st. apply R_refl. Qed.

Lemma respects_bind {A B : Type} (m : M A) (k : A -> M B) :
  respects R m -> (forall a, respects R (k a)) -> respects R (bind m k).
Proof.
  intros Hm Hk st. unfold bind. specialize (Hm st).
  destruct (m st) as [st1 [a|e]]; cbn [fst] in *.
  - eapply R_trans; [exact Hm|apply Hk].
  - exact Hm.
Qed.

Lemma respects_try {A : Type} (body : M A) (handler : exn -> M A) :
  respects R body -> (forall e, respects R (handler e)) ->
  respects R (try_except body handler).
Proof.
  intros Hm Hk st. unfold try_except. specialize (Hm st).
  destruct (body st) as [st1 [a|e]]; cbn [fst] in *.
  - exact Hm.
  - eapply R_trans; [exact Hm|apply Hk].
Qed.

Lemma respects_logger (lvl : level) (msg : string) :
  (forall st, R st (add_event (Log lvl msg) st)) -> respects R (logger lvl msg).
Proof. intros H st. apply H. Qed.

Lemma respects_remote {A : Type} (reply : list event -> result A)
  (ev : result A -> event) :
  (forall st r, R st (add_event (ev r) st)) -> respects R (remote reply ev).
Proof. intros H st. apply H. Qed.

Hypothesis R_log : forall st lvl msg, R st (add_event (Log lvl msg) st).

(** One step of a proof of [respects]: the combinators, then the branches
    of the conditionals. *)
Ltac respects_step :=
  first
    [ apply respects_ret | apply respects_raise | apply respects_lift
    | apply respects_logger; intros; apply R_log
    | apply respects_remote; solve [auto]
    | assumption
    | apply respects_bind; [|intros ?]
    | apply respects_try; [|intros ?]
    | match goal with
      | |- respects _ (match ?x with _ => _ end) => destruct x
      | |- respects _ (if ?b then _ else _) => destruct b
      end ].

Lemma respects_dv_run_report (w : world) (a : report_args) :
  (forall st body r, R st (add_event (QueriesCreate body r) st)) ->
  (forall st q r, R st (add_event (QueriesRun q true r) st)) ->
  (forall st p r, R st (add_event (Urlopen p r) st)) ->
  respects R (get_bid_manager_service w) ->
  respects R (dv_run_report w a).
Proof.
  intros Hcreate Hrun Hopen Hsvc.
  unfold dv_run_report, dv_run_report_try, get_service, download_csv_from_gcs,
    parse_csv_to_json.
  repeat respects_step.
Qed.

Lemma respects_list_reply (result : pyval) (key noun : string)
  (fields : list (string * string * pyval)) :
  respects R (list_reply result key noun fields).
Proof. unfold list_reply. repeat respects_step. Qed.

Lemma respects_entity_except (what permission_message not_found_message : string)
  (e : exn) :
  respects R (entity_except what permission_message not_found_message e).
Proof. unfold entity_except. repeat respects_step. Qed.

Hypothesis R_entity : forall st method kwargs r, R st (add_event (EntityCall method kwargs r) st).

Lemma respects_execute (w : world) (svc : service) (method : string) (kwargs : pyval) :
  respects R (execute w svc method kwargs).
Proof. unfold execute. apply respects_remote. intros. apply R_entity. Qed.

Ltac respects_entity :=
  repeat first
    [ apply respects_list_reply | apply respects_entity_except | apply respects_execute
    | respects_step ].

Lemma respects_list_tools (w : world) (id : string) (page_size : Z)
  (filter order_by : option string) :
  respects R (get_dv360_service w) ->
  respects R (dv_list_campaigns w id page_size filter order_by)
  /\ respects R (dv_list_insertion_orders w id page_size filter order_by)
  /\ respects R (dv_list_line_items w id page_size filter order_by)
  /\ respects R (dv_list_creatives w id page_size filter order_by).
Proof.
  intros Hsvc.
  unfold dv_list_campaigns, dv_list_insertion_orders, dv_list_line_items,
    dv_list_creatives.
  repeat split; respects_entity.
Qed.

Lemma respects_dv_list_advertisers (w : world) (partner_id : option string)
  (page_size : Z) (order_by : option string) :
  respects R (get_dv360_service w) ->
  respects R (dv_list_advertisers w partner_id page_size order_by).
Proof. intros Hsvc. unfold dv_list_advertisers. respects_entity. Qed.

Lemma respects_get_entity (w : world) (noun Noun key method id_name : string)
  (advertiser_id id : string) :
  respects R (get_dv360_service w) ->
  respects R (get_entity w noun Noun key method id_name advertiser_id id).
Proof. intros Hsvc. unfold get_entity. respects_entity. Qed.

End Respects.
(** ** The two services *)

Lemma extends_refl (allowed : event -> bool) (other : pystate -> option service)
  (st : pystate) : extends_by allowed other st st.
Proof. split; [reflexivity|]. exists []. now rewrite app_nil_r. Qed.

Lemma extends_trans (allowed : event -> bool) (other : pystate -> option service)
  (a b c : pystate) :
  extends_by allowed other a b -> extends_by allowed other b c ->
  extends_by allowed other a c.
Proof.
  intros [Hab (e1 & H1 & F1)] [Hbc (e2 & H2 & F2)]. split; [congruence|].
  exists (e1 ++ e2)%list. rewrite H2, H1, <- app_assoc, forallb_app, F1, F2. now split.
Qed.

(** Shows [extends_by] between a state and the one a path has led to. *)
Ltac show_extends :=
  split; [reflexivity|]; cbn [fst trace];
  first [ exists []; rewrite app_nil_r; split; reflexivity
        | rewrite <- ?app_assoc; eexists; split; reflexivity ].

Lemma get_bid_manager_service_extends (w : world) :
  respects (extends_by report_event _dv360_service) (get_bid_manager_service w).
Proof.
  intros st. unfold get_bid_manager_service. unfold_M. cbn.
  destruct (_bid_manager_service st); [show_extends|].
  destruct (SERVICE_ACCOUNT_JSON w) as [[|c s]|]; try show_extends.
  destruct (json_loads w (String c s)); [show_extends|]. cbn.
  destruct (from_service_account_info w p BID_MANAGER_API_SCOPES); cbn; [|show_extends].
  destruct (discovery_build w _ BID_MANAGER_API_NAME a); cbn; show_extends.
Qed.

Lemma get_dv360_service_extends (w : world) :
  respects (extends_by entity_event _bid_manager_service) (get_dv360_service w).
Proof.
  intros st. unfold get_dv360_service, get_global_dv360, set_global_dv360. unfold_M. cbn.
  destruct (_dv360_service st); [show_extends|].
  destruct (SERVICE_ACCOUNT_JSON w) as [[|c s]|]; try show_extends.
  destruct (json_loads w (String c s)); [show_extends|]. cbn.
  destruct (from_service_account_info w p DV360_API_SCOPES); cbn; [|show_extends].
  destruct (discovery_build w _ DV360_API_NAME a); cbn; show_extends.
Qed.

Lemma extends_event (allowed : event -> bool) (e : event) (st : pystate) :
  allowed e = true ->
  extends_by allowed _dv360_service st (add_event e st)
  /\ extends_by allowed _bid_manager_service st (add_event e st).
Proof.
  intros H. split; (split; [reflexivity|]); exists [e]; cbn; now rewrite H.
Qed.

(** X10. The report tool and the entity tools keep to their own service. A
    call of [dv_run_report] leaves the cached Display & Video 360 service as
    it was and adds to the trace nothing but log records, a build of the
    Bid Manager service, submissions, synchronous runs and downloads: it
    calls no entity method. A call of an entity tool leaves the cached Bid
    Manager service as it was and adds nothing but log records, a build of
    the Display & Video 360 service and entity requests: it submits, runs
    and downloads nothing. *)
Theorem tools_keep_to_their_service (w : world) (c : tool_call) (st : pystate) :
  if is_report c
  then extends_by report_event _dv360_service st (fst (call_tool w c st))
  else extends_by entity_event _bid_manager_service st (fst (call_tool w c st)).
Proof.
  pose proof (extends_refl entity_event _bid_manager_service) as Hrefl.
  pose proof (extends_trans entity_event _bid_manager_service) as Htrans.
  assert (forall st lvl msg,
            extends_by entity_event _bid_manager_service st (add_event (Log lvl msg) st))
    as Hlog by (intros; now apply extends_event).
  assert (forall st method kwargs r,
            extends_by entity_event _bid_manager_service st
              (add_event (EntityCall method kwargs r) st))
    as Hentity by (intros; now apply extends_event).
  pose proof (get_dv360_service_extends w) as Hsvc.
  destruct c; cbn [is_report call_tool].
  - now apply respects_dv_list_advertisers.
  - now apply (respects_list_tools _ Hrefl Htrans Hlog Hentity w advertiser_id page_size
                 filter order_by Hsvc).
  - exact (respects_get_entity _ Hrefl Htrans Hlog Hentity w _ _ _ _ _ _ _ Hsvc st).
  - now apply (respects_list_tools _ Hrefl Htrans Hlog Hentity w advertiser_id page_size
                 filter order_by Hsvc).
  - exact (respects_get_entity _ Hrefl Htrans Hlog Hentity w _ _ _ _ _ _ _ Hsvc st).
  - now apply (respects_list_tools _ Hrefl Htrans Hlog Hentity w advertiser_id page_size
                 filter order_by Hsvc).
  - exact (respects_get_entity _ Hrefl Htrans Hlog Hentity w _ _ _ _ _ _ _ Hsvc st).
  - now apply (respects_list_tools _ Hrefl Htrans Hlog Hentity w advertiser_id page_size
                 filter order_by Hsvc).
  - exact (respects_get_entity _ Hrefl Htrans Hlog Hentity w _ _ _ _ _ _ _ Hsvc st).
  - apply respects_dv_run_report.
    + apply extends_refl.
    + apply extends_trans.
    + intros; now apply extends_event.
    + intros; now apply extends_event.
    + intros; now apply extends_event.
    + intros; now apply extends_event.
    + apply get_bid_manager_service_extends.
Qed.

Lemma builds_app (api : string) (l m : list event) :
  builds api (l ++ m) = builds api l + builds api m.
Proof. unfold builds. now rewrite filter_app, length_app. Qed.

Lemma builds_snoc (api : string) (evs : list event) (e : event) :
  builds api (evs ++ [e]) = builds api evs + (if built api e then 1 else 0).
Proof. rewrite builds_app. unfold builds. cbn [filter]. now destruct (built api e). Qed.

Lemma consistent_event (e : event) (st : pystate) :
  built BID_MANAGER_API_NAME e = false -> built DV360_API_NAME e = false ->
  cache_consistent st -> cache_consistent (add_event e st).
Proof.
  unfold cache_consistent, add_event. cbn [_bid_manager_service _dv360_service trace].
  intros H1 H2. rewrite !builds_snoc, H1, H2. now rewrite !Nat.add_0_r.
Qed.

(** Reduces the state of a path without unfolding [builds]. *)
Ltac path_state := cbn [fst snd trace _bid_manager_service _dv360_service].

Lemma get_bid_manager_service_consistent (w : world) :
  respects (fun st st' => cache_consistent st -> cache_consistent st')
    (get_bid_manager_service w).
Proof.
  intros st H. unfold get_bid_manager_service. unfold_M. path_state.
  destruct (_bid_manager_service st) eqn:Hc; [exact H|].
  destruct (SERVICE_ACCOUNT_JSON w) as [[|c s]|]; try exact H.
  destruct (json_loads w (String c s)); [exact H|]. path_state.
  unfold cache_consistent in *. rewrite Hc in H. destruct H as [H1 H2].
  destruct (from_service_account_info w p BID_MANAGER_API_SCOPES); path_state.
  - destruct (discovery_build w _ BID_MANAGER_API_NAME a); path_state;
      rewrite ?Hc, !builds_snoc, H1; cbn; split; try lia;
      destruct (_dv360_service st); lia.
  - rewrite ?Hc, !builds_snoc, H1. cbn. split; [reflexivity|].
    destruct (_dv360_service st); lia.
Qed.

Lemma get_dv360_service_consistent (w : world) :
  respects (fun st st' => cache_consistent st -> cache_consistent st')
    (get_dv360_service w).
Proof.
  intros st H. unfold get_dv360_service, get_global_dv360, set_global_dv360.
  unfold_M. path_state.
  destruct (_dv360_service st) eqn:Hc; [exact H|].
  destruct (SERVICE_ACCOUNT_JSON w) as [[|c s]|]; try exact H.
  destruct (json_loads w (String c s)); [exact H|]. path_state.
  unfold cache_consistent in *. rewrite Hc in H. destruct H as [H1 H2].
  destruct (from_service_account_info w p DV360_API_SCOPES); path_state.
  - destruct (discovery_build w _ DV360_API_NAME a); path_state;
      rewrite ?Hc, !builds_snoc, H2; cbn; split; try lia;
      destruct (_bid_manager_service st); lia.
  - rewrite ?Hc, !builds_snoc, H2. cbn. split; [|reflexivity].
    destruct (_bid_manager_service st); lia.
Qed.

Lemma call_tool_consistent (w : world) (c : tool_call) (st : pystate) :
  cache_consistent st -> cache_consistent (fst (call_tool w c st)).
Proof.
  set (R := fun st st' => cache_consistent st -> cache_consistent st').
  assert (forall st, R st st) as Hrefl by (intros ? H; exact H).
  assert (forall a b c, R a b -> R b c -> R a c) as Htrans
    by (intros ? ? ? Hab Hbc H; exact (Hbc (Hab H))).
  assert (forall st lvl msg, R st (add_event (Log lvl msg) st)) as Hlog
    by (unfold R; intros; now apply consistent_event).
  assert (forall st method kwargs r, R st (add_event (EntityCall method kwargs r) st))
    as Hentity by (unfold R; intros; now apply consistent_event).
  pose proof (get_dv360_service_consistent w) as Hsvc. fold R in Hsvc.
  revert st. change (respects R (call_tool w c)).
  destruct c; cbn [call_tool].
  - now apply respects_dv_list_advertisers.
  - now apply (respects_list_tools _ Hrefl Htrans Hlog Hentity w advertiser_id page_size
                 filter order_by Hsvc).
  - exact (respects_get_entity _ Hrefl Htrans Hlog Hentity w _ _ _ _ _ _ _ Hsvc).
  - now apply (respects_list_tools _ Hrefl Htrans Hlog Hentity w advertiser_id page_size
                 filter order_by Hsvc).
  - exact (respects_get_entity _ Hrefl Htrans Hlog Hentity w _ _ _ _ _ _ _ Hsvc).
  - now apply (respects_list_tools _ Hrefl Htrans Hlog Hentity w advertiser_id page_size
                 filter order_by Hsvc).
  - exact (respects_get_entity _ Hrefl Htrans Hlog Hentity w _ _ _ _ _ _ _ Hsvc).
  - now apply (respects_list_tools _ Hrefl Htrans Hlog Hentity w advertiser_id page_size
                 filter order_by Hsvc).
  - exact (respects_get_entity _ Hrefl Htrans Hlog Hentity w _ _ _ _ _ _ _ Hsvc).
  - apply respects_dv_run_report; try assumption.
    + unfold R; intros; now apply consistent_event.
    + unfold R; intros; now apply consistent_event.
    + unfold R; intros; now apply consistent_event.
    + apply get_bid_manager_service_consistent.
Qed.

(** X11. Over any sequence of tool calls run one after the other, each of
    the two services is built successfully once at most: a state whose
    cached services agree with its trace (as the state of a fresh process
    does) stays so, and its trace never holds two successful builds of the
    same service. A build that failed caches nothing and is tried again by
    the next call. *)
Theorem services_built_once (w : world) (calls : list tool_call) (st : pystate) :
  cache_consistent st ->
  cache_consistent (run_calls w calls st)
  /\ builds BID_MANAGER_API_NAME (trace (run_calls w calls st)) <= 1
  /\ builds DV360_API_NAME (trace (run_calls w calls st)) <= 1.
Proof.
  intros H.
  assert (cache_consistent (run_calls w calls st)) as Hfinal.
  { revert st H. induction calls as [|c calls IH]; intros st H; [exact H|].
    cbn [run_calls]. apply IH. now apply call_tool_consistent. }
  split; [exact Hfinal|]. destruct Hfinal as [H1 H2].
  destruct (_bid_manager_service (run_calls w calls st));
    destruct (_dv360_service (run_calls w calls st)); lia.
Qed.

Lemma services_built_once_witness :
  cache_consistent
    (run_calls Examples.scenario_world
       [RunReport Examples.scenario_args; GetCampaign "1" "2";
        RunReport Examples.unfiltered_args] Examples.fresh)
  /\ builds BID_MANAGER_API_NAME
       (trace (run_calls Examples.scenario_world
                 [RunReport Examples.scenario_args; GetCampaign "1" "2";
                  RunReport Examples.unfiltered_args] Examples.fresh)) <= 1
  /\ builds DV360_API_NAME
       (trace (run_calls Examples.scenario_world
                 [RunReport Examples.scenario_args; GetCampaign "1" "2";
                  RunReport Examples.unfiltered_args] Examples.fresh)) <= 1.
Proof.
  apply (services_built_once Examples.scenario_world
           [RunReport Examples.scenario_args; GetCampaign "1" "2";
            RunReport Examples.unfiltered_args] Examples.fresh).
  split; reflexivity.
Defined.
(** ** Credentials, caching and the start of the process *)

Lemma cached_bid_manager_service (w : world) (st : pystate) (svc : service) :
  _bid_manager_service st = Some svc ->
  get_bid_manager_service w st = (st, Normal svc).
Proof. intros H. unfold get_bid_manager_service. unfold_M. now rewrite H. Qed.

Lemma cached_dv360_service (w : world) (st : pystate) (svc : service) :
  _dv360_service st = Some svc -> get_dv360_service w st = (st, Normal svc).
Proof.
  intros H. unfold get_dv360_service, get_global_dv360. unfold_M. now rewrite H.
Qed.

Lemma get_bid_manager_service_result (w : world) (st : pystate) :
  match snd (get_bid_manager_service w st) with
  | Normal svc => _bid_manager_service (fst (get_bid_manager_service w st)) = Some svc
  | Raise _ =>
      _bid_manager_service (fst (get_bid_manager_service w st)) = None
      /\ _bid_manager_service st = None
  end.
Proof.
  unfold get_bid_manager_service. unfold_M. path_state.
  destruct (_bid_manager_service st) eqn:Hc; [exact Hc|].
  destruct (SERVICE_ACCOUNT_JSON w) as [[|c s]|]; try (now split).
  destruct (json_loads w (String c s)); [now split|]. path_state.
  destruct (from_service_account_info w p BID_MANAGER_API_SCOPES); path_state;
    [|now split].
  destruct (discovery_build w _ BID_MANAGER_API_NAME a); path_state;
    [reflexivity|now split].
Qed.

Lemma get_dv360_service_result (w : world) (st : pystate) :
  match snd (get_dv360_service w st) with
  | Normal svc => _dv360_service (fst (get_dv360_service w st)) = Some svc
  | Raise _ =>
      _dv360_service (fst (get_dv360_service w st)) = None /\ _dv360_service st = None
  end.
Proof.
  unfold get_dv360_service, get_global_dv360, set_global_dv360. unfold_M. path_state.
  destruct (_dv360_service st) eqn:Hc; [exact Hc|].
  destruct (SERVICE_ACCOUNT_JSON w) as [[|c s]|]; try (now split).
  destruct (json_loads w (String c s)); [now split|]. path_state.
  destruct (from_service_account_info w p DV360_API_SCOPES); path_state; [|now split].
  destruct (discovery_build w _ DV360_API_NAME a); path_state; [reflexivity|now split].
Qed.

(** X12. The service getters cache what they build and nothing else. When
    [get_bid_manager_service] (or its alias [get_service]) returns a
    service, the service is the global afterwards, and from that state every
    later call returns the same service without logging, reading the
    environment or building anything; when it raises, no service is cached,
    so the next call tries again. The same holds of [get_dv360_service] and
    its own global. *)
Theorem service_getters_cache (w w' : world) (st st' : pystate) :
  (forall svc, get_bid_manager_service w st = (st', Normal svc) ->
     _bid_manager_service st' = Some svc
     /\ get_bid_manager_service w' st' = (st', Normal svc)
     /\ get_service w' st' = (st', Normal svc))
  /\ (forall svc, get_dv360_service w st = (st', Normal svc) ->
        _dv360_service st' = Some svc
        /\ get_dv360_service w' st' = (st', Normal svc))
  /\ (forall e, get_bid_manager_service w st = (st', Raise e) ->
        _bid_manager_service st' = None)
  /\ (forall e, get_dv360_service w st = (st', Raise e) -> _dv360_service st' = None).
Proof.
  pose proof (get_bid_manager_service_result w st) as Hbm.
  pose proof (get_dv360_service_result w st) as Hdv.
  split; [|split; [|split]].
  - intros svc H. rewrite H in Hbm. cbn [fst snd] in Hbm.
    repeat split; [exact Hbm| |]; now apply cached_bid_manager_service.
  - intros svc H. rewrite H in Hdv. cbn [fst snd] in Hdv.
    split; [exact Hdv|]. now apply cached_dv360_service.
  - intros e H. rewrite H in Hbm. apply Hbm.
  - intros e H. rewrite H in Hdv. apply Hdv.
Qed.

Lemma service_getters_cache_witness :
  _bid_manager_service (fst (get_bid_manager_service Examples.scenario_world Examples.fresh))
    = Some (Service 0)
  /\ get_bid_manager_service Examples.failing_world
       (fst (get_bid_manager_service Examples.scenario_world Examples.fresh))
     = (fst (get_bid_manager_service Examples.scenario_world Examples.fresh),
        Normal (Service 0))
  /\ get_service Examples.failing_world
       (fst (get_bid_manager_service Examples.scenario_world Examples.fresh))
     = (fst (get_bid_manager_service Examples.scenario_world Examples.fresh),
        Normal (Service 0)).
Proof.
  apply (proj1 (service_getters_cache Examples.scenario_world Examples.failing_world
                  Examples.fresh
                  (fst (get_bid_manager_service Examples.scenario_world Examples.fresh)))
           (Service 0)).
  reflexivity.
Defined.

Lemma getters_without_credentials (w : world) (st : pystate) :
  SERVICE_ACCOUNT_JSON w = None \/ SERVICE_ACCOUNT_JSON w = Some EmptyString ->
  (_bid_manager_service st = None ->
   get_bid_manager_service w st = (st, Raise (ValueError not_set_message)))
  /\ (_dv360_service st = None ->
      get_dv360_service w st = (st, Raise (ValueError not_set_message))).
Proof.
  intros Henv. split; intros Hc.
  - unfold get_bid_manager_service. unfold_M. rewrite Hc.
    now destruct Henv as [-> | ->].
  - unfold get_dv360_service, get_global_dv360. unfold_M. rewrite Hc.
    now destruct Henv as [-> | ->].
Qed.

(** Runs an entity tool whose getter is known to raise. *)
Ltac entity_fails Hdv :=
  unfold dv_list_advertisers, dv_list_campaigns, dv_list_insertion_orders,
    dv_list_line_items, dv_list_creatives, dv_get_campaign, dv_get_insertion_order,
    dv_get_line_item, dv_get_creative, get_entity, entity_except;
  unfold_M; rewrite Hdv; eexists; reflexivity.

(** X13. Without credentials ([DV360_SERVICE_ACCOUNT] unset or empty) and
    with no service cached, every tool call that has a partner to ask for
    fails in the same way: it contacts nothing, caches nothing, logs one
    error and returns the record with [success] false and the text that
    tells to set [DV360_SERVICE_ACCOUNT] under [error], with no [message]
    beside it. *)
Theorem tools_without_credentials (w : world) (c : tool_call) (st : pystate) :
  SERVICE_ACCOUNT_JSON w = None \/ SERVICE_ACCOUNT_JSON w = Some EmptyString ->
  _bid_manager_service st = None -> _dv360_service st = None ->
  has_partner w c = true ->
  exists what,
    call_tool w c st
      = (add_event (Log ERROR ("Error " ++ what ++ ": " ++ not_set_message)) st,
         Normal (PDict [(PStr "success", PBool false);
                        (PStr "error", PStr not_set_message)])).
Proof.
  intros Henv Hbm Hdv Hpartner.
  destruct (getters_without_credentials w st Henv) as [Hb Hd].
  specialize (Hb Hbm). specialize (Hd Hdv).
  destruct c; cbn [call_tool has_partner] in *; try entity_fails Hd.
  - destruct partner_id as [p|]; [entity_fails Hd|].
    unfold dv_list_advertisers.
    destruct (DEFAULT_PARTNER_ID w); [entity_fails Hd|discriminate Hpartner].
  - unfold dv_run_report, dv_run_report_try, get_service. unfold_M. rewrite Hb.
    exists "running report". reflexivity.
Qed.

Lemma tools_without_credentials_witness :
  exists what,
    call_tool (mkWorld None None (fun _ => inr PNone) (fun _ _ => Normal (Credentials 0))
                 (fun _ _ _ => Normal (Service 0)) (fun _ _ _ => Normal PNone)
                 (fun _ _ _ => Normal PNone) (fun _ _ => Normal EmptyString)
                 (fun _ _ _ _ => Normal PNone) (fun _ => EmptyString))
      (GetCampaign "1" "2") Examples.fresh
      = (add_event (Log ERROR ("Error " ++ what ++ ": " ++ not_set_message)) Examples.fresh,
         Normal (PDict [(PStr "success", PBool false);
                        (PStr "error", PStr not_set_message)])).
Proof.
  apply (tools_without_credentials
           (mkWorld None None (fun _ => inr PNone) (fun _ _ => Normal (Credentials 0))
              (fun _ _ _ => Normal (Service 0)) (fun _ _ _ => Normal PNone)
              (fun _ _ _ => Normal PNone) (fun _ _ => Normal EmptyString)
              (fun _ _ _ _ => Normal PNone) (fun _ => EmptyString))
           (GetCampaign "1" "2") Examples.fresh).
  - now left.
  - reflexivity.
  - reflexivity.
  - reflexivity.
Defined.


(** ** Report Orchestrator: what is sent, and in which order *)

(** Finds an event in the events of a path. *)
Ltac in_path := apply in_or_app; right; cbn [In]; eauto 12.

(** Identifies two results of the same lookup. *)
Ltac same_lookups :=
  repeat match goal with
         | H1 : ?x = Normal _, H2 : ?x = Normal _ |- _ =>
             rewrite H1 in H2; inversion H2; subst; clear H2
         end.

(** X15. Within one call of [dv_run_report] every remote call works on what
    the call before it replied. A run is synchronous and is asked for the
    query identifier that a successful submission of the same call
    returned. A download fetches the path that the [metadata] of a
    successful run of the same call names, and only when the [state] of its
    [status] is not [FAILED]. *)
Theorem dv_run_report_chain (w : world) (a : report_args) (st st' : pystate)
  (r : result pyval) (evs : list event) :
  dv_run_report w a st = (st', r) ->
  trace st' = (trace st ++ evs)%list ->
  (forall q synchronous reply,
      In (QueriesRun q synchronous reply) evs ->
      synchronous = true
      /\ exists body query_response,
           In (QueriesCreate body (Normal query_response)) evs
           /\ getitem query_response "queryId" = Normal q)
  /\ (forall gcs_path reply,
        In (Urlopen gcs_path reply) evs ->
        exists q report_response md status state,
          In (QueriesRun q true (Normal report_response)) evs
          /\ getitem report_response "metadata" = Normal md
          /\ getitem md "googleCloudStoragePath" = Normal gcs_path
          /\ getitem md "status" = Normal status
          /\ getitem status "state" = Normal state
          /\ eq_str state "FAILED" = false).
Proof.
  intros H Htr. split.
  - intros q synchronous reply Hin.
    revert H Htr. run_paths w st; intros H Htr; read_path H Htr;
      find_event Hin Hops; inversion Hin; subst; clear Hin.
    all: split; [reflexivity|].
    all: do 2 eexists; split; [in_path|eassumption].
  - intros gcs_path reply Hin.
    revert H Htr. run_paths w st; intros H Htr; read_path H Htr;
      find_event Hin Hops; inversion Hin; subst; clear Hin.
    all: same_lookups.
    all: do 5 eexists; split; [in_path|].
    all: repeat (split; [eassumption|]); eassumption.
Qed.

Lemma dv_run_report_chain_witness :
  (forall q synchronous reply,
      In (QueriesRun q synchronous reply) (trace (fst Examples.scenario_run)) ->
      synchronous = true
      /\ exists body query_response,
           In (QueriesCreate body (Normal query_response))
             (trace (fst Examples.scenario_run))
           /\ getitem query_response "queryId" = Normal q)
  /\ (forall gcs_path reply,
        In (Urlopen gcs_path reply) (trace (fst Examples.scenario_run)) ->
        exists q report_response md status state,
          In (QueriesRun q true (Normal report_response))
            (trace (fst Examples.scenario_run))
          /\ getitem report_response "metadata" = Normal md
          /\ getitem md "googleCloudStoragePath" = Normal gcs_path
          /\ getitem md "status" = Normal status
          /\ getitem status "state" = Normal state
          /\ eq_str state "FAILED" = false).
Proof.
  apply (dv_run_report_chain Examples.scenario_world Examples.scenario_args Examples.fresh
           (fst Examples.scenario_run) (snd Examples.scenario_run)).
  - exact (surjective_pairing Examples.scenario_run).
  - reflexivity.
Defined.

(** X16. Every submission of [dv_run_report] sends the same kind of query:
    a one-time standard report in CSV over custom dates, titled with the
    report name, whose start and end are the two dates split at their
    hyphens, grouped by the normalized dimensions, with the normalized
    metrics and the clauses of the Filter Builder. *)
Theorem dv_run_report_query (w : world) (a : report_args) (st st' : pystate)
  (r : result pyval) (evs : list event) (body : pyval) (reply : result pyval) :
  dv_run_report w a st = (st', r) ->
  trace st' = (trace st ++ evs)%list ->
  In (QueriesCreate body reply) evs ->
  exists start_date_dict end_date_dict,
    format_date_for_api (start_date a) = Normal start_date_dict
    /\ format_date_for_api (end_date a) = Normal end_date_dict
    /\ body = PDict [
         (PStr "metadata", PDict [
            (PStr "title", PStr (report_name a));
            (PStr "dataRange", PDict [
               (PStr "range", PStr "CUSTOM_DATES");
               (PStr "customStartDate", start_date_dict);
               (PStr "customEndDate", end_date_dict)]);
            (PStr "format", PStr "CSV")]);
         (PStr "params", PDict [
            (PStr "type", PStr "STANDARD");
            (PStr "groupBys", PList (map PStr (split_if_str (dimensions a))));
            (PStr "filters",
             PList (prepare_filters (advertiser_ids a) (campaign_ids a)
                      (insertion_order_ids a) (line_item_ids a)));
            (PStr "metrics", PList (map PStr (split_if_str (metrics a))))]);
         (PStr "schedule", PDict [(PStr "frequency", PStr "ONE_TIME")])].
Proof.
  intros H Htr Hin.
  revert H Htr. run_paths w st; intros H Htr; read_path H Htr;
    find_event Hin Hops; inversion Hin; subst; clear Hin.
  all: do 2 eexists; repeat split; reflexivity.
Qed.

Lemma dv_run_report_query_witness :
  exists start_date_dict end_date_dict,
    format_date_for_api "2025-01-01" = Normal start_date_dict
    /\ format_date_for_api "2025-01-31" = Normal end_date_dict
    /\ query_obj Examples.scenario_args
         (PDict [(PStr "year", PStr "2025"); (PStr "month", PStr "01");
                 (PStr "day", PStr "01")])
         (PDict [(PStr "year", PStr "2025"); (PStr "month", PStr "01");
                 (PStr "day", PStr "31")])
         ["FILTER_DATE"] ["METRIC_IMPRESSIONS"] [filter_clause "FILTER_ADVERTISER" "123"]
       = PDict [
         (PStr "metadata", PDict [
            (PStr "title", PStr "MCP Report");
            (PStr "dataRange", PDict [
               (PStr "range", PStr "CUSTOM_DATES");
               (PStr "customStartDate", start_date_dict);
               (PStr "customEndDate", end_date_dict)]);
            (PStr "format", PStr "CSV")]);
         (PStr "params", PDict [
            (PStr "type", PStr "STANDARD");
            (PStr "groupBys", PList [PStr "FILTER_DATE"]);
            (PStr "filters", PList [filter_clause "FILTER_ADVERTISER" "123"]);
            (PStr "metrics", PList [PStr "METRIC_IMPRESSIONS"])]);
         (PStr "schedule", PDict [(PStr "frequency", PStr "ONE_TIME")])].
Proof.
  apply (dv_run_report_query Examples.scenario_world Examples.scenario_args Examples.fresh
           (fst Examples.scenario_run) (snd Examples.scenario_run)
           (trace (fst Examples.scenario_run)) _ (Normal Examples.query_response)).
  - exact (surjective_pairing Examples.scenario_run).
  - reflexivity.
  - in_trace.
Defined.

(** X17. A submission whose reply has no [queryId] ends the call: the run is
    never requested, nothing is downloaded, and the record returned has
    [success] false and, under [error], the missing key between quotes. *)
Theorem dv_run_report_missing_query_id (w : world) (a : report_args) (st st' : pystate)
  (r : result pyval) (evs : list event) (body : pyval) (items : list (pyval * pyval)) :
  dv_run_report w a st = (st', r) ->
  trace st' = (trace st ++ evs)%list ->
  In (QueriesCreate body (Normal (PDict items))) evs ->
  dict_lookup items (PStr "queryId") = None ->
  r = Normal (PDict [(PStr "success", PBool false); (PStr "error", PStr "'queryId'")])
  /\ count_op OpRun evs = 0 /\ count_op OpDownload evs = 0.
Proof.
  intros H Htr Hin Hkey.
  revert H Htr. run_paths w st; intros H Htr; read_path H Htr;
    find_event Hin Hops; inversion Hin; subst; clear Hin.
  all: match goal with
       | H : getitem (PDict _) "queryId" = _ |- _ =>
           unfold getitem in H; rewrite Hkey in H; inversion H; subst; clear H
       end.
  all: rewrite !count_op_app, !(count_op_pre _ pre Hops) by discriminate.
  all: repeat split; reflexivity.
Qed.

Lemma dv_run_report_missing_query_id_witness :
  snd (dv_run_report
         (mkWorld (Some "{}") None (fun _ => inr (PDict []))
            (fun _ _ => Normal (Credentials 0)) (fun _ _ _ => Normal (Service 0))
            (fun _ _ _ => Normal (PDict [])) (fun _ _ _ => Normal PNone)
            (fun _ _ => Normal EmptyString) (fun _ _ _ _ => Normal PNone)
            (fun _ => EmptyString))
         Examples.scenario_args Examples.fresh)
    = Normal (PDict [(PStr "success", PBool false); (PStr "error", PStr "'queryId'")])
  /\ count_op OpRun
       (trace (fst (dv_run_report
         (mkWorld (Some "{}") None (fun _ => inr (PDict []))
            (fun _ _ => Normal (Credentials 0)) (fun _ _ _ => Normal (Service 0))
            (fun _ _ _ => Normal (PDict [])) (fun _ _ _ => Normal PNone)
            (fun _ _ => Normal EmptyString) (fun _ _ _ _ => Normal PNone)
            (fun _ => EmptyString))
         Examples.scenario_args Examples.fresh))) = 0
  /\ count_op OpDownload
       (trace (fst (dv_run_report
         (mkWorld (Some "{}") None (fun _ => inr (PDict []))
            (fun _ _ => Normal (Credentials 0)) (fun _ _ _ => Normal (Service 0))
            (fun _ _ _ => Normal (PDict [])) (fun _ _ _ => Normal PNone)
            (fun _ _ => Normal EmptyString) (fun _ _ _ _ => Normal PNone)
            (fun _ => EmptyString))
         Examples.scenario_args Examples.fresh))) = 0.
Proof.
  eapply (dv_run_report_missing_query_id _ Examples.scenario_args Examples.fresh _ _ _
            _ []).
  - apply surjective_pairing.
  - reflexivity.
  - in_trace.
  - reflexivity.
Defined.
(** ** Failures and the error log *)

Lemma error_logs_app (l m : list event) : error_logs (l ++ m) = error_logs l + error_logs m.
Proof. unfold error_logs. now rewrite filter_app, length_app. Qed.

Lemma get_bid_manager_service_logs (w : world) (st : pystate) (pre : list event) :
  trace (fst (get_bid_manager_service w st)) = (trace st ++ pre)%list ->
  error_logs pre = 0.
Proof.
  unfold get_bid_manager_service. unfold_M. path_state.
  assert (forall evs, (trace st ++ evs)%list = (trace st ++ pre)%list ->
                      error_logs evs = 0 -> error_logs pre = 0) as Hsame
    by (intros evs E; apply app_inv_head in E; now subst).
  assert (trace st = (trace st ++ pre)%list -> error_logs pre = 0) as Hnone
    by (intros E; apply (Hsame []); [now rewrite app_nil_r|reflexivity]).
  destruct (_bid_manager_service st); [exact Hnone|].
  destruct (SERVICE_ACCOUNT_JSON w) as [[|c s]|]; try exact Hnone.
  destruct (json_loads w (String c s)); [exact Hnone|]. path_state.
  destruct (from_service_account_info w p BID_MANAGER_API_SCOPES); path_state.
  - destruct (discovery_build w _ BID_MANAGER_API_NAME a); path_state;
      rewrite <- ?app_assoc; intros E; now apply (Hsame _ E).
  - intros E. now apply (Hsame _ E).
Qed.

Lemma get_dv360_service_logs (w : world) (st : pystate) (pre : list event) :
  trace (fst (get_dv360_service w st)) = (trace st ++ pre)%list ->
  error_logs pre = 0.
Proof.
  unfold get_dv360_service, get_global_dv360, set_global_dv360. unfold_M. path_state.
  assert (forall evs, (trace st ++ evs)%list = (trace st ++ pre)%list ->
                      error_logs evs = 0 -> error_logs pre = 0) as Hsame
    by (intros evs E; apply app_inv_head in E; now subst).
  assert (trace st = (trace st ++ pre)%list -> error_logs pre = 0) as Hnone
    by (intros E; apply (Hsame []); [now rewrite app_nil_r|reflexivity]).
  destruct (_dv360_service st); [exact Hnone|].
  destruct (SERVICE_ACCOUNT_JSON w) as [[|c s]|]; try exact Hnone.
  destruct (json_loads w (String c s)); [exact Hnone|]. path_state.
  destruct (from_service_account_info w p DV360_API_SCOPES); path_state.
  - destruct (discovery_build w _ DV360_API_NAME a); path_state;
      rewrite <- ?app_assoc; intros E; now apply (Hsame _ E).
  - intros E. now apply (Hsame _ E).
Qed.

Lemma classify_error_failed (error_msg permission_message not_found_message : string) :
  succeeded (classify_error error_msg permission_message not_found_message) = false.
Proof.
  unfold classify_error.
  destruct (contains_str "permission" (lower error_msg) || contains_str "403" error_msg);
    [reflexivity|].
  now destruct (contains_str "not found" (lower error_msg) || contains_str "404" error_msg).
Qed.

(** The events of a getter are determined by the state it ends in. *)
Ltac same_pre :=
  cbn [fst] in *;
  match goal with
  | H1 : trace ?s = (trace ?st ++ _)%list, H2 : trace ?s = (trace ?st ++ _)%list |- _ =>
      rewrite H1 in H2; apply app_inv_head in H2; subst
  end.

(** Counts the error records of a path; a path whose record contradicts
    the branch taken is closed by that. *)
Ltac count_errors :=
  match goal with
  | Hb : succeeded _ = _ |- _ =>
      rewrite ?classify_error_failed in Hb;
      first [ discriminate Hb | cbn in Hb; discriminate Hb | reflexivity ]
  end.

(** Counts the error records of a path of an entity tool. *)
Ltac count_entity_errors w st :=
  let pre0 := fresh "pre0" in
  let Hpre0 := fresh "Hpre0" in
  let Hlog := fresh "Hlog" in
  destruct (get_dv360_service_events w st) as (pre0 & Hpre0 & _);
  pose proof (get_dv360_service_logs w st pre0 Hpre0) as Hlog;
  intros H Htr; revert H Htr;
  run_entity_paths w st; intros H Htr; read_path H Htr;
  same_pre; rewrite error_logs_app, Hlog; count_errors.

(** X18. A tool call that has a partner to ask for logs one record at the
    level [ERROR] exactly when the record it returns has [success] false,
    and none when it has [success] true: every failure of a tool, whatever
    its cause, leaves one error in the log. *)
Theorem tools_log_failures (w : world) (c : tool_call) (st st' : pystate) (r : pyval)
  (evs : list event) :
  has_partner w c = true ->
  call_tool w c st = (st', Normal r) ->
  trace st' = (trace st ++ evs)%list ->
  error_logs evs = if succeeded r then 0 else 1.
Proof.
  intros Hpartner. destruct c; cbn [call_tool has_partner] in *.
  - unfold dv_list_advertisers.
    destruct partner_id as [p|]; [count_entity_errors w st|].
    destruct (DEFAULT_PARTNER_ID w); [count_entity_errors w st|discriminate Hpartner].
  - count_entity_errors w st.
  - count_entity_errors w st.
  - count_entity_errors w st.
  - count_entity_errors w st.
  - count_entity_errors w st.
  - count_entity_errors w st.
  - count_entity_errors w st.
  - count_entity_errors w st.
  - destruct (get_service_events w st) as (pre0 & Hpre0 & _).
    pose proof (get_bid_manager_service_logs w st pre0 Hpre0) as Hlog.
    intros H Htr; revert H Htr.
    run_paths w st; intros H Htr; read_path H Htr;
      same_pre; rewrite error_logs_app, Hlog; count_errors.
Qed.
(** ** Entity tools: the records they return *)

Lemma format_entity_dict (fields : list (string * string * pyval))
  (entity : list (pyval * pyval)) :
  exists items,
    format_entity fields (PDict entity) = Normal items
    /\ format_items fields entity = PDict items.
Proof.
  unfold format_items.
  induction fields as [|[[name key] default] fields (items & IH & Heq)].
  - now exists [].
  - cbn [format_entity dict_get map]. rewrite IH.
    inversion Heq as [Hitems].
    destruct (dict_lookup entity (PStr key)); eexists; split; reflexivity.
Qed.

Lemma format_all_dicts (fields : list (string * string * pyval))
  (entities : list (list (pyval * pyval))) (formatted : list pyval) :
  format_all fields (map PDict entities) formatted
    = Normal (formatted ++ map (format_items fields) entities)%list.
Proof.
  revert formatted. induction entities as [|e entities IH]; intros formatted.
  - cbn. now rewrite app_nil_r.
  - cbn [map format_all].
    destruct (format_entity_dict fields e) as (items & -> & ->).
    rewrite IH, <- app_assoc. reflexivity.
Qed.


(** Reads what a list tool returns on a path whose reply holds
    dictionaries under the key of the entities. *)
Ltac list_record w st Hin :=
  intros H Htr; revert H Htr;
  run_entity_paths w st; intros H Htr; read_path H Htr;
  match goal with
  | Ho : remote_ops _ = [] \/ _ |- _ => find_event Hin Ho
  end;
  inversion Hin; subst; clear Hin;
  same_lookups; cbn [py_len py_iter] in *;
  repeat match goal with
         | H : context [format_all _ (map PDict _) _] |- _ =>
             rewrite format_all_dicts in H
         | H : Normal _ = Normal _ |- _ => inversion H; subst; clear H
         | H : Raise _ = Normal _ |- _ => discriminate H
         | H : Normal _ = Raise _ |- _ => discriminate H
         end;
  try match goal with
      | H : dict_get (PDict _) _ _ = Raise _ |- _ =>
          unfold dict_get in H; destruct (dict_lookup _ _) in H; discriminate H
      end;
  try match goal with
      | H : dict_get (PDict ?d) ?k none = Normal _ |- _ =>
          unfold dict_get in H; unfold get_or_none, none in *;
          destruct (dict_lookup d (PStr k)); inversion H; reflexivity
      end.

(** X20. When the remote list request of a list tool replies with a
    dictionary whose entities (under the key of the tool, or none at all
    when the key is missing) are dictionaries, the tool returns the record
    with [success] true, one entry per entity in the order of the reply
    (each name of the tool with the value of the entity, or [None], [{}] or
    [[]] where the entity has none), [count] the number of entities, the
    identifier that was asked for, and [next_page_token] the
    [nextPageToken] of the reply, or [None]. *)
Theorem list_tools_records (w : world) (st st' : pystate) (r : result pyval)
  (evs : list event) (method : string) (kwargs : pyval) (reply : list (pyval * pyval))
  (entities : list (list (pyval * pyval))) (page_size : Z)
  (filter order_by : option string) (id : string) :
  In (EntityCall method kwargs (Normal (PDict reply))) evs ->
  (forall partner_id,
      match partner_id with Some p => Some p | None => DEFAULT_PARTNER_ID w end = Some id ->
      dict_get (PDict reply) "advertisers" (PList []) = Normal (PList (map PDict entities)) ->
      dv_list_advertisers w partner_id page_size order_by st = (st', r) ->
      trace st' = (trace st ++ evs)%list ->
      r = Normal (list_result "advertisers" (map (format_items advertiser_fields) entities)
                    "partner_id" id (get_or_none reply "nextPageToken")))
  /\ (dict_get (PDict reply) "campaigns" (PList []) = Normal (PList (map PDict entities)) ->
      dv_list_campaigns w id page_size filter order_by st = (st', r) ->
      trace st' = (trace st ++ evs)%list ->
      r = Normal (list_result "campaigns" (map (format_items campaign_fields) entities)
                    "advertiser_id" id (get_or_none reply "nextPageToken")))
  /\ (dict_get (PDict reply) "insertionOrders" (PList [])
        = Normal (PList (map PDict entities)) ->
      dv_list_insertion_orders w id page_size filter order_by st = (st', r) ->
      trace st' = (trace st ++ evs)%list ->
      r = Normal (list_result "insertion_orders"
                    (map (format_items insertion_order_fields) entities)
                    "advertiser_id" id (get_or_none reply "nextPageToken")))
  /\ (dict_get (PDict reply) "lineItems" (PList []) = Normal (PList (map PDict entities)) ->
      dv_list_line_items w id page_size filter order_by st = (st', r) ->
      trace st' = (trace st ++ evs)%list ->
      r = Normal (list_result "line_items" (map (format_items line_item_fields) entities)
                    "advertiser_id" id (get_or_none reply "nextPageToken")))
  /\ (dict_get (PDict reply) "creatives" (PList []) = Normal (PList (map PDict entities)) ->
      dv_list_creatives w id page_size filter order_by st = (st', r) ->
      trace st' = (trace st ++ evs)%list ->
      r = Normal (list_result "creatives" (map (format_items creative_fields) entities)
                    "advertiser_id" id (get_or_none reply "nextPageToken")))
  /\ (forall plural formatted id_name token,
        list_result plural formatted id_name id token
          = PDict [(PStr "success", PBool true);
                   (PStr plural, PList formatted);
                   (PStr "count", PInt (Z.of_nat (length formatted)));
                   (PStr id_name, PStr id);
                   (PStr "next_page_token", token)])
  /\ length (map (format_items campaign_fields) entities) = length entities.
Proof.
  intros Hin. repeat split.
  - intros partner_id Hpartner Hget. unfold dv_list_advertisers. rewrite Hpartner.
    list_record w st Hin.
  - intros Hget. list_record w st Hin.
  - intros Hget. list_record w st Hin.
  - intros Hget. list_record w st Hin.
  - intros Hget. list_record w st Hin.
  - apply length_map.
Qed.

(** Finds an event of an entity path and reads it. *)
Ltac entity_event_is Hin :=
  match goal with
  | Ho : remote_ops _ = [] \/ _ |- _ => find_event Hin Ho
  end;
  inversion Hin; subst; clear Hin.

(** X21. When the remote get request of a get tool replies with a
    dictionary, the tool returns the record with [success] true and the
    dictionary itself, unchanged, under the key of the entity. *)
Theorem get_tools_records (w : world) (c : tool_call) (st st' : pystate)
  (r : result pyval) (evs : list event) (method : string) (kwargs : pyval)
  (entity : list (pyval * pyval)) :
  is_get c = true ->
  call_tool w c st = (st', r) ->
  trace st' = (trace st ++ evs)%list ->
  In (EntityCall method kwargs (Normal (PDict entity))) evs ->
  r = Normal (PDict [(PStr "success", PBool true); (PStr (entity_key c), PDict entity)]).
Proof.
  intros Hget H Htr Hin. revert H Htr.
  destruct c; try discriminate Hget; cbn [call_tool entity_key].
  all: run_entity_paths w st; intros H Htr; read_path H Htr; entity_event_is Hin.
  all: try reflexivity.
  all: match goal with
       | H : dict_get (PDict _) _ _ = Raise _ |- _ =>
           unfold dict_get in H; destruct (dict_lookup _ _) in H; discriminate H
       end.
Qed.

(** X22. When the remote request of an entity tool raises, the tool returns
    the record with [success] false and the text of the exception under
    [error]; a hint is added under [message] when the text holds
    [permission] (in any case of letters) or [403], and otherwise when it
    holds [not found] or [404]: the hint for a refusal wins over the hint
    for a missing entity, and a text with none of these words gets no
    hint. The hints are the sentences of the source, with the identifiers
    of the call. *)
Theorem entity_tools_failures (w : world) (c : tool_call) (st st' : pystate)
  (r : result pyval) (evs : list event) (method : string) (kwargs : pyval) (e : exn) :
  is_report c = false ->
  call_tool w c st = (st', r) ->
  trace st' = (trace st ++ evs)%list ->
  In (EntityCall method kwargs (Raise e)) evs ->
  r = Normal (PDict ([(PStr "success", PBool false); (PStr "error", PStr (str_exn e))]
                     ++ hint (str_exn e) (denial_messages w c))).
Proof.
  intros Hc H Htr Hin. revert H Htr.
  destruct c; try discriminate Hc; cbn [call_tool denial_messages].
  1: { unfold dv_list_advertisers, partner_of.
       destruct (match partner_id with Some p => Some p | None => DEFAULT_PARTNER_ID w end).
       - run_entity_paths w st; intros H Htr; read_path H Htr; entity_event_is Hin.
         unfold classify_error, hint. cbn [fst snd].
         destruct (_ || _); [reflexivity|]. now destruct (_ || _).
       - intros H Htr. inversion H; subst. rewrite <- app_nil_r in Htr at 1.
         apply trace_suffix in Htr. subst. contradiction Hin. }
  all: run_entity_paths w st; intros H Htr; read_path H Htr; entity_event_is Hin.
  all: unfold classify_error, hint; cbn [fst snd].
  all: destruct (_ || _); [reflexivity|]; now destruct (_ || _).
Qed.

Lemma entity_calls_app (l m : list event) :
  entity_calls (l ++ m) = (entity_calls l ++ entity_calls m)%list.
Proof. apply filter_app. Qed.

Lemma entity_calls_pre (pre : list event) :
  remote_ops pre = [] \/ remote_ops pre = [OpBuild] -> entity_calls pre = [].
Proof.
  intros Hops. unfold entity_calls.
  induction pre as [|e pre IH]; [reflexivity|].
  cbn [filter]. destruct e; cbn [is_entity_call remote_ops op_of] in *;
    try (apply IH; exact Hops).
  - apply IH. destruct Hops as [Hops|Hops]; [discriminate Hops|].
    inversion Hops. now left.
  - destruct Hops as [Hops|Hops]; discriminate Hops.
  - destruct Hops as [Hops|Hops]; discriminate Hops.
  - destruct Hops as [Hops|Hops]; discriminate Hops.
  - destruct Hops as [Hops|Hops]; discriminate Hops.
Qed.

Lemma list_params_kwargs (id : string) (page_size : Z) (filter order_by : option string) :
  dv_list_campaigns_params id page_size filter order_by
    = list_kwargs id page_size filter order_by
  /\ dv_list_insertion_orders_params id page_size filter order_by
     = list_kwargs id page_size filter order_by
  /\ dv_list_line_items_params id page_size filter order_by
     = list_kwargs id page_size filter order_by
  /\ dv_list_creatives_params id page_size filter order_by
     = list_kwargs id page_size filter order_by
  /\ dv_list_advertisers_params id page_size order_by
     = PDict ([(PStr "partnerId", PStr id); (PStr "pageSize", PInt (Z.min page_size 100))]
              ++ optional "orderBy" order_by).
Proof.
  destruct filter as [[|c f]|]; destruct order_by as [[|c' o]|]; repeat split.
Qed.

(** Rewrites the parameters of the list tools as the requests of
    [request_of]. *)
Ltac as_kwargs :=
  repeat match goal with
         | |- context [dv_list_campaigns_params ?i ?p ?f ?o] =>
             rewrite (proj1 (list_params_kwargs i p f o))
         | |- context [dv_list_insertion_orders_params ?i ?p ?f ?o] =>
             rewrite (proj1 (proj2 (list_params_kwargs i p f o)))
         | |- context [dv_list_line_items_params ?i ?p ?f ?o] =>
             rewrite (proj1 (proj2 (proj2 (list_params_kwargs i p f o))))
         | |- context [dv_list_creatives_params ?i ?p ?f ?o] =>
             rewrite (proj1 (proj2 (proj2 (proj2 (list_params_kwargs i p f o)))))
         | |- context [dv_list_advertisers_params ?i ?p ?o] =>
             rewrite (proj2 (proj2 (proj2 (proj2 (list_params_kwargs i p None o)))))
         end.

(** Reads the requests off every path of an entity tool. *)
Ltac requests_of_paths w st :=
  run_entity_paths w st; intros H Htr; read_path H Htr;
  match goal with
  | Ho : remote_ops ?pre = [] \/ _ |- _ =>
      rewrite entity_calls_app, (entity_calls_pre pre Ho)
  end; cbn [app entity_calls filter is_entity_call];
  try match goal with
      | Hs : snd (_, _) = _ |- _ => cbn [snd] in Hs; discriminate Hs
      end.

(** X23. An entity tool sends one request at most. When the Display &
    Video 360 service is obtained it sends exactly one, to the method of the
    tool, with the identifiers of the call, a page size of 100 at most in a
    list request, and the optional [filter] and [orderBy] only when they
    are given and not empty; when the service cannot be obtained it sends
    none. *)
Theorem entity_tools_requests (w : world) (c : tool_call) (st st' : pystate)
  (r : result pyval) (evs : list event) :
  is_report c = false ->
  call_tool w c st = (st', r) ->
  trace st' = (trace st ++ evs)%list ->
  match snd (get_dv360_service w st), request_of w c with
  | Normal _, Some (method, kwargs) =>
      exists reply, entity_calls evs = [EntityCall method kwargs reply]
  | _, _ => entity_calls evs = []
  end.
Proof.
  intros Hc. destruct c; try discriminate Hc; cbn [call_tool request_of].
  1: { unfold dv_list_advertisers, partner_of.
       destruct (match partner_id with Some p => Some p | None => DEFAULT_PARTNER_ID w end).
       - requests_of_paths w st; try reflexivity. all: as_kwargs; eexists; reflexivity.
       - intros H Htr. inversion H; subst. rewrite <- app_nil_r in Htr at 1.
         apply trace_suffix in Htr. subst. now destruct (snd _). }
  all: requests_of_paths w st; try reflexivity.
  all: as_kwargs; eexists; reflexivity.
Qed.

(** X24. [dv_list_advertisers] takes its partner from the argument, and
    from [DV360_PARTNER_ID] only without one. With neither, it returns at
    once the record that asks for a partner: nothing is logged, no service
    is built, nothing is requested. With the variable alone, it behaves as
    if the variable had been passed. With an argument, the variable is not
    looked at. *)
Theorem dv_list_advertisers_partner (w : world) (page_size : Z) (order_by : option string)
  (st : pystate) :
  (DEFAULT_PARTNER_ID w = None ->
   dv_list_advertisers w None page_size order_by st
     = (st, Normal (PDict [
          (PStr "success", PBool false);
          (PStr "error",
           PStr "No partner_id provided and DV360_PARTNER_ID not set in .env file");
          (PStr "message",
           PStr "Either provide partner_id parameter or set DV360_PARTNER_ID in your .env file")])))
  /\ (forall p, DEFAULT_PARTNER_ID w = Some p ->
        dv_list_advertisers w None page_size order_by st
          = dv_list_advertisers w (Some p) page_size order_by st)
  /\ (forall p d,
        dv_list_advertisers (with_partner d w) (Some p) page_size order_by st
          = dv_list_advertisers w (Some p) page_size order_by st).
Proof.
  repeat split.
  - intros H. unfold dv_list_advertisers. now rewrite H.
  - intros p H. unfold dv_list_advertisers. now rewrite H.
Qed.
(** ** The entity tools at concrete inputs *)

Lemma tools_log_failures_witness :
  error_logs (trace (fst (call_tool (Examples.entity_world (Raise Examples.missing_campaign))
                            (GetCampaign "1" "2") Examples.fresh)))
    = if succeeded (PDict [(PStr "success", PBool false);
                           (PStr "error", PStr "HttpError 404: Campaign 2 not found");
                           (PStr "message",
                            PStr "Campaign 2 not found for advertiser 1.")])
      then 0 else 1.
Proof.
  apply (tools_log_failures (Examples.entity_world (Raise Examples.missing_campaign))
           (GetCampaign "1" "2") Examples.fresh
           (fst (call_tool (Examples.entity_world (Raise Examples.missing_campaign))
                   (GetCampaign "1" "2") Examples.fresh))).
  - reflexivity.
  - vm_compute. reflexivity.
  - reflexivity.
Defined.

Lemma list_tools_records_witness :
  dv_list_campaigns (Examples.entity_world (Normal (PDict Examples.campaign_page))) "1" 50
    None None Examples.fresh
    = (fst (dv_list_campaigns (Examples.entity_world (Normal (PDict Examples.campaign_page)))
              "1" 50 None None Examples.fresh),
       Normal (PDict [
         (PStr "success", PBool true);
         (PStr "campaigns", PList [
            PDict [(PStr "campaign_id", PStr "7");
                   (PStr "campaign_name", PStr "Spring");
                   (PStr "advertiser_id", PNone);
                   (PStr "entity_status", PNone);
                   (PStr "update_time", PNone);
                   (PStr "campaign_goal", PDict []);
                   (PStr "campaign_flight", PDict []);
                   (PStr "frequency_cap", PDict [])]]);
         (PStr "count", PInt 1);
         (PStr "advertiser_id", PStr "1");
         (PStr "next_page_token", PStr "t2")])).
Proof.
  pose (w := Examples.entity_world (Normal (PDict Examples.campaign_page))).
  pose (out := dv_list_campaigns w "1" 50 None None Examples.fresh).
  assert (In (EntityCall "advertisers.campaigns.list"
                (dv_list_campaigns_params "1" 50 None None)
                (Normal (PDict Examples.campaign_page)))
            (trace (fst out))) as Hin by in_trace.
  pose proof (proj1 (proj2 (list_tools_records w Examples.fresh (fst out) (snd out)
                              (trace (fst out)) _ _ Examples.campaign_page
                              [Examples.spring_campaign] 50 None None "1" Hin))
                eq_refl (surjective_pairing out) eq_refl) as Hr.
  change (out = (fst out, Normal (list_result "campaigns"
                   (map (format_items campaign_fields) [Examples.spring_campaign])
                   "advertiser_id" "1" (get_or_none Examples.campaign_page "nextPageToken")))).
  rewrite <- Hr. apply surjective_pairing.
Defined.

Lemma get_tools_records_witness :
  snd (call_tool (Examples.entity_world (Normal (PDict Examples.spring_campaign)))
         (GetCampaign "1" "7") Examples.fresh)
    = Normal (PDict [(PStr "success", PBool true);
                     (PStr "campaign", PDict Examples.spring_campaign)]).
Proof.
  pose (w := Examples.entity_world (Normal (PDict Examples.spring_campaign))).
  pose (out := call_tool w (GetCampaign "1" "7") Examples.fresh).
  apply (get_tools_records w (GetCampaign "1" "7") Examples.fresh (fst out) (snd out)
           (trace (fst out)) "advertisers.campaigns.get"
           (get_kwargs "1" "campaignId" "7") Examples.spring_campaign).
  - reflexivity.
  - apply surjective_pairing.
  - reflexivity.
  - in_trace.
Defined.

Lemma entity_tools_failures_witness :
  snd (call_tool (Examples.entity_world (Raise Examples.missing_campaign))
         (GetCampaign "1" "2") Examples.fresh)
    = Normal (PDict [(PStr "success", PBool false);
                     (PStr "error", PStr "HttpError 404: Campaign 2 not found");
                     (PStr "message", PStr "Campaign 2 not found for advertiser 1.")]).
Proof.
  pose (w := Examples.entity_world (Raise Examples.missing_campaign)).
  pose (out := call_tool w (GetCampaign "1" "2") Examples.fresh).
  apply (entity_tools_failures w (GetCampaign "1" "2") Examples.fresh (fst out) (snd out)
           (trace (fst out)) "advertisers.campaigns.get"
           (get_kwargs "1" "campaignId" "2") Examples.missing_campaign).
  - reflexivity.
  - apply surjective_pairing.
  - reflexivity.
  - in_trace.
Defined.

Lemma entity_tools_requests_witness :
  exists reply,
    entity_calls (trace (fst (call_tool Examples.scenario_world
                                (ListCampaigns "1" 250 (Some "") (Some "displayName"))
                                Examples.fresh)))
      = [EntityCall "advertisers.campaigns.list"
           (PDict [(PStr "advertiserId", PStr "1"); (PStr "pageSize", PInt 100);
                   (PStr "orderBy", PStr "displayName")])
           reply].
Proof.
  pose (c := ListCampaigns "1" 250 (Some "") (Some "displayName")).
  pose (out := call_tool Examples.scenario_world c Examples.fresh).
  apply (entity_tools_requests Examples.scenario_world c Examples.fresh (fst out) (snd out)
           (trace (fst out))).
  - reflexivity.
  - apply surjective_pairing.
  - reflexivity.
Defined.
(** ** Strings and lists as arguments of the report tool *)



(** ** Report File Decoder: numbers with leading zeros *)

Lemma digits_value_zero (ds : string) :
  Py.digits_value 0%N ("0" ++ ds) = Py.digits_value 0%N ds.
Proof. reflexivity. Qed.

(** X25. A cell of digits loses its leading zeros: a zero written before a
    number of fewer than 4300 digits changes nothing to the integer the
    cell is decoded to, with or without a minus before it, so an identifier
    padded with zeros does not come back as it was written. *)
Theorem convert_value_leading_zero (ds : string) :
  all_decimal ds = true -> is_empty ds = false ->
  String.length ds < Py.int_max_str_digits ->
  convert_value (PStr ds) = Normal (PInt (Z.of_N (Py.digits_value 0%N ds)))
  /\ convert_value (PStr ("0" ++ ds)) = convert_value (PStr ds)
  /\ convert_value (PStr ("-0" ++ ds)) = convert_value (PStr ("-" ++ ds)).
Proof.
  intros Hd He Hlen.
  assert (forall s, all_decimal s = true -> is_empty s = false ->
                    String.length s <= Py.int_max_str_digits ->
                    convert_value (PStr s) = Normal (PInt (Z.of_N (Py.digits_value 0%N s)))
                    /\ convert_value (PStr ("-" ++ s))
                       = Normal (PInt (- Z.of_N (Py.digits_value 0%N s)))) as Hint.
  { intros s Hs Hes Hls. rewrite !convert_value_inferred. unfold inferred.
    assert (has_minus s = false /\ unsigned_part s = s) as [Hm Hu].
    { destruct s as [|c s]; [discriminate Hes|]. cbn [all_decimal Py.forallb_str] in Hs.
      unfold all_decimal in Hs. cbn [Py.forallb_str] in Hs.
      apply andb_true_iff in Hs as [Hc _].
      destruct (decimal_not_dot_minus c Hc) as [_ Hminus].
      unfold has_minus, unsigned_part. now rewrite Hminus. }
    assert (is_empty ("-" ++ s) = false) as -> by reflexivity.
    rewrite Hes. unfold integer_pattern, integer_value.
    change (unsigned_part ("-" ++ s)) with s. change (has_minus ("-" ++ s)) with true.
    rewrite Hu, Hm, Hs, Hes. cbn [negb andb].
    apply Nat.leb_le in Hls. rewrite Hls. now split. }
  assert (all_decimal ("0" ++ ds) = true) as Hd0 by exact Hd.
  destruct (Hint ds Hd He ltac:(lia)) as [H1 H2].
  destruct (Hint ("0" ++ ds) Hd0 eq_refl ltac:(simpl; lia)) as [H3 H4].
  rewrite digits_value_zero in H3, H4.
  split; [exact H1|]. split; [now rewrite H3, H1|].
  change ("-0" ++ ds) with ("-" ++ "0" ++ ds). now rewrite H4, H2.
Qed.

Lemma convert_value_leading_zero_witness :
  convert_value (PStr "42") = Normal (PInt (Z.of_N (Py.digits_value 0%N "42")))
  /\ convert_value (PStr ("0" ++ "42")) = convert_value (PStr "42")
  /\ convert_value (PStr ("-0" ++ "42")) = convert_value (PStr ("-" ++ "42")).
Proof.
  apply (convert_value_leading_zero "42").
  - reflexivity.
  - reflexivity.
  - unfold Py.int_max_str_digits. simpl. lia.
Defined.
